(** * Resume PDF generator: row/style accumulation of [ResumePDFGenerator]

    Shallow embedding of [src/pdf_generation/resume_pdf_generator.py].

    - The input record ([data], parsed JSON/YAML) is an untyped tree of
      Python objects, [value]; a [dict] is an insertion-ordered association
      list with string keys.
    - Python exceptions are values of [exn]; expression evaluation that can
      raise lives in [result], statements that also mutate the two
      accumulator lists live in [M], whose state survives an exception.
    - [table_data] and [table_styles] are the two list objects allocated by
      [generate_resume] and mutated in place by every helper; they are
      fields of [state].  [row_index] is an [int] passed and returned by
      value, a [Z].
    - A [str] is represented by its UTF-8 encoding; iterating it yields
      its code points ([letters]).
    - The module [resume_pdf_styles], [str()] of non-string objects and the
      ReportLab engine are not part of the sources; what the code takes from
      them is gathered in [env].  [Paragraph(...)] is a constructor call
      that can raise ([new_Paragraph]): on a text that is not a [str], and
      on a [str] whose markup ReportLab's parser refuses. *)

From Stdlib Require Import List String Ascii ZArith QArith Lia Bool.
Import ListNotations.
Local Open Scope string_scope.
Local Open Scope Z_scope.

Set Implicit Arguments.
Set Warnings "-register-all".

(** ** Python objects and exceptions *)

Inductive value : Type :=
| VNone
| VBool (b : bool)
| VInt (z : Z)
| VStr (s : string)
| VList (l : list value)
| VDict (kvs : list (string * value)).

Inductive exn : Type :=
| KeyError (k : string)
| IndexError
| TypeError
| AttributeError
| ValueError
| RenderError.

Inductive result (A : Type) : Type :=
| Ok (a : A)
| Err (e : exn).
Arguments Ok {A} a.
Arguments Err {A} e.

Definition rbind {A B} (r : result A) (f : A -> result B) : result B :=
  match r with
  | Ok a => f a
  | Err e => Err e
  end.

Declare Scope result_scope.
Delimit Scope result_scope with res.
Notation "x <- r ;; k" := (rbind r (fun x => k))
  (at level 61, r at next level, right associativity) : result_scope.

Definition is_err {A} (r : result A) : bool :=
  match r with
  | Ok _ => false
  | Err _ => true
  end.

(** ** Python expressions on objects *)

Fixpoint lookup (k : string) (kvs : list (string * value)) : option value :=
  match kvs with
  | [] => None
  | (k', v) :: rest => if String.eqb k k' then Some v else lookup k rest
  end.

(** [v[k]] for a string key [k]. *)
Definition subscript (v : value) (k : string) : result value :=
  match v with
  | VDict kvs =>
      match lookup k kvs with
      | Some x => Ok x
      | None => Err (KeyError k)
      end
  | _ => Err TypeError
  end.

(** A continuation byte of UTF-8: [10xxxxxx]. *)
Definition continuation (c : ascii) : bool :=
  match c with
  | Ascii _ _ _ _ _ _ b6 b7 => b7 && negb b6
  end.

(** The characters (code points) of a string, as one-character strings:
    every byte is grouped with the continuation bytes that follow it. *)
Fixpoint letters (s : string) : list string :=
  match s with
  | EmptyString => []
  | String c rest =>
      match rest with
      | String c' _ =>
          if continuation c'
          then match letters rest with
               | g :: gs => String c g :: gs
               | [] => [String c EmptyString]
               end
          else String c EmptyString :: letters rest
      | EmptyString => [String c EmptyString]
      end
  end.

Definition chars (s : string) : list value := map VStr (letters s).

(** [v[0]].  A dict has string keys only, so the integer key is absent. *)
Definition subscript0 (v : value) : result value :=
  match v with
  | VList (x :: _) => Ok x
  | VList [] => Err IndexError
  | VStr s =>
      match chars s with
      | x :: _ => Ok x
      | [] => Err IndexError
      end
  | VDict _ => Err (KeyError "0")
  | _ => Err TypeError
  end.

(** The elements produced by [iter(v)]: items of a list, characters of a
    string, keys of a dict. *)
Definition iterate (v : value) : result (list value) :=
  match v with
  | VList l => Ok l
  | VStr s => Ok (chars s)
  | VDict kvs => Ok (map (fun kv => VStr (fst kv)) kvs)
  | _ => Err TypeError
  end.

(** [v.keys()] followed by [list(...)]. *)
Definition dict_keys (v : value) : result (list string) :=
  match v with
  | VDict kvs => Ok (map fst kvs)
  | _ => Err AttributeError
  end.

(** [v.get(k, default)]. *)
Definition dict_get (v : value) (k : string) (default : value) : result value :=
  match v with
  | VDict kvs =>
      match lookup k kvs with
      | Some x => Ok x
      | None => Ok default
      end
  | _ => Err AttributeError
  end.

(** Truth value of an object in an [if]. *)
Definition truthy (v : value) : bool :=
  match v with
  | VNone => false
  | VBool b => b
  | VInt z => negb (z =? 0)
  | VStr s => negb (String.eqb s "")
  | VList l => match l with [] => false | _ => true end
  | VDict kvs => match kvs with [] => false | _ => true end
  end.

(** [v == s] for a string literal [s]. *)
Definition eq_str (v : value) (s : string) : bool :=
  match v with
  | VStr s' => String.eqb s' s
  | _ => false
  end.

Fixpoint join (sep : string) (l : list string) : string :=
  match l with
  | [] => ""
  | [x] => x
  | x :: rest => x ++ sep ++ join sep rest
  end.

Fixpoint all_str (l : list value) : result (list string) :=
  match l with
  | [] => Ok []
  | VStr s :: rest => (ss <- all_str rest ;; Ok (s :: ss))%res
  | _ :: _ => Err TypeError
  end.

(** [sep.join(v)]. *)
Definition py_join (sep : string) (v : value) : result string :=
  (l <- iterate v ;;
   ss <- all_str l ;;
   Ok (join sep ss))%res.

(** [s.replace(old, new)] for a non-empty [old] (the only use in the
    source): one scan from the left; at a match [new] is emitted and the
    scan resumes after the match.  [skip] counts the characters of the
    current match that are still to be passed over. *)
Fixpoint replace_from (old new : string) (skip : nat) (s : string) : string :=
  match s with
  | EmptyString => EmptyString
  | String c rest =>
      match skip with
      | S k => replace_from old new k rest
      | O =>
          if String.prefix old s
          then new ++ replace_from old new (Nat.pred (String.length old)) rest
          else String c (replace_from old new 0 rest)
      end
  end.

Definition replace (old new s : string) : string := replace_from old new 0 s.

(** [old in s]. *)
Fixpoint contains (old s : string) : bool :=
  String.prefix old s ||
  match s with
  | EmptyString => false
  | String _ rest => contains old rest
  end.

(** The local function of [generate_resume]. *)
Definition clean_url (url : string) : string :=
  replace "www." "" (replace "http://" "" (replace "https://" "" url)).

(** [clean_url(v)] on an arbitrary object: [replace] is a [str] method. *)
Definition call_clean_url (v : value) : result string :=
  match v with
  | VStr s => Ok (clean_url s)
  | _ => Err AttributeError
  end.

(** [next((clean_url(site["url"]) for site in sites if site["icon"] == icon), "")]:
    the generator is consumed up to its first hit only. *)
Fixpoint first_site (icon : string) (sites : list value) : result string :=
  match sites with
  | [] => Ok ""
  | site :: rest =>
      (ic <- subscript site "icon" ;;
       if eq_str ic icon
       then (u <- subscript site "url" ;; call_clean_url u)
       else first_site icon rest)%res
  end.

(** ** Table rows and style directives *)

(** [PARAGRAPH_STYLES[key]]: the registry is not in the sources, a style is
    identified by its key. *)
Inductive paragraph_style : Type :=
| PARAGRAPH_STYLES (key : string).

(** A [Paragraph] object once built, by [Paragraph(content, style)] or by
    [Paragraph(content, bulletText=..., style=...)]: the arguments it was
    built from. *)
Record paragraph : Type := Paragraph {
  content : value;
  bulletText : option string;
  style : paragraph_style
}.

Definition row : Type := list paragraph.

Inductive arg : Type :=
| Num (z : Z)
| Float (q : Q)
| Color (c : string)
| Word (w : string).

(** A ReportLab command tuple [(cmd, (col, row), (col, row), args...)]. *)
Record directive : Type := Directive {
  cmd : string;
  start : Z * Z;
  stop : Z * Z;
  args : list arg
}.

(** ** What the code takes from outside the sources *)

Record env : Type := {
  DEFAULT_PADDING : Z * Z;               (* resume_pdf_styles.DEFAULT_PADDING *)
  DEBUG_STYLE : directive;               (* resume_pdf_styles.DEBUG_STYLE *)
  DOCUMENT_ALIGNMENT : list directive;   (* resume_pdf_styles.DOCUMENT_ALIGNMENT *)
  FONT_NAMES_bold : string;              (* resume_pdf_styles.FONT_NAMES['bold'] *)
  (* second component of resume_pdf_styles.generate_doc_template(name, loc) *)
  generate_doc_template : value -> string -> string;
  (* str(v) for an object that is not a string *)
  str_other : value -> string;
  (* the exception, if any, that Paragraph(text, bulletText=b, style=s)
     raises on a str that holds markup characters *)
  markup_error : string -> option string -> paragraph_style -> option exn;
  (* whether Table(...), setStyle and doc.build([table]) run to completion *)
  layout_ok : list row -> list directive -> bool
}.

(** ** State and the monad of statements *)

Inductive callee : Type :=
| add_table_row_call
| append_section_table_style_call.

(** History variable (not in the source): what the two lists looked like
    right after a call, and what the call returned. *)
Record call : Type := {
  who : callee;
  returned : option Z;
  rows_then : nat;
  styles_then : list directive
}.

Record state : Type := {
  table_data : list row;
  table_styles : list directive;
  files : list (string * (list row * list directive));
  calls : list call
}.

Definition M (A : Type) : Type := state -> result A * state.

Definition ret {A} (a : A) : M A := fun st => (Ok a, st).

Definition bind {A B} (m : M A) (f : A -> M B) : M B :=
  fun st =>
    match m st with
    | (Ok a, st') => f a st'
    | (Err e, st') => (Err e, st')
    end.

Definition lift {A} (r : result A) : M A := fun st => (r, st).

Notation "x <- m ;; k" := (bind m (fun x => k))
  (at level 61, m at next level, right associativity).
Notation "m ;; k" := (bind m (fun _ => k))
  (at level 61, right associativity).

(** [table_data.append(r)] *)
Definition table_data_append (r : row) : M unit :=
  fun st =>
    (Ok tt, {| table_data := table_data st ++ [r];
               table_styles := table_styles st;
               files := files st;
               calls := calls st |}).

(** [table_styles.extend(ds)]; [append(d)] is [extend([d])]. *)
Definition table_styles_extend (ds : list directive) : M unit :=
  fun st =>
    (Ok tt, {| table_data := table_data st;
               table_styles := table_styles st ++ ds;
               files := files st;
               calls := calls st |}).

(** [table_data = []] and [table_styles = []]: two fresh lists. *)
Definition allocate : M unit :=
  fun st =>
    (Ok tt, {| table_data := [];
               table_styles := [];
               files := files st;
               calls := [] |}).

(** Writes the history variable only. *)
Definition observe (f : callee) (r : option Z) : M unit :=
  fun st =>
    (Ok tt, {| table_data := table_data st;
               table_styles := table_styles st;
               files := files st;
               calls := calls st ++
                        [{| who := f; returned := r;
                            rows_then := List.length (table_data st);
                            styles_then := table_styles st |}] |}).

(** Loop [for x in l: row_index = body(x, row_index)]. *)
Fixpoint for_each {A} (l : list A) (body : A -> Z -> M Z) (row_index : Z) : M Z :=
  match l with
  | [] => ret row_index
  | x :: rest => r <- body x row_index ;; for_each rest body r
  end.

Fixpoint enumerate_from {A} (i : Z) (l : list A) : list (Z * A) :=
  match l with
  | [] => []
  | x :: rest => (i, x) :: enumerate_from (i + 1) rest
  end.

Definition enumerate {A} (l : list A) : list (Z * A) := enumerate_from 0 l.

Section Generator.

Variable E : env.

(** [str(v)], as performed by an f-string field. *)
Definition py_str (v : value) : string :=
  match v with
  | VStr s => s
  | _ => str_other E v
  end.

Definition _append_section_table_style (row_index : Z) : M unit :=
  table_styles_extend
    [ Directive "TOPPADDING" (0, row_index) (1, row_index) [Num 5];
      Directive "BOTTOMPADDING" (0, row_index) (1, row_index) [Num 2];
      Directive "LINEBELOW" (0, row_index) (-1, row_index)
                [Float (1 # 10); Color "black"] ] ;;
  observe append_section_table_style_call None.

(** [if bullet_point:] *)
Definition given (bullet_point : option string) : bool :=
  match bullet_point with
  | Some b => negb (String.eqb b "")
  | None => false
  end.

(** A text without [<] and [&] holds no markup. *)
Definition plain (s : string) : bool :=
  negb (contains "<" s) && negb (contains "&" s).

(** The constructor call [Paragraph(content, bulletText=b, style=s)]:
    ReportLab cleans the text with [str] methods and parses it as markup
    when the object is built.  An object that is not a [str] has none of
    these methods ([AttributeError]); a text without markup is taken as it
    is; on markup the parser decides ([markup_error]: a tag that is unknown
    or not closed is a [ValueError]). *)
Definition new_Paragraph (content : value) (bullet : option string)
    (s : paragraph_style) : result paragraph :=
  match content with
  | VStr text =>
      if plain text
      then Ok (Paragraph content bullet s)
      else match markup_error E text bullet s with
           | None => Ok (Paragraph content bullet s)
           | Some e => Err e
           end
  | _ => Err AttributeError
  end.

(** [[Paragraph(content, bulletText=b, style=style)
      for content, style in content_style_map]], built from left to right. *)
Fixpoint cells (bullet : option string)
    (content_style_map : list (value * paragraph_style)) : result row :=
  match content_style_map with
  | [] => Ok []
  | (content, s) :: rest =>
      (p <- new_Paragraph content bullet s ;;
       ps <- cells bullet rest ;;
       Ok (p :: ps))%res
  end.

Definition _add_table_row (row_index : Z)
    (content_style_map : list (value * paragraph_style))
    (span : bool) (padding : Z * Z) (bullet_point : option string) : M Z :=
  (if given bullet_point
   then r <- lift (cells bullet_point content_style_map) ;;
        table_data_append r
   else r <- lift (cells None content_style_map) ;;
        table_data_append r) ;;
  table_styles_extend
    [ Directive "BOTTOMPADDING" (0, row_index) (-1, row_index) [Num (fst padding)];
      Directive "TOPPADDING" (0, row_index) (-1, row_index) [Num (snd padding)] ] ;;
  (if span
   then table_styles_extend [Directive "SPAN" (0, row_index) (1, row_index) []]
   else ret tt) ;;
  let row_index := row_index + 1 in
  observe add_table_row_call (Some row_index) ;;
  ret row_index.

(** Body of [for i, bullet_point in enumerate(job["highlights"])];
    [n] is [len(job["highlights"])]. *)
Definition highlight_body (n : Z) (ib : Z * value) (row_index : Z) : M Z :=
  let (i, bullet_point) := ib in
  let style :=
    if i =? n - 1
    then PARAGRAPH_STYLES "last_bullet_point"
    else PARAGRAPH_STYLES "bullet_points" in
  let padding := if i =? n - 1 then (5, 1) else (0, 1) in
  _add_table_row row_index [(bullet_point, style)] true padding (Some "•").

(** Body of [for idx, job in enumerate(experiences)]. *)
Definition experience_body (ij : Z * value) (row_index : Z) : M Z :=
  let (idx, job) := ij in
  sd <- lift (t <- subscript job "titles" ;; t0 <- subscript0 t ;;
              subscript t0 "startdate")%res ;;
  ed <- lift (t <- subscript job "titles" ;; t0 <- subscript0 t ;;
              subscript t0 "enddate")%res ;;
  let duration := py_str sd ++ "-" ++ py_str ed in
  company <- lift (subscript job "company") ;;
  row_index <- _add_table_row row_index
    [ (company, PARAGRAPH_STYLES "company_heading");
      (VStr duration, PARAGRAPH_STYLES "company_duration") ]
    false (DEFAULT_PADDING E) None ;;
  title <- lift (t <- subscript job "titles" ;; t0 <- subscript0 t ;;
                 subscript t0 "name")%res ;;
  location <- lift (subscript job "location") ;;
  row_index <- _add_table_row row_index
    [ (title, PARAGRAPH_STYLES "company_title");
      (location, PARAGRAPH_STYLES "company_location") ]
    false (DEFAULT_PADDING E) None ;;
  highlights <- lift (h <- subscript job "highlights" ;; iterate h)%res ;;
  for_each (enumerate highlights)
           (highlight_body (Z.of_nat (List.length highlights))) row_index.

Definition add_experiences (row_index : Z) (experiences : value) : M Z :=
  row_index <- _add_table_row row_index
    [(VStr "Experience", PARAGRAPH_STYLES "section")]
    true (DEFAULT_PADDING E) None ;;
  _append_section_table_style (row_index - 1) ;;
  jobs <- lift (iterate experiences) ;;
  for_each (enumerate jobs) experience_body row_index.

(** Body of [for edu in education]. *)
Definition education_body (edu : value) (row_index : Z) : M Z :=
  degrees <- lift (d <- subscript edu "degrees" ;; d0 <- subscript0 d ;;
                   n <- subscript d0 "names" ;; py_join ", " n)%res ;;
  school <- lift (subscript edu "school") ;;
  _add_table_row row_index
    [ (VStr ("<font name='" ++ FONT_NAMES_bold E ++ "'>" ++ py_str school
             ++ "</font>, " ++ degrees),
       PARAGRAPH_STYLES "education") ]
    true (DEFAULT_PADDING E) None.

Definition add_education (row_index : Z) (education : value) : M Z :=
  row_index <- _add_table_row row_index
    [(VStr "Education", PARAGRAPH_STYLES "section")]
    true (DEFAULT_PADDING E) None ;;
  _append_section_table_style (row_index - 1) ;;
  entries <- lift (iterate education) ;;
  for_each entries education_body row_index.

(** [l[i]] on the list of keys. *)
Definition key_at (l : list string) (i : nat) : result string :=
  match nth_error l i with
  | Some k => Ok k
  | None => Err IndexError
  end.

(** Body of [for group in skills]. *)
Definition skills_body (group : value) (row_index : Z) : M Z :=
  group_keys <- lift (dict_keys group) ;;
  skill_type <- lift (k <- key_at group_keys 0 ;; subscript group k)%res ;;
  skills_list <- lift (k <- key_at group_keys 1 ;; subscript group k)%res ;;
  skills_str <- lift (py_join ", " skills_list) ;;
  let formatted_skills :=
    "<font name='" ++ FONT_NAMES_bold E ++ "'>" ++ py_str skill_type
    ++ "</font>: " ++ skills_str in
  _add_table_row row_index
    [(VStr formatted_skills, PARAGRAPH_STYLES "skills")]
    true (2, 2) None.

Definition add_skills (row_index : Z) (skills : value) : M Z :=
  row_index <- _add_table_row row_index
    [(VStr "Skills", PARAGRAPH_STYLES "section")]
    true (DEFAULT_PADDING E) None ;;
  _append_section_table_style (row_index - 1) ;;
  groups <- lift (iterate skills) ;;
  for_each groups skills_body row_index.

(** [Table(table_data, ...)], [table.setStyle(TableStyle(table_styles))] and
    [doc.build([table])]: the file appears when the engine completes. *)
Definition doc_build (pdf_location : string) : M unit :=
  fun st =>
    if layout_ok E (table_data st) (table_styles st)
    then (Ok tt, {| table_data := table_data st;
                    table_styles := table_styles st;
                    files := (pdf_location, (table_data st, table_styles st))
                               :: files st;
                    calls := calls st |})
    else (Err RenderError, st).

Definition generate_resume (job_data_location : string) (data : value) : M string :=
  email <- lift (b <- subscript data "basic" ;; c <- subscript b "contact" ;;
                 subscript c "email")%res ;;
  name <- lift (b <- subscript data "basic" ;; subscript b "name")%res ;;
  phone <- lift (b <- subscript data "basic" ;; c <- subscript b "contact" ;;
                 subscript c "phone")%res ;;
  linkedin <- lift (b <- subscript data "basic" ;; w <- subscript b "websites" ;;
                    sites <- iterate w ;; first_site "linkedin" sites)%res ;;
  github <- lift (b <- subscript data "basic" ;; w <- subscript b "websites" ;;
                  sites <- iterate w ;; first_site "github" sites)%res ;;
  address <- lift (b <- subscript data "basic" ;; a <- subscript b "address" ;;
                   py_join ", " a)%res ;;
  let pdf_location := generate_doc_template E name job_data_location in
  allocate ;;
  let row_index := 0 in
  debug <- lift (dict_get data "debug" (VBool false)) ;;
  (if truthy debug then table_styles_extend [DEBUG_STYLE E] else ret tt) ;;
  table_styles_extend (DOCUMENT_ALIGNMENT E) ;;
  row_index <- _add_table_row row_index
    [(name, PARAGRAPH_STYLES "name")] true (DEFAULT_PADDING E) None ;;
  row_index <- _add_table_row row_index
    [ (VStr (py_str email ++ " | " ++ py_str phone ++ " | " ++ linkedin
             ++ " | " ++ github ++ " | " ++ address),
       PARAGRAPH_STYLES "contact") ]
    true (DEFAULT_PADDING E) None ;;
  row_index <- _add_table_row row_index
    [(VStr "Objective", PARAGRAPH_STYLES "section")]
    true (DEFAULT_PADDING E) None ;;
  _append_section_table_style (row_index - 1) ;;
  objective <- lift (subscript data "objective") ;;
  row_index <- _add_table_row row_index
    [(objective, PARAGRAPH_STYLES "objective")] true (DEFAULT_PADDING E) None ;;
  experiences <- lift (subscript data "experiences") ;;
  row_index <- add_experiences row_index experiences ;;
  education <- lift (subscript data "education") ;;
  row_index <- add_education row_index education ;;
  skills <- lift (subscript data "skills") ;;
  row_index <- add_skills row_index skills ;;
  doc_build pdf_location ;;
  ret pdf_location.

End Generator.

(** ** The record schema of the specification

    A typed view of the records the generator is meant for, and their
    representation as Python objects. *)

Module Schema.

Record Title : Type := {
  title_name : string;
  startdate : string;
  enddate : string
}.

Record Experience : Type := {
  company : string;
  location : string;
  titles : list Title;
  highlights : list string
}.

Record Degree : Type := {
  names : list string
}.

Record EducationEntry : Type := {
  school : string;
  degrees : list Degree
}.

(** A mapping whose first key holds the label and whose second key holds
    the list of skills; [others] are further entries of the mapping. *)
Record SkillGroup : Type := {
  label_key : string;
  label : string;
  items_key : string;
  items : list string;
  others : list (string * value)
}.

Record Website : Type := {
  icon : string;
  url : string
}.

Record ResumeRecord : Type := {
  name : string;
  email : string;
  phone : string;
  websites : list Website;
  address : list string;
  objective : string;
  experiences : list Experience;
  education : list EducationEntry;
  skills : list SkillGroup;
  debug : option value
}.

Definition strs (l : list string) : value := VList (map VStr l).

Definition encode_title (t : Title) : value :=
  VDict [("name", VStr (title_name t));
         ("startdate", VStr (startdate t));
         ("enddate", VStr (enddate t))].

Definition encode_experience (e : Experience) : value :=
  VDict [("company", VStr (company e));
         ("location", VStr (location e));
         ("titles", VList (map encode_title (titles e)));
         ("highlights", strs (highlights e))].

Definition encode_degree (d : Degree) : value :=
  VDict [("names", strs (names d))].

Definition encode_education (ed : EducationEntry) : value :=
  VDict [("school", VStr (school ed));
         ("degrees", VList (map encode_degree (degrees ed)))].

Definition encode_skill_group (g : SkillGroup) : value :=
  VDict ((label_key g, VStr (label g))
           :: (items_key g, strs (items g))
           :: others g).

Definition encode_website (w : Website) : value :=
  VDict [("icon", VStr (icon w)); ("url", VStr (url w))].

Definition encode_basic (r : ResumeRecord) : value :=
  VDict [("name", VStr (name r));
         ("address", strs (address r));
         ("contact", VDict [("email", VStr (email r));
                            ("phone", VStr (phone r))]);
         ("websites", VList (map encode_website (websites r)))].

Definition encode_experiences (l : list Experience) : value :=
  VList (map encode_experience l).

Definition encode_educations (l : list EducationEntry) : value :=
  VList (map encode_education l).

Definition encode_skills (l : list SkillGroup) : value :=
  VList (map encode_skill_group l).

Definition encode (r : ResumeRecord) : value :=
  VDict ([("basic", encode_basic r);
          ("objective", VStr (objective r));
          ("education", encode_educations (education r));
          ("skills", encode_skills (skills r));
          ("experiences", encode_experiences (experiences r))]
         ++ match debug r with
            | Some d => [("debug", d)]
            | None => []
            end).

Definition has_title (e : Experience) : bool :=
  match titles e with [] => false | _ => true end.

Definition has_degree (ed : EducationEntry) : bool :=
  match degrees ed with [] => false | _ => true end.

Definition two_keys (g : SkillGroup) : bool :=
  negb (String.eqb (items_key g) (label_key g)).

(** First-element accesses are defined and the two keys of a skill group
    are different keys. *)
Definition valid (r : ResumeRecord) : bool :=
  forallb has_title (experiences r)
  && forallb has_degree (education r)
  && forallb two_keys (skills r).

Definition total_highlights (l : list Experience) : nat :=
  fold_right (fun e n => (List.length (highlights e) + n)%nat) 0%nat l.

(** Rows of the experiences that precede position [j]. *)
Definition rows_before (j : nat) (l : list Experience) : nat :=
  fold_right (fun e n => (2 + List.length (highlights e) + n)%nat) 0%nat
             (firstn j l).

End Schema.

(** ** Expected output on typed records *)

Section Expected.

Variable E : env.

Definition row_styles (row_index : Z) (padding : Z * Z) (span : bool)
  : list directive :=
  [ Directive "BOTTOMPADDING" (0, row_index) (-1, row_index) [Num (fst padding)];
    Directive "TOPPADDING" (0, row_index) (-1, row_index) [Num (snd padding)] ]
  ++ (if span then [Directive "SPAN" (0, row_index) (1, row_index) []] else []).

Definition underline (row_index : Z) : list directive :=
  [ Directive "TOPPADDING" (0, row_index) (1, row_index) [Num 5];
    Directive "BOTTOMPADDING" (0, row_index) (1, row_index) [Num 2];
    Directive "LINEBELOW" (0, row_index) (-1, row_index)
              [Float (1 # 10); Color "black"] ].

Definition heading_row (title : string) : row :=
  [Paragraph (VStr title) None (PARAGRAPH_STYLES "section")].

Definition heading_styles (row_index : Z) : list directive :=
  row_styles row_index (DEFAULT_PADDING E) true ++ underline row_index.

Definition is_last (n i : Z) : bool := i =? n - 1.

Definition bullet_row (n i : Z) (h : value) : row :=
  [Paragraph h (Some "•")
     (PARAGRAPH_STYLES (if is_last n i then "last_bullet_point"
                        else "bullet_points"))].

Definition bullet_styles (n i row_index : Z) : list directive :=
  row_styles row_index (if is_last n i then (5, 1) else (0, 1)) true.

Fixpoint highlight_rows (n i : Z) (hs : list value) : list row :=
  match hs with
  | [] => []
  | h :: rest => bullet_row n i h :: highlight_rows n (i + 1) rest
  end.

Fixpoint highlight_styles (n i row_index : Z) (hs : list value)
  : list directive :=
  match hs with
  | [] => []
  | _ :: rest =>
      bullet_styles n i row_index
      ++ highlight_styles n (i + 1) (row_index + 1) rest
  end.

Definition first_title (e : Schema.Experience) : Schema.Title :=
  match Schema.titles e with
  | t :: _ => t
  | [] => {| Schema.title_name := ""; Schema.startdate := "";
             Schema.enddate := "" |}
  end.

Definition experience_rows (e : Schema.Experience) : list row :=
  let hs := map VStr (Schema.highlights e) in
  [ [ Paragraph (VStr (Schema.company e)) None
        (PARAGRAPH_STYLES "company_heading");
      Paragraph (VStr (Schema.startdate (first_title e) ++ "-"
                       ++ Schema.enddate (first_title e))) None
        (PARAGRAPH_STYLES "company_duration") ];
    [ Paragraph (VStr (Schema.title_name (first_title e))) None
        (PARAGRAPH_STYLES "company_title");
      Paragraph (VStr (Schema.location e)) None
        (PARAGRAPH_STYLES "company_location") ] ]
  ++ highlight_rows (Z.of_nat (List.length hs)) 0 hs.

Definition experience_styles (row_index : Z) (e : Schema.Experience)
  : list directive :=
  let hs := map VStr (Schema.highlights e) in
  row_styles row_index (DEFAULT_PADDING E) false
  ++ row_styles (row_index + 1) (DEFAULT_PADDING E) false
  ++ highlight_styles (Z.of_nat (List.length hs)) 0 (row_index + 2) hs.

Definition experience_height (e : Schema.Experience) : Z :=
  2 + Z.of_nat (List.length (Schema.highlights e)).

Fixpoint experiences_rows (l : list Schema.Experience) : list row :=
  match l with
  | [] => []
  | e :: rest => experience_rows e ++ experiences_rows rest
  end.

Fixpoint experiences_styles (row_index : Z) (l : list Schema.Experience)
  : list directive :=
  match l with
  | [] => []
  | e :: rest =>
      experience_styles row_index e
      ++ experiences_styles (row_index + experience_height e) rest
  end.

Fixpoint experiences_height (l : list Schema.Experience) : Z :=
  match l with
  | [] => 0
  | e :: rest => experience_height e + experiences_height rest
  end.

Definition first_degree (ed : Schema.EducationEntry) : Schema.Degree :=
  match Schema.degrees ed with
  | d :: _ => d
  | [] => {| Schema.names := [] |}
  end.

Definition education_row (ed : Schema.EducationEntry) : row :=
  [Paragraph
     (VStr ("<font name='" ++ FONT_NAMES_bold E ++ "'>" ++ Schema.school ed
            ++ "</font>, " ++ join ", " (Schema.names (first_degree ed))))
     None (PARAGRAPH_STYLES "education")].

Fixpoint education_styles (row_index : Z) (l : list Schema.EducationEntry)
  : list directive :=
  match l with
  | [] => []
  | _ :: rest =>
      row_styles row_index (DEFAULT_PADDING E) true
      ++ education_styles (row_index + 1) rest
  end.

(** The row of a skill group: a function of the first two entries only. *)
Definition skills_row (lbl : string) (its : list string) : row :=
  [Paragraph
     (VStr ("<font name='" ++ FONT_NAMES_bold E ++ "'>" ++ lbl
            ++ "</font>: " ++ join ", " its))
     None (PARAGRAPH_STYLES "skills")].

Fixpoint skills_styles (row_index : Z) (l : list Schema.SkillGroup)
  : list directive :=
  match l with
  | [] => []
  | _ :: rest =>
      row_styles row_index (2, 2) true ++ skills_styles (row_index + 1) rest
  end.

(** First cleaned URL among the websites carrying [icon], else empty. *)
Fixpoint site_of (icon : string) (l : list Schema.Website) : string :=
  match l with
  | [] => ""
  | w :: rest =>
      if String.eqb (Schema.icon w) icon
      then clean_url (Schema.url w)
      else site_of icon rest
  end.

Definition contact_line (r : Schema.ResumeRecord) : string :=
  Schema.email r ++ " | " ++ Schema.phone r ++ " | "
  ++ site_of "linkedin" (Schema.websites r) ++ " | "
  ++ site_of "github" (Schema.websites r) ++ " | "
  ++ join ", " (Schema.address r).

Definition debug_styles (r : Schema.ResumeRecord) : list directive :=
  match Schema.debug r with
  | Some d => if truthy d then [DEBUG_STYLE E] else []
  | None => []
  end.

Definition document_rows (r : Schema.ResumeRecord) : list row :=
  [ [Paragraph (VStr (Schema.name r)) None (PARAGRAPH_STYLES "name")];
    [Paragraph (VStr (contact_line r)) None (PARAGRAPH_STYLES "contact")];
    heading_row "Objective";
    [Paragraph (VStr (Schema.objective r)) None (PARAGRAPH_STYLES "objective")] ]
  ++ (heading_row "Experience" :: experiences_rows (Schema.experiences r))
  ++ (heading_row "Education" :: map education_row (Schema.education r))
  ++ (heading_row "Skills"
        :: map (fun g => skills_row (Schema.label g) (Schema.items g))
               (Schema.skills r)).

Definition document_styles (r : Schema.ResumeRecord) : list directive :=
  let n1 := 4 in
  let n2 := n1 + 1 + experiences_height (Schema.experiences r) in
  let n3 := n2 + 1 + Z.of_nat (List.length (Schema.education r)) in
  debug_styles r ++ DOCUMENT_ALIGNMENT E
  ++ row_styles 0 (DEFAULT_PADDING E) true
  ++ row_styles 1 (DEFAULT_PADDING E) true
  ++ heading_styles 2
  ++ row_styles 3 (DEFAULT_PADDING E) true
  ++ (heading_styles n1
        ++ experiences_styles (n1 + 1) (Schema.experiences r))
  ++ (heading_styles n2 ++ education_styles (n2 + 1) (Schema.education r))
  ++ (heading_styles n3 ++ skills_styles (n3 + 1) (Schema.skills r)).

End Expected.

(** ** Row counts *)

(** The count as the specification words it. *)
Definition claimed_row_count (r : Schema.ResumeRecord) : nat :=
  (2 + 2
   + (1 + 3 * List.length (Schema.experiences r)
      + Schema.total_highlights (Schema.experiences r))
   + (1 + List.length (Schema.education r))
   + (1 + List.length (Schema.skills r)))%nat.

(** Two rows per experience, then its highlights. *)
Definition row_count (r : Schema.ResumeRecord) : nat :=
  (2 + 2
   + (1 + 2 * List.length (Schema.experiences r)
      + Schema.total_highlights (Schema.experiences r))
   + (1 + List.length (Schema.education r))
   + (1 + List.length (Schema.skills r)))%nat.

(** ** URL cleaning as the specification words it: each of the three
    prefixes is removed once, at the start of the string only. *)

Definition strip_prefix (p s : string) : string :=
  if String.prefix p s
  then String.substring (String.length p)
         (String.length s - String.length p) s
  else s.

Definition clean_url_prefixes (url : string) : string :=
  strip_prefix "www." (strip_prefix "http://" (strip_prefix "https://" url)).

(** None of the three patterns occurs in [s]. *)
Definition pattern_free (s : string) : bool :=
  negb (contains "https://" s) && negb (contains "http://" s)
  && negb (contains "www." s).

(** ** Reading directives back *)

Definition rows_of (d : directive) : list Z := [snd (start d); snd (stop d)].

(** Values of the [BOTTOMPADDING] directives of [ds] scoped to row [k]. *)
Definition bottom_paddings (ds : list directive) (k : Z) : list (list arg) :=
  map args
      (filter (fun d => String.eqb (cmd d) "BOTTOMPADDING"
                        && (snd (start d) =? k) && (snd (stop d) =? k))
              ds).

(** [r] indexes one of [n] rows, counting from the end when negative. *)
Definition refers (n : nat) (r : Z) : Prop :=
  - Z.of_nat n <= r < Z.of_nat n.

(** A directive over the whole table: from row 0 or to the last row. *)
Definition whole_table (d : directive) : Prop :=
  Forall (fun r => r = 0 \/ r = -1) (rows_of d).

Definition globals_whole_table (E : env) : Prop :=
  Forall whole_table (DEBUG_STYLE E :: DOCUMENT_ALIGNMENT E).

(** What must hold right after a call of one of the two helpers. *)
Definition call_ok (c : call) : Prop :=
  Forall (fun d => Forall (refers (rows_then c)) (rows_of d)) (styles_then c)
  /\ match who c with
     | add_table_row_call => returned c = Some (Z.of_nat (rows_then c))
     | append_section_table_style_call => returned c = None
     end.

(** ** Judgements on statements *)

(** [m] returns [a] from every state, appending exactly [rows] and [dirs]
    and writing no file. *)
Definition emits {A} (m : M A) (a : A) (rows : list row)
    (dirs : list directive) : Prop :=
  forall st, exists st',
    m st = (Ok a, st')
    /\ table_data st' = (table_data st ++ rows)%list
    /\ table_styles st' = (table_styles st ++ dirs)%list
    /\ files st' = files st.

(** Hoare triple with a normal and an exceptional postcondition. *)
Definition triple {A} (P : state -> Prop) (m : M A)
    (Q : A -> state -> Prop) (X : state -> Prop) : Prop :=
  forall st, P st ->
    match m st with
    | (Ok a, st') => Q a st'
    | (Err _, st') => X st'
    end.

(** Two states with the same lists (their files may differ). *)
Definition same_lists (s1 s2 : state) : Prop :=
  table_data s1 = table_data s2
  /\ table_styles s1 = table_styles s2
  /\ calls s1 = calls s2.

(** [m] neither reads nor writes the files. *)
Definition oblivious {A} (m : M A) : Prop :=
  forall s1 s2, same_lists s1 s2 ->
    fst (m s1) = fst (m s2) /\ same_lists (snd (m s1)) (snd (m s2)).

(** [m] leaves the files as they are, however it ends. *)
Definition keeps {A} (m : M A) : Prop :=
  forall st, files (snd (m st)) = files st.

(** [m] raises from every state. *)
Definition fails {A} (m : M A) : Prop :=
  forall st, is_err (fst (m st)) = true.

(** [data[k1][k2]...] *)
Definition get (data : value) (path : list string) : result value :=
  fold_left (fun r k => (v <- r ;; subscript v k)%res) path (Ok data).

(** [m] leaves the files as they are whenever it raises. *)
Definition quiet {A} (m : M A) : Prop :=
  forall st, is_err (fst (m st)) = true -> files (snd (m st)) = files st.

(** Every entry of the history is as it must be. *)
Definition logged (st : state) : Prop := Forall call_ok (calls st).

(** A directive that is in range once the table has a row: it ranges over
    the whole table or refers to one of the [n] rows. *)
Definition pending (n : nat) (d : directive) : Prop :=
  Forall (fun r => r = 0 \/ r = -1 \/ refers n r) (rows_of d).

(** The invariant of the accumulation: [row_index] is the number of rows,
    no directive runs ahead of the rows, and the history is fine. *)
Definition Inv (row_index : Z) (st : state) : Prop :=
  row_index = Z.of_nat (List.length (table_data st))
  /\ Forall (pending (List.length (table_data st))) (table_styles st)
  /\ logged st.

(** ** Rows that the constructor accepts *)

(** [Paragraph(...)] returns the cell [p] when called with its fields. *)
Definition accepted_cell (E : env) (p : paragraph) : bool :=
  match content p with
  | VStr text =>
      plain text
      || match markup_error E text (bulletText p) (style p) with
         | None => true
         | Some _ => false
         end
  | _ => false
  end.

Definition accepted_row (E : env) (r : row) : bool :=
  forallb (accepted_cell E) r.

Definition accepted (E : env) (rows : list row) : bool :=
  forallb (accepted_row E) rows.

(** The cells as data, before the constructor has looked at them. *)
Definition cells_of (bullet_point : option string)
    (content_style_map : list (value * paragraph_style)) : row :=
  map (fun cs => Paragraph (fst cs)
                   (if given bullet_point then bullet_point else None)
                   (snd cs))
      content_style_map.

(** The state after a call of [_add_table_row] that has built its cells
    [r]. *)
Definition appended (row_index : Z) (r : row) (span : bool)
    (padding : Z * Z) (st : state) : state :=
  {| table_data := table_data st ++ [r];
     table_styles := table_styles st ++ row_styles row_index padding span;
     files := files st;
     calls := calls st ++
              [{| who := add_table_row_call;
                  returned := Some (row_index + 1);
                  rows_then := List.length (table_data st ++ [r]);
                  styles_then :=
                    table_styles st ++ row_styles row_index padding span |}] |}.

(** ** A concrete environment and concrete records, for running the model

    [DEFAULT_PADDING] is [(1, 1)] as the docstring of [_add_table_row]
    says; the grid and the alignment range over the whole table; the
    markup check refuses tags that are not closed in order; the remaining
    entries are sample values. *)

Fixpoint upto_space (s : string) : string :=
  match s with
  | EmptyString => EmptyString
  | String c rest =>
      if Ascii.eqb c " " then EmptyString else String c (upto_space rest)
  end.

Fixpoint ends_with (c0 : ascii) (s : string) : bool :=
  match s with
  | EmptyString => false
  | String c EmptyString => Ascii.eqb c c0
  | String _ rest => ends_with c0 rest
  end.

(** What the tag [<body>] does to the stack of open tags. *)
Definition tag_step (body : string) (open : list string)
  : option (list string) :=
  match body with
  | String "/" name =>
      match open with
      | top :: rest => if String.eqb top name then Some rest else None
      | [] => None
      end
  | _ =>
      if ends_with "/" body then Some open
      else Some (upto_space body :: open)
  end.

(** One scan of the text; [tag] holds the tag being read, if any. *)
Fixpoint balanced (s : string) (open : list string) (tag : option string)
  : bool :=
  match s with
  | EmptyString =>
      match tag, open with
      | None, [] => true
      | _, _ => false
      end
  | String c rest =>
      match tag with
      | None =>
          if Ascii.eqb c "<" then balanced rest open (Some EmptyString)
          else balanced rest open None
      | Some body =>
          if Ascii.eqb c ">"
          then match tag_step body open with
               | Some open' => balanced rest open' None
               | None => false
               end
          else balanced rest open (Some (body ++ String c EmptyString))
      end
  end.

Definition sample_env : env :=
  {| DEFAULT_PADDING := (1, 1);
     DEBUG_STYLE := Directive "GRID" (0, 0) (-1, -1) [Num 0; Color "blue"];
     DOCUMENT_ALIGNMENT :=
       [ Directive "ALIGN" (0, 0) (0, -1) [Word "LEFT"];
         Directive "ALIGN" (1, 0) (1, -1) [Word "RIGHT"] ];
     FONT_NAMES_bold := "Bold";
     generate_doc_template := fun name loc => loc ++ "/resume.pdf";
     str_other := fun _ => "?";
     markup_error :=
       fun text _ _ => if balanced text [] None then None else Some ValueError;
     layout_ok := fun _ _ => true |}.

Definition initial_state : state :=
  {| table_data := []; table_styles := []; files := []; calls := [] |}.

Definition job (n : string) (hs : list string) : Schema.Experience :=
  {| Schema.company := n;
     Schema.location := "Pune";
     Schema.titles := [ {| Schema.title_name := "Engineer";
                           Schema.startdate := "2020";
                           Schema.enddate := "2022" |} ];
     Schema.highlights := hs |}.

Definition sample_record : Schema.ResumeRecord :=
  {| Schema.name := "A. D.";
     Schema.email := "a@b.c";
     Schema.phone := "555";
     Schema.websites :=
       [ {| Schema.icon := "linkedin";
            Schema.url := "https://www.linkedin.com/in/x" |} ];
     Schema.address := ["Pune"; "India"];
     Schema.objective := "Build things.";
     Schema.experiences :=
       [ job "Acme" ["one"];
         job "Bolt" ["one"; "two"];
         job "Core" ["one"; "two"; "three"; "four"; "five"] ];
     Schema.education :=
       [ {| Schema.school := "MIT";
            Schema.degrees := [ {| Schema.names := ["BSc"; "MSc"] |} ] |} ];
     Schema.skills :=
       [ {| Schema.label_key := "category";
            Schema.label := "Languages";
            Schema.items_key := "skills";
            Schema.items := ["Go"; "Rust"];
            Schema.others := [("level", VStr "expert")] |} ];
     Schema.debug := None |}.

Definition empty_record : Schema.ResumeRecord :=
  {| Schema.name := "A. D.";
     Schema.email := "a@b.c";
     Schema.phone := "555";
     Schema.websites := [];
     Schema.address := [];
     Schema.objective := "";
     Schema.experiences := [];
     Schema.education := [];
     Schema.skills := [];
     Schema.debug := None |}.

(** [del k d]: the mapping [d] without the key [k]. *)
Definition del (k : string) (d : value) : value :=
  match d with
  | VDict kvs => VDict (filter (fun kv => negb (String.eqb (fst kv) k)) kvs)
  | _ => d
  end.

(** The sample record without [basic.contact.email]. *)
Definition record_without_email : value :=
  VDict [("basic",
          VDict [("name", VStr "A. D.");
                 ("address", VList [VStr "Pune"]);
                 ("contact", VDict [("phone", VStr "555")]);
                 ("websites", VList [])]);
         ("objective", VStr "Build things.");
         ("education", VList []);
         ("skills", VList []);
         ("experiences", VList [])].

(** The sample record with one experience, which has no highlights. *)
Definition record_without_highlights : Schema.ResumeRecord :=
  {| Schema.name := Schema.name sample_record;
     Schema.email := Schema.email sample_record;
     Schema.phone := Schema.phone sample_record;
     Schema.websites := Schema.websites sample_record;
     Schema.address := Schema.address sample_record;
     Schema.objective := Schema.objective sample_record;
     Schema.experiences := [job "Acme" []];
     Schema.education := Schema.education sample_record;
     Schema.skills := Schema.skills sample_record;
     Schema.debug := None |}.

(** A record whose only experience has an empty [titles] list. *)
Definition record_with_untitled_job : value :=
  VDict [("basic",
          VDict [("name", VStr "A. D.");
                 ("address", VList [VStr "Pune"]);
                 ("contact", VDict [("email", VStr "a@b.c");
                                    ("phone", VStr "555")]);
                 ("websites", VList [])]);
         ("objective", VStr "Build things.");
         ("education", VList []);
         ("skills", VList []);
         ("experiences",
          VList [VDict [("company", VStr "Acme");
                        ("location", VStr "Pune");
                        ("titles", VList []);
                        ("highlights", VList [VStr "one"])]])].

(** ** The remaining methods of [ResumePDFGenerator] *)

(** [generate_pdf_from_resume_yaml]: [utils.read_yaml] is not in the
    sources; [read_yaml] is what it returns or raises for a file name. *)
Definition generate_pdf_from_resume_yaml (read_yaml : string -> result value)
    (E : env) (yaml_path job_data_location : string) : M string :=
  data <- lift (read_yaml yaml_path) ;;
  generate_resume E job_data_location data.

Fixpoint lookup_name (k : string) (d : list (string * string)) : option string :=
  match d with
  | [] => None
  | (k', v) :: rest => if String.eqb k k' then Some v else lookup_name k rest
  end.

(** [_register_fonts], called by [__init__]: the two dicts
    [FONT_PATHS] and [FONT_NAMES] of [resume_pdf_styles] are parameters; the
    state is the sequence of fonts handed to [pdfmetrics.registerFont], a
    font [TTFont(name, path)] being kept as the pair of its arguments. *)
Fixpoint _register_fonts (FONT_PATHS FONT_NAMES : list (string * string))
    (registered : list (string * string))
  : result unit * list (string * string) :=
  match FONT_PATHS with
  | [] => (Ok tt, registered)
  | (style, path) :: rest =>
      match lookup_name style FONT_NAMES with
      | Some name =>
          _register_fonts rest FONT_NAMES (registered ++ [(name, path)])
      | None => (Err (KeyError style), registered)
      end
  end.

(** ** Shapes of rows and directives *)

(** The typed record [r] with its [debug] entry replaced. *)
Definition set_debug (d : option value) (r : Schema.ResumeRecord)
  : Schema.ResumeRecord :=
  {| Schema.name := Schema.name r;
     Schema.email := Schema.email r;
     Schema.phone := Schema.phone r;
     Schema.websites := Schema.websites r;
     Schema.address := Schema.address r;
     Schema.objective := Schema.objective r;
     Schema.experiences := Schema.experiences r;
     Schema.education := Schema.education r;
     Schema.skills := Schema.skills r;
     Schema.debug := d |}.

(** The four section titles. *)
Definition section_titles : list string :=
  ["Objective"; "Experience"; "Education"; "Skills"].

(** The three shapes of a row: a text cell, two text cells, or one cell
    bulleted with the fixed glyph in one of the two bullet styles. *)
Definition row_shape (r : row) : Prop :=
  (exists x k, r = [Paragraph x None (PARAGRAPH_STYLES k)])
  \/ (exists x1 k1 x2 k2,
         r = [Paragraph x1 None (PARAGRAPH_STYLES k1);
              Paragraph x2 None (PARAGRAPH_STYLES k2)])
  \/ (exists x k,
         (k = "bullet_points" \/ k = "last_bullet_point")
         /\ r = [Paragraph x (Some "•") (PARAGRAPH_STYLES k)]).

Definition SPAN (k : Z) : directive := Directive "SPAN" (0, k) (1, k) [].

(** Spanning and having a single cell go together. *)
Definition spans_match (st : state) : Prop :=
  (forall k r, nth_error (table_data st) k = Some r ->
               List.length r = 1%nat ->
               In (SPAN (Z.of_nat k)) (table_styles st))
  /\ (forall d, In d (table_styles st) -> cmd d = "SPAN" ->
                exists k c, d = SPAN (Z.of_nat k)
                            /\ nth_error (table_data st) k = Some [c]).

(** Every rule below a row is below one of the four section headings. *)
Definition underlines_ok (st : state) : Prop :=
  forall d, In d (table_styles st) -> cmd d = "LINEBELOW" ->
    exists k title,
      In title section_titles
      /\ snd (start d) = Z.of_nat k /\ snd (stop d) = Z.of_nat k
      /\ nth_error (table_data st) k
         = Some [Paragraph (VStr title) None (PARAGRAPH_STYLES "section")].

(** [st] is [s0] with rows and directives appended, the files untouched. *)
Definition extends (s0 st : state) : Prop :=
  exists rows dirs,
    table_data st = (table_data s0 ++ rows)%list
    /\ table_styles st = (table_styles s0 ++ dirs)%list
    /\ files st = files s0.

(** [st] extends [s0], and [r] has advanced from [r0] by the number of rows
    appended. *)
Definition grown (s0 : state) (r0 r : Z) (st : state) : Prop :=
  extends s0 st
  /\ r = r0 + Z.of_nat (List.length (table_data st))
         - Z.of_nat (List.length (table_data s0)).

(** [m] returns [p] after writing the lists to the file [p], or raises
    and writes nothing. *)
Definition writes (p : string) (m : M string) : Prop :=
  forall st,
    match m st with
    | (Ok q, st') =>
        q = p
        /\ files st' = (p, (table_data st', table_styles st')) :: files st
    | (Err _, st') => files st' = files st
    end.

Definition is_str (v : value) : bool :=
  match v with
  | VStr _ => true
  | _ => false
  end.

(** [site] is skipped by the search for [icon]. *)
Definition other_icon (icon : string) (site : value) : Prop :=
  exists ic, subscript site "icon" = Ok ic /\ eq_str ic icon = false.

(** The state a run leaves when it starts to append rows: empty rows, the
    grid when asked for, the alignment. *)
Definition start_state (E : env) (grid : bool) (fs : list (string * (list row * list directive)))
  : state :=
  {| table_data := [];
     table_styles := (if grid then [DEBUG_STYLE E] else [])
                     ++ DOCUMENT_ALIGNMENT E;
     files := fs;
     calls := [] |}.

(** The fonts that [_register_fonts] hands over for the entries [paths]. *)
Definition fonts_of (FONT_NAMES paths : list (string * string))
  : list (string * string) :=
  map (fun sp => (match lookup_name (fst sp) FONT_NAMES with
                  | Some name => name
                  | None => ""
                  end, snd sp)) paths.

(** [st] is [s0] with rows and directives appended, the directives all for
    rows from [r0] on. *)
Definition later (s0 : state) (r0 : Z) (st : state) : Prop :=
  exists rows dirs,
    table_data st = (table_data s0 ++ rows)%list
    /\ table_styles st = (table_styles s0 ++ dirs)%list
    /\ Forall (fun d => r0 <= snd (start d)) dirs.

(** [s1] is [s2] with the directives [g] in front of its directives. *)
Definition ahead (g : list directive) (s1 s2 : state) : Prop :=
  table_data s1 = table_data s2
  /\ table_styles s1 = (g ++ table_styles s2)%list.

(** Run from two such states, [m1] and [m2] end alike and in two such
    states. *)
Definition tracks (g : list directive) {A} (m1 m2 : M A) : Prop :=
  forall s1 s2, ahead g s1 s2 ->
    fst (m1 s1) = fst (m2 s2) /\ ahead g (snd (m1 s1)) (snd (m2 s2)).

(** Run from two such states, [m1] and [m2] end in two such states. *)
Definition follows (g : list directive) {A} (m1 m2 : M A) : Prop :=
  forall s1 s2, ahead g s1 s2 -> ahead g (snd (m1 s1)) (snd (m2 s2)).

(** The rows that the table holds when [generate_resume] looks up the
    top-level key [k]. *)
Definition rows_read (k : string) (r : Schema.ResumeRecord) : nat :=
  if String.eqb k "objective" then 3
  else if String.eqb k "experiences" then 4
  else if String.eqb k "education"
       then 5 + List.length (experiences_rows (Schema.experiences r))
       else 6 + List.length (experiences_rows (Schema.experiences r))
            + List.length (Schema.education r).

(** The sample record with a bold tag left open in its objective. *)
Definition record_with_open_tag : Schema.ResumeRecord :=
  {| Schema.name := Schema.name sample_record;
     Schema.email := Schema.email sample_record;
     Schema.phone := Schema.phone sample_record;
     Schema.websites := Schema.websites sample_record;
     Schema.address := Schema.address sample_record;
     Schema.objective := "<b>Build things.";
     Schema.experiences := Schema.experiences sample_record;
     Schema.education := Schema.education sample_record;
     Schema.skills := Schema.skills sample_record;
     Schema.debug := None |}.

(** [put k v d]: the mapping [d] with the value of its key [k] replaced
    by [v]. *)
Definition put (k : string) (v : value) (d : value) : value :=
  match d with
  | VDict kvs =>
      VDict (map (fun kv => if String.eqb (fst kv) k then (k, v) else kv) kvs)
  | _ => d
  end.

(** * Properties *)

(** ** Strings *)

Lemma replace_from_cons (old new : string) (k : nat) (c : ascii) (s : string) :
  replace_from old new k (String c s) =
  match k with
  | S k' => replace_from old new k' s
  | O =>
      if String.prefix old (String c s)
      then new ++ replace_from old new (Nat.pred (String.length old)) s
      else String c (replace_from old new 0 s)
  end.
Proof. reflexivity. Qed.

Lemma contains_cons (old : string) (c : ascii) (s : string) :
  contains old (String c s) = String.prefix old (String c s) || contains old s.
Proof. destruct s; reflexivity. Qed.

Lemma length_replace_from (old : string) (k : nat) (s : string) :
  (String.length (replace_from old "" k s) <= String.length s)%nat.
Proof.
  revert k. induction s as [|c s IH]; intros k.
  - simpl. lia.
  - rewrite replace_from_cons. destruct k as [|k].
    + destruct (String.prefix old (String c s)).
      * specialize (IH (Nat.pred (String.length old))).
        change ("" ++ ?x) with x. simpl String.length. lia.
      * specialize (IH 0%nat). simpl String.length. lia.
    + specialize (IH k). simpl String.length. lia.
Qed.

Lemma length_replace (old s : string) :
  (String.length (replace old "" s) <= String.length s)%nat.
Proof. apply length_replace_from. Qed.

Lemma replace_absent (old new s : string) :
  contains old s = false -> replace old new s = s.
Proof.
  unfold replace. induction s as [|c s IH]; intros H.
  - reflexivity.
  - rewrite contains_cons in H. apply orb_false_iff in H.
    destruct H as [Hp Hc].
    rewrite replace_from_cons, Hp. f_equal. apply IH, Hc.
Qed.

Lemma replace_shrinks (old s : string) :
  old <> "" -> contains old s = true ->
  (String.length (replace old "" s) < String.length s)%nat.
Proof.
  unfold replace. intros Hne. induction s as [|c s IH]; intros H.
  - destruct old; [congruence | discriminate].
  - rewrite contains_cons in H. rewrite replace_from_cons.
    destruct (String.prefix old (String c s)) eqn:Hp.
    + change ("" ++ ?x) with x.
      pose proof (length_replace_from old (Nat.pred (String.length old)) s).
      simpl String.length. lia.
    + simpl in H. specialize (IH H). simpl String.length. lia.
Qed.

Lemma clean_url_fixed (s : string) :
  clean_url s = s <-> pattern_free s = true.
Proof.
  unfold pattern_free, clean_url. split.
  - intros H.
    destruct (contains "https://" s) eqn:H1.
    { exfalso.
      pose proof (@replace_shrinks "https://" s ltac:(discriminate) H1).
      pose proof (length_replace "http://" (replace "https://" "" s)).
      pose proof (length_replace "www."
                    (replace "http://" "" (replace "https://" "" s))).
      rewrite H in *. lia. }
    rewrite (replace_absent _ _ _ H1) in H.
    destruct (contains "http://" s) eqn:H2.
    { exfalso.
      pose proof (@replace_shrinks "http://" s ltac:(discriminate) H2).
      pose proof (length_replace "www." (replace "http://" "" s)).
      rewrite H in *. lia. }
    rewrite (replace_absent _ _ _ H2) in H.
    destruct (contains "www." s) eqn:H3.
    { exfalso.
      pose proof (@replace_shrinks "www." s ltac:(discriminate) H3).
      rewrite H in *. lia. }
    reflexivity.
  - intros H. apply andb_true_iff in H. destruct H as [H H3].
    apply andb_true_iff in H. destruct H as [H1 H2].
    apply negb_true_iff in H1, H2, H3.
    rewrite (replace_absent _ _ _ H1), (replace_absent _ _ _ H2).
    apply replace_absent. exact H3.
Qed.

Lemma prefix_empty (s : string) : String.prefix "" s = true.
Proof. destruct s; reflexivity. Qed.

Lemma prefix_app (old s : string) : String.prefix old (old ++ s) = true.
Proof.
  induction old as [|c old IH]; cbn.
  - apply prefix_empty.
  - destruct (ascii_dec c c); [exact IH|congruence].
Qed.

Lemma replace_from_skip old new a s :
  replace_from old new (String.length a) (a ++ s) = replace_from old new 0 s.
Proof.
  induction a as [|c a IH]; [reflexivity|]. exact IH.
Qed.

(** Where the pattern starts, the scan puts the replacement and goes on
    behind the pattern. *)
Lemma replace_at_match (old new s : string) :
  old <> "" -> replace old new (old ++ s) = new ++ replace old new s.
Proof.
  intros Hne. unfold replace. destruct old as [|c old]; [congruence|].
  change (String c old ++ s) with (String c (old ++ s)).
  rewrite replace_from_cons.
  change (String c (old ++ s)) with (String c old ++ s).
  rewrite prefix_app. cbn [String.length Nat.pred].
  now rewrite replace_from_skip.
Qed.

(** Elsewhere it keeps the character and goes on with the next. *)
Lemma replace_at_other (old new : string) (c : ascii) (s : string) :
  String.prefix old (String c s) = false ->
  replace old new (String c s) = String c (replace old new s).
Proof. intros H. unfold replace. now rewrite replace_from_cons, H. Qed.

Lemma clean_url_strips (s : string) :
  pattern_free s = true ->
  clean_url ("https://www." ++ s) = s
  /\ clean_url ("http://www." ++ s) = s
  /\ clean_url ("https://" ++ s) = s
  /\ clean_url ("http://" ++ s) = s
  /\ clean_url ("www." ++ s) = s.
Proof.
  intros H. apply clean_url_fixed in H. unfold clean_url, replace in *.
  repeat split; cbn; rewrite ?prefix_empty; exact H.
Qed.

(** C3, counterexample: cleaning once leaves a string that a second
    cleaning still changes. *)
Lemma clean_url_not_idempotent :
  clean_url "hhttp://ttps://example.com" = "https://example.com"
  /\ clean_url (clean_url "hhttp://ttps://example.com") = "example.com"
  /\ clean_url (clean_url "hhttp://ttps://example.com")
     <> clean_url "hhttp://ttps://example.com".
Proof.
  split; [vm_compute; reflexivity|].
  split; [vm_compute; reflexivity|].
  vm_compute. discriminate.
Qed.

(** C3, amended: a second cleaning changes nothing exactly when the first
    one left none of the three patterns behind; this is the case for a
    string made of the usual prefixes followed by a pattern-free rest. *)
Theorem clean_url_idempotent_iff :
  (forall x : string,
     clean_url (clean_url x) = clean_url x
     <-> pattern_free (clean_url x) = true)
  /\ (forall s p : string,
        pattern_free s = true ->
        In p ["https://www."; "http://www."; "https://"; "http://"; "www."; ""] ->
        clean_url (clean_url (p ++ s)) = clean_url (p ++ s)).
Proof.
  split.
  - intros x. apply clean_url_fixed.
  - intros s p Hs Hp.
    assert (clean_url (p ++ s) = s) as ->.
    { destruct (clean_url_strips s Hs) as (H1 & H2 & H3 & H4 & H5).
      simpl in Hp.
      destruct Hp as [<-|[<-|[<-|[<-|[<-|[<-|[]]]]]]]; try assumption.
      apply clean_url_fixed, Hs. }
    apply clean_url_fixed, Hs.
Qed.

Lemma clean_url_idempotent_iff_witness :
  pattern_free "linkedin.com/in/x" = true
  /\ clean_url (clean_url ("https://www." ++ "linkedin.com/in/x"))
     = clean_url ("https://www." ++ "linkedin.com/in/x").
Proof.
  assert (pattern_free "linkedin.com/in/x" = true) as Hfree
    by (vm_compute; reflexivity).
  split; [exact Hfree|].
  destruct clean_url_idempotent_iff as [_ H].
  exact (H "linkedin.com/in/x" "https://www." Hfree (or_introl eq_refl)).
Defined.

(** C4, counterexample: an occurrence that is not a prefix is removed as
    well, which stripping prefixes would leave in place; of a pattern that
    occurs twice both occurrences go, where stripping takes the leading one
    only. *)
Lemma clean_url_not_prefix_only :
  clean_url "example.com/?next=http://www.other.org"
    = "example.com/?next=other.org"
  /\ clean_url_prefixes "example.com/?next=http://www.other.org"
    = "example.com/?next=http://www.other.org"
  /\ clean_url "example.com/?next=http://www.other.org"
     <> clean_url_prefixes "example.com/?next=http://www.other.org"
  /\ clean_url "www.a.www.b" = "a.b"
  /\ clean_url_prefixes "www.a.www.b" = "a.www.b"
  /\ clean_url "www.a.www.b" <> clean_url_prefixes "www.a.www.b".
Proof.
  split; [vm_compute; reflexivity|].
  split; [vm_compute; reflexivity|].
  split; [vm_compute; discriminate|].
  split; [vm_compute; reflexivity|].
  split; [vm_compute; reflexivity|].
  vm_compute. discriminate.
Qed.

(** C4, amended: the three patterns are removed in the fixed order
    https://, http://, www., each in a single pass from the left that
    removes every occurrence it meets, wherever it is: where the pattern
    starts the pass drops it and goes on behind it, elsewhere it keeps the
    character and goes on with the next; a string is left unchanged exactly
    when none of the patterns occurs in it; on a pattern-free rest that
    carries the usual prefixes the result is the rest; the LinkedIn URL of
    the specification is cleaned as stated, and two occurrences of one
    pattern are both removed. *)
Theorem clean_url_removes_occurrences :
  (forall url : string,
     clean_url url
     = replace "www." "" (replace "http://" "" (replace "https://" "" url)))
  /\ (forall old : string,
        In old ["https://"; "http://"; "www."] ->
        replace old "" "" = ""
        /\ (forall s, replace old "" (old ++ s) = replace old "" s)
        /\ (forall c s,
              String.prefix old (String c s) = false ->
              replace old "" (String c s) = String c (replace old "" s)))
  /\ clean_url "www.a.www.b" = "a.b"
  /\ clean_url "https://a.https://b" = "a.b"
  /\ clean_url "http://a.http://b" = "a.b"
  /\ (forall old s : string,
        old <> "" -> contains old s = true ->
        (String.length (replace old "" s) < String.length s)%nat)
  /\ (forall old s : string, contains old s = false -> replace old "" s = s)
  /\ (forall s : string, clean_url s = s <-> pattern_free s = true)
  /\ (forall s : string,
        pattern_free s = true ->
        clean_url ("https://www." ++ s) = s
        /\ clean_url ("http://www." ++ s) = s
        /\ clean_url ("https://" ++ s) = s
        /\ clean_url ("http://" ++ s) = s
        /\ clean_url ("www." ++ s) = s)
  /\ clean_url "https://www.linkedin.com/in/x" = "linkedin.com/in/x"
  /\ clean_url "wwwww.w.example.com" = "www.example.com".
Proof.
  split; [reflexivity|].
  split.
  { intros old Hin.
    assert (old <> "") as Hne.
    { simpl in Hin. destruct Hin as [<-|[<-|[<-|[]]]]; discriminate. }
    split; [reflexivity|]. split.
    - intros s. now rewrite replace_at_match.
    - intros c s. apply replace_at_other. }
  split; [vm_compute; reflexivity|].
  split; [vm_compute; reflexivity|].
  split; [vm_compute; reflexivity|].
  split; [exact replace_shrinks|].
  split; [intros; now apply replace_absent|].
  split; [exact clean_url_fixed|].
  split; [exact clean_url_strips|].
  split; vm_compute; reflexivity.
Qed.

Lemma clean_url_removes_occurrences_witness :
  (pattern_free "linkedin.com/in/x" = true
   /\ clean_url ("https://www." ++ "linkedin.com/in/x") = "linkedin.com/in/x")
  /\ (In "www." ["https://"; "http://"; "www."]
      /\ replace "www." "" ("www." ++ "a.www.b") = replace "www." "" "a.www.b")
  /\ (String.prefix "www." (String "a" ".www.b") = false
      /\ replace "www." "" (String "a" ".www.b")
         = String "a" (replace "www." "" ".www.b")).
Proof.
  assert (pattern_free "linkedin.com/in/x" = true) as Hfree
    by (vm_compute; reflexivity).
  assert (In "www." ["https://"; "http://"; "www."]) as Hin
    by (right; right; left; reflexivity).
  assert (String.prefix "www." (String "a" ".www.b") = false) as Hp
    by reflexivity.
  destruct clean_url_removes_occurrences
    as (_ & Hscan & _ & _ & _ & _ & _ & _ & H & _).
  destruct (Hscan "www." Hin) as (_ & Hm & Ho).
  split; [split; [exact Hfree|]|split; [split; [exact Hin|]|split; [exact Hp|]]].
  - destruct (H "linkedin.com/in/x" Hfree) as [H1 _]. exact H1.
  - exact (Hm "a.www.b").
  - exact (Ho "a"%char ".www.b" Hp).
Defined.

(** ** Statements that succeed: the [emits] judgement *)

Lemma emits_ret A (a : A) : emits (ret a) a [] [].
Proof.
  intros st. exists st. unfold ret. now rewrite !app_nil_r.
Qed.

Lemma emits_lift A (r : result A) (a : A) :
  r = Ok a -> emits (lift r) a [] [].
Proof.
  intros -> st. exists st. unfold lift. now rewrite !app_nil_r.
Qed.

Lemma emits_bind A B (m : M A) (f : A -> M B) a b rows1 dirs1 rows2 dirs2 :
  emits m a rows1 dirs1 ->
  emits (f a) b rows2 dirs2 ->
  emits (bind m f) b (rows1 ++ rows2) (dirs1 ++ dirs2).
Proof.
  intros Hm Hf st. unfold bind.
  destruct (Hm st) as (st1 & -> & Hd1 & Hs1 & Hf1).
  destruct (Hf st1) as (st2 & -> & Hd2 & Hs2 & Hf2).
  exists st2. rewrite Hd2, Hs2, Hf2, Hd1, Hs1, Hf1, !app_assoc. auto.
Qed.

Lemma emits_eq A (m : M A) a a' rows rows' dirs dirs' :
  emits m a rows dirs -> a = a' -> rows = rows' -> dirs = dirs' ->
  emits m a' rows' dirs'.
Proof. now intros H -> -> ->. Qed.

(** Running a prefix that succeeds, inside a longer statement. *)
Lemma emits_then A B (m : M A) (f : A -> M B) a rows dirs st :
  emits m a rows dirs ->
  exists st',
    bind m f st = f a st'
    /\ table_data st' = (table_data st ++ rows)%list
    /\ table_styles st' = (table_styles st ++ dirs)%list
    /\ files st' = files st.
Proof.
  intros H. destruct (H st) as (st' & Hr & Hd & Hs & Hf).
  exists st'. unfold bind. rewrite Hr. auto.
Qed.

Lemma bind_lift A B (r : result A) (a : A) (f : A -> M B) st :
  r = Ok a -> bind (lift r) f st = f a st.
Proof. now intros ->. Qed.

Lemma bind_lift_err A B (r : result A) (e : exn) (f : A -> M B) st :
  r = Err e -> bind (lift r) f st = (Err e, st).
Proof. now intros ->. Qed.

(** ** The constructor call and [_add_table_row] *)

Lemma new_Paragraph_accepted (E : env) c b s :
  accepted_cell E (Paragraph c b s) = true ->
  new_Paragraph E c b s = Ok (Paragraph c b s).
Proof.
  unfold accepted_cell, new_Paragraph. cbn.
  destruct c; try discriminate.
  destruct (plain s0); [reflexivity|].
  destruct (markup_error E s0 b s); [discriminate|reflexivity].
Qed.

Lemma new_Paragraph_ok (E : env) c b s p :
  new_Paragraph E c b s = Ok p ->
  p = Paragraph c b s /\ accepted_cell E p = true.
Proof.
  unfold accepted_cell, new_Paragraph.
  destruct c; try discriminate.
  destruct (plain s0) eqn:Hp.
  - intros [= <-]. cbn. now rewrite Hp.
  - destruct (markup_error E s0 b s) eqn:Hm; [discriminate|].
    intros [= <-]. cbn. now rewrite Hp, Hm.
Qed.

Lemma cells_accepted (E : env) b csm :
  accepted_row E (map (fun cs => Paragraph (fst cs) b (snd cs)) csm) = true ->
  cells E b csm = Ok (map (fun cs => Paragraph (fst cs) b (snd cs)) csm).
Proof.
  induction csm as [|[c s] csm IH]; [reflexivity|].
  cbn [map accepted_row forallb fst snd cells]. intros H.
  apply andb_true_iff in H. destruct H as [Hc Hr].
  rewrite (new_Paragraph_accepted _ _ _ _ Hc). cbn [rbind].
  rewrite (IH Hr). reflexivity.
Qed.

Lemma cells_ok (E : env) b csm r :
  cells E b csm = Ok r ->
  r = map (fun cs => Paragraph (fst cs) b (snd cs)) csm
  /\ accepted_row E r = true.
Proof.
  revert r. induction csm as [|[c s] csm IH]; intros r.
  - intros [= <-]. split; reflexivity.
  - cbn [cells map fst snd].
    destruct (new_Paragraph E c b s) as [p|e] eqn:Hp; [|discriminate].
    cbn [rbind]. destruct (cells E b csm) as [ps|e] eqn:Hc; [|discriminate].
    cbn [rbind]. intros [= <-].
    destruct (new_Paragraph_ok _ _ _ _ Hp) as [-> Ha].
    destruct (IH ps eq_refl) as [-> Hr].
    split; [reflexivity|]. cbn [accepted_row forallb].
    rewrite Ha. exact Hr.
Qed.

(** A call either raises while it builds the cells, the two lists as they
    were, or appends the row and its directives. *)
Lemma add_table_row_run (E : env) row_index content_style_map span padding
    bullet_point st :
  _add_table_row E row_index content_style_map span padding bullet_point st
  = match cells E (if given bullet_point then bullet_point else None)
                content_style_map with
    | Ok r => (Ok (row_index + 1), appended row_index r span padding st)
    | Err e => (Err e, st)
    end.
Proof.
  unfold _add_table_row, appended, row_styles, bind, lift, table_data_append,
    table_styles_extend, observe, ret.
  destruct (given bullet_point);
    match goal with
    | |- context [cells E ?b ?c] => destruct (cells E b c)
    end; try reflexivity;
    destruct span; cbn; rewrite <- ?app_assoc, ?app_nil_r; reflexivity.
Qed.

Lemma add_table_row_accepted (E : env) row_index content_style_map span
    padding bullet_point st :
  accepted_row E (cells_of bullet_point content_style_map) = true ->
  _add_table_row E row_index content_style_map span padding bullet_point st
  = (Ok (row_index + 1),
     appended row_index (cells_of bullet_point content_style_map) span
              padding st).
Proof.
  intros H. rewrite add_table_row_run.
  unfold cells_of in *. now rewrite (cells_accepted _ _ _ H).
Qed.

(** The two outcomes of a call, the row spelled out. *)
Lemma add_table_row_cases (E : env) row_index content_style_map span padding
    bullet_point st :
  (exists e,
      _add_table_row E row_index content_style_map span padding bullet_point st
      = (Err e, st))
  \/ (accepted_row E (cells_of bullet_point content_style_map) = true
      /\ _add_table_row E row_index content_style_map span padding
                        bullet_point st
         = (Ok (row_index + 1),
            appended row_index (cells_of bullet_point content_style_map)
                     span padding st)).
Proof.
  rewrite add_table_row_run.
  destruct (cells E (if given bullet_point then bullet_point else None)
                  content_style_map) as [r|e] eqn:Hc.
  - right. destruct (cells_ok _ _ _ Hc) as [-> Ha].
    split; [exact Ha|reflexivity].
  - left. now exists e.
Qed.

Lemma accepted_heading (E : env) (title : string) :
  plain title = true -> accepted_row E (heading_row title) = true.
Proof. intros H. cbn. now rewrite H. Qed.

Lemma accepted_app (E : env) (a b : list row) :
  accepted E (a ++ b) = accepted E a && accepted E b.
Proof. apply forallb_app. Qed.

Section Emits.

Variable E : env.

Lemma emits_add_table_row row_index content_style_map span padding bullet_point :
  accepted_row E (cells_of bullet_point content_style_map) = true ->
  emits (_add_table_row E row_index content_style_map span padding bullet_point)
        (row_index + 1)
        [cells_of bullet_point content_style_map]
        (row_styles row_index padding span).
Proof.
  intros H st. rewrite add_table_row_accepted by exact H.
  eexists. split; [reflexivity|]. cbn. repeat split; reflexivity.
Qed.

Lemma emits_append_section_table_style row_index :
  emits (_append_section_table_style row_index) tt [] (underline row_index).
Proof.
  intros st. unfold _append_section_table_style, underline, bind,
    table_styles_extend, observe.
  eexists; cbn; rewrite ?app_nil_r; repeat split; reflexivity.
Qed.

(** A section heading: the heading row, then its underline. *)
Lemma emits_heading A title row_index (k : Z -> M A) a rows dirs :
  plain title = true ->
  emits (k (row_index + 1)) a rows dirs ->
  emits (r <- _add_table_row E row_index
                [(VStr title, PARAGRAPH_STYLES "section")]
                true (DEFAULT_PADDING E) None ;;
         _append_section_table_style (r - 1) ;; k r)
        a (heading_row title :: rows) (heading_styles E row_index ++ dirs).
Proof.
  intros Hp Hk.
  eapply emits_eq.
  - eapply emits_bind.
    { apply emits_add_table_row. exact (accepted_heading E _ Hp). }
    eapply emits_bind; [apply emits_append_section_table_style|].
    exact Hk.
  - reflexivity.
  - reflexivity.
  - unfold heading_styles. replace (row_index + 1 - 1) with row_index by lia.
    now rewrite <- !app_assoc.
Qed.

Lemma accepted_cons (r : row) (rows : list row) :
  accepted E (r :: rows) = accepted_row E r && accepted E rows.
Proof. reflexivity. Qed.

Lemma emits_highlights n hs : forall i row_index,
  accepted E (highlight_rows n i hs) = true ->
  emits (for_each (enumerate_from i hs) (highlight_body E n) row_index)
        (row_index + Z.of_nat (List.length hs))
        (highlight_rows n i hs)
        (highlight_styles n i row_index hs).
Proof.
  induction hs as [|h hs IH]; intros i row_index H.
  - eapply emits_eq; [apply emits_ret| cbn; lia | reflexivity | reflexivity].
  - cbn [highlight_rows] in H. rewrite accepted_cons in H.
    apply andb_true_iff in H. destruct H as [Hh Hr].
    cbn [enumerate_from for_each]. unfold highlight_body.
    eapply emits_eq.
    + eapply emits_bind; [apply emits_add_table_row | apply IH, Hr].
      unfold bullet_row, is_last in Hh. destruct (i =? n - 1); exact Hh.
    + cbn [List.length]. lia.
    + cbn. unfold bullet_row, is_last. now destruct (i =? n - 1).
    + cbn. unfold bullet_styles, is_last, row_styles.
      now destruct (i =? n - 1).
Qed.

Lemma emits_experience_body idx e row_index :
  Schema.has_title e = true ->
  accepted E (experience_rows e) = true ->
  emits (experience_body E (idx, Schema.encode_experience e) row_index)
        (row_index + experience_height e)
        (experience_rows e)
        (experience_styles E row_index e).
Proof.
  destruct e as [c l ts hs]. destruct ts as [|t ts]; [discriminate|].
  intros _ H. unfold experience_rows in H. cbn [app] in H.
  rewrite !accepted_cons in H.
  apply andb_true_iff in H. destruct H as [H1 H].
  apply andb_true_iff in H. destruct H as [H2 H3].
  unfold experience_body.
  eapply emits_eq.
  - eapply emits_bind; [apply emits_lift; reflexivity|].
    eapply emits_bind; [apply emits_lift; reflexivity|].
    eapply emits_bind; [apply emits_lift; reflexivity|].
    eapply emits_bind; [apply emits_add_table_row; exact H1|].
    eapply emits_bind; [apply emits_lift; reflexivity|].
    eapply emits_bind; [apply emits_lift; reflexivity|].
    eapply emits_bind; [apply emits_add_table_row; exact H2|].
    eapply emits_bind; [apply emits_lift; reflexivity|].
    apply emits_highlights. exact H3.
  - unfold experience_height. cbn [Schema.highlights].
    rewrite length_map. lia.
  - reflexivity.
  - unfold experience_styles. cbn [app].
    replace (row_index + 1 + 1) with (row_index + 2) by lia. reflexivity.
Qed.

Lemma emits_experiences l : forall i row_index,
  forallb Schema.has_title l = true ->
  accepted E (experiences_rows l) = true ->
  emits (for_each (enumerate_from i (map Schema.encode_experience l))
                  (experience_body E) row_index)
        (row_index + experiences_height l)
        (experiences_rows l)
        (experiences_styles E row_index l).
Proof.
  induction l as [|e l IH]; intros i row_index H Ha.
  - eapply emits_eq; [apply emits_ret| cbn; lia | reflexivity | reflexivity].
  - cbn in H. apply andb_true_iff in H. destruct H as [He Hl].
    cbn [experiences_rows] in Ha. rewrite accepted_app in Ha.
    apply andb_true_iff in Ha. destruct Ha as [Hae Hal].
    cbn [map enumerate_from for_each].
    eapply emits_eq.
    + eapply emits_bind;
        [apply emits_experience_body; [exact He|exact Hae]
        |apply IH; [exact Hl|exact Hal]].
    + cbn [experiences_height]. lia.
    + reflexivity.
    + reflexivity.
Qed.

Lemma emits_add_experiences l row_index :
  forallb Schema.has_title l = true ->
  accepted E (experiences_rows l) = true ->
  emits (add_experiences E row_index (Schema.encode_experiences l))
        (row_index + 1 + experiences_height l)
        (heading_row "Experience" :: experiences_rows l)
        (heading_styles E row_index ++ experiences_styles E (row_index + 1) l).
Proof.
  intros H Ha. unfold add_experiences.
  apply emits_heading; [reflexivity|].
  eapply emits_eq.
  - eapply emits_bind; [apply emits_lift; reflexivity|].
    apply emits_experiences; [exact H|exact Ha].
  - reflexivity.
  - reflexivity.
  - reflexivity.
Qed.

Lemma all_str_strs (l : list string) : all_str (map VStr l) = Ok l.
Proof.
  induction l as [|x l IH]; [reflexivity|]. cbn. now rewrite IH.
Qed.

Lemma py_join_strs (sep : string) (l : list string) :
  py_join sep (Schema.strs l) = Ok (join sep l).
Proof. unfold py_join. cbn. now rewrite all_str_strs. Qed.

Lemma emits_education_body ed row_index :
  Schema.has_degree ed = true ->
  accepted_row E (education_row E ed) = true ->
  emits (education_body E (Schema.encode_education ed) row_index)
        (row_index + 1)
        [education_row E ed]
        (row_styles row_index (DEFAULT_PADDING E) true).
Proof.
  destruct ed as [sc ds]. destruct ds as [|d ds]; [discriminate|].
  intros _ Ha. unfold education_body.
  eapply emits_eq.
  - eapply emits_bind.
    { apply emits_lift. cbn. apply py_join_strs. }
    eapply emits_bind; [apply emits_lift; reflexivity|].
    apply emits_add_table_row. exact Ha.
  - reflexivity.
  - reflexivity.
  - reflexivity.
Qed.

Lemma emits_educations l : forall row_index,
  forallb Schema.has_degree l = true ->
  accepted E (map (education_row E) l) = true ->
  emits (for_each (map Schema.encode_education l) (education_body E) row_index)
        (row_index + Z.of_nat (List.length l))
        (map (education_row E) l)
        (education_styles E row_index l).
Proof.
  induction l as [|ed l IH]; intros row_index H Ha.
  - eapply emits_eq; [apply emits_ret| cbn; lia | reflexivity | reflexivity].
  - cbn in H. apply andb_true_iff in H. destruct H as [He Hl].
    cbn [map] in Ha. rewrite accepted_cons in Ha.
    apply andb_true_iff in Ha. destruct Ha as [Hae Hal].
    cbn [map for_each].
    eapply emits_eq.
    + eapply emits_bind;
        [apply emits_education_body; [exact He|exact Hae]
        |apply IH; [exact Hl|exact Hal]].
    + cbn [List.length]. lia.
    + reflexivity.
    + reflexivity.
Qed.

Lemma emits_add_education l row_index :
  forallb Schema.has_degree l = true ->
  accepted E (map (education_row E) l) = true ->
  emits (add_education E row_index (Schema.encode_educations l))
        (row_index + 1 + Z.of_nat (List.length l))
        (heading_row "Education" :: map (education_row E) l)
        (heading_styles E row_index ++ education_styles E (row_index + 1) l).
Proof.
  intros H Ha. unfold add_education.
  apply emits_heading; [reflexivity|].
  eapply emits_eq.
  - eapply emits_bind; [apply emits_lift; reflexivity|].
    apply emits_educations; [exact H|exact Ha].
  - reflexivity.
  - reflexivity.
  - reflexivity.
Qed.

(** The two subscripts of [skills_body] on a mapping whose first two keys
    differ: the entries behind them play no part. *)
Lemma first_two_keys (k0 k1 : string) (v0 v1 : value) rest :
  String.eqb k1 k0 = false ->
  (k <- key_at (map fst ((k0, v0) :: (k1, v1) :: rest)) 0 ;;
   subscript (VDict ((k0, v0) :: (k1, v1) :: rest)) k)%res = Ok v0
  /\ (k <- key_at (map fst ((k0, v0) :: (k1, v1) :: rest)) 1 ;;
      subscript (VDict ((k0, v0) :: (k1, v1) :: rest)) k)%res = Ok v1.
Proof.
  intros H. cbn. now rewrite !String.eqb_refl, H.
Qed.

Lemma emits_skills_body g row_index :
  Schema.two_keys g = true ->
  accepted_row E (skills_row E (Schema.label g) (Schema.items g)) = true ->
  emits (skills_body E (Schema.encode_skill_group g) row_index)
        (row_index + 1)
        [skills_row E (Schema.label g) (Schema.items g)]
        (row_styles row_index (2, 2) true).
Proof.
  destruct g as [k0 lbl k1 its rest]. unfold Schema.two_keys.
  cbn [Schema.label_key Schema.label Schema.items_key Schema.items
       Schema.others].
  intros H Ha. apply negb_true_iff in H.
  destruct (@first_two_keys k0 k1 (VStr lbl) (Schema.strs its) rest H) as [H0 H1].
  unfold skills_body, Schema.encode_skill_group.
  cbn [Schema.label_key Schema.label Schema.items_key Schema.items
       Schema.others].
  eapply emits_eq.
  - eapply emits_bind; [apply emits_lift; reflexivity|].
    eapply emits_bind; [apply emits_lift, H0|].
    eapply emits_bind; [apply emits_lift, H1|].
    eapply emits_bind; [apply emits_lift, py_join_strs|].
    apply emits_add_table_row. exact Ha.
  - reflexivity.
  - reflexivity.
  - reflexivity.
Qed.

Lemma emits_skill_groups l : forall row_index,
  forallb Schema.two_keys l = true ->
  accepted E (map (fun g => skills_row E (Schema.label g) (Schema.items g)) l)
  = true ->
  emits (for_each (map Schema.encode_skill_group l) (skills_body E) row_index)
        (row_index + Z.of_nat (List.length l))
        (map (fun g => skills_row E (Schema.label g) (Schema.items g)) l)
        (skills_styles row_index l).
Proof.
  induction l as [|g l IH]; intros row_index H Ha.
  - eapply emits_eq; [apply emits_ret| cbn; lia | reflexivity | reflexivity].
  - cbn in H. apply andb_true_iff in H. destruct H as [Hg Hl].
    cbn [map] in Ha. rewrite accepted_cons in Ha.
    apply andb_true_iff in Ha. destruct Ha as [Hag Hal].
    cbn [map for_each].
    eapply emits_eq.
    + eapply emits_bind;
        [apply emits_skills_body; [exact Hg|exact Hag]
        |apply IH; [exact Hl|exact Hal]].
    + cbn [List.length]. lia.
    + reflexivity.
    + reflexivity.
Qed.

Lemma emits_add_skills l row_index :
  forallb Schema.two_keys l = true ->
  accepted E (map (fun g => skills_row E (Schema.label g) (Schema.items g)) l)
  = true ->
  emits (add_skills E row_index (Schema.encode_skills l))
        (row_index + 1 + Z.of_nat (List.length l))
        (heading_row "Skills"
           :: map (fun g => skills_row E (Schema.label g) (Schema.items g)) l)
        (heading_styles E row_index ++ skills_styles (row_index + 1) l).
Proof.
  intros H Ha. unfold add_skills.
  apply emits_heading; [reflexivity|].
  eapply emits_eq.
  - eapply emits_bind; [apply emits_lift; reflexivity|].
    apply emits_skill_groups; [exact H|exact Ha].
  - reflexivity.
  - reflexivity.
  - reflexivity.
Qed.

Lemma first_site_encode (icon : string) (l : list Schema.Website) :
  first_site icon (map Schema.encode_website l) = Ok (site_of icon l).
Proof.
  induction l as [|w l IH]; [reflexivity|].
  destruct w as [ic u]. cbn. destruct (String.eqb ic icon); [reflexivity|].
  exact IH.
Qed.

End Emits.

Lemma emits_table_styles_extend (ds : list directive) :
  emits (table_styles_extend ds) tt [] ds.
Proof.
  intros st. eexists. unfold table_styles_extend. cbn.
  rewrite app_nil_r. repeat split; reflexivity.
Qed.

(** What acceptance of the whole document says of its parts. *)
Lemma accepted_document (E : env) (r : Schema.ResumeRecord) :
  accepted E (document_rows E r) = true ->
  accepted_row E [Paragraph (VStr (Schema.name r)) None (PARAGRAPH_STYLES "name")]
  = true
  /\ accepted_row E [Paragraph (VStr (contact_line r)) None
                       (PARAGRAPH_STYLES "contact")] = true
  /\ accepted_row E [Paragraph (VStr (Schema.objective r)) None
                       (PARAGRAPH_STYLES "objective")] = true
  /\ accepted E (experiences_rows (Schema.experiences r)) = true
  /\ accepted E (map (education_row E) (Schema.education r)) = true
  /\ accepted E (map (fun g => skills_row E (Schema.label g) (Schema.items g))
                     (Schema.skills r)) = true.
Proof.
  unfold document_rows. intros H. cbn [app] in H.
  rewrite !accepted_cons in H.
  apply andb_true_iff in H. destruct H as [H1 H].
  apply andb_true_iff in H. destruct H as [H2 H].
  apply andb_true_iff in H. destruct H as [_ H].
  apply andb_true_iff in H. destruct H as [H3 H].
  apply andb_true_iff in H. destruct H as [_ H].
  rewrite accepted_app in H.
  apply andb_true_iff in H. destruct H as [H4 H].
  rewrite accepted_cons, accepted_app in H.
  apply andb_true_iff in H. destruct H as [_ H].
  apply andb_true_iff in H. destruct H as [H5 H].
  rewrite accepted_cons in H.
  apply andb_true_iff in H. destruct H as [_ H6].
  repeat split; assumption.
Qed.

Ltac run_emits H :=
  match goal with
  | |- context [bind ?m ?f ?st] =>
      let st' := fresh "st" in
      let Hd := fresh "Hd" in
      let Hs := fresh "Hs" in
      let Hf := fresh "Hf" in
      destruct (@emits_then _ _ m f _ _ _ st H) as (st' & -> & Hd & Hs & Hf)
  end.

(** The next call of [_add_table_row], its row accepted by [H]. *)
Ltac run_row H :=
  match goal with
  | |- context [_add_table_row ?E ?i ?c ?s ?p ?b] =>
      run_emits (@emits_add_table_row E i c s p b H)
  end.

(** The statements of [generate_resume] on a typed record, up to the
    lookup of the debug flag. *)
Ltac run_prelude r st :=
  rewrite (@bind_lift _ _ _ (VStr (Schema.email r))) by reflexivity;
  rewrite (@bind_lift _ _ _ (VStr (Schema.name r))) by reflexivity;
  rewrite (@bind_lift _ _ _ (VStr (Schema.phone r))) by reflexivity;
  rewrite (@bind_lift _ _ _ (site_of "linkedin" (Schema.websites r)))
    by (cbn; apply first_site_encode);
  rewrite (@bind_lift _ _ _ (site_of "github" (Schema.websites r)))
    by (cbn; apply first_site_encode);
  rewrite (@bind_lift _ _ _ (join ", " (Schema.address r)))
    by (cbn; apply py_join_strs);
  match goal with
  | |- context [bind allocate ?f st] =>
      change (bind allocate f st)
        with (f tt {| table_data := []; table_styles := [];
                      files := files st; calls := [] |})
  end;
  cbv beta;
  rewrite (@bind_lift _ _ _
             (match Schema.debug r with Some d => d | None => VBool false end))
    by (unfold Schema.encode; destruct (Schema.debug r); reflexivity).

(** Then up to the lookup of the objective. *)
Ltac run_header E r st H1 H2 :=
  run_prelude r st;
  let Hdbg := fresh "Hdbg" in
  assert (emits (if truthy (match Schema.debug r with
                            | Some d => d
                            | None => VBool false
                            end)
                 then table_styles_extend [DEBUG_STYLE E]
                 else ret tt) tt [] (debug_styles E r)) as Hdbg
    by (unfold debug_styles; destruct (Schema.debug r) as [d|]; cbn;
        [destruct (truthy d);
         [apply emits_table_styles_extend|apply emits_ret]
        |apply emits_ret]);
  run_emits Hdbg;
  run_emits (emits_table_styles_extend (DOCUMENT_ALIGNMENT E));
  run_row H1;
  run_row H2;
  run_row (@accepted_heading E "Objective" eq_refl);
  match goal with
  | |- context [_append_section_table_style ?i] =>
      run_emits (emits_append_section_table_style i)
  end.

Ltac run_objective r H3 :=
  rewrite (@bind_lift _ _ _ (VStr (Schema.objective r))) by reflexivity;
  run_row H3.

Ltac run_experiences E r Hex H4 :=
  rewrite (@bind_lift _ _ _ (Schema.encode_experiences (Schema.experiences r)))
    by reflexivity;
  match goal with
  | |- context [add_experiences E ?i _] =>
      run_emits (@emits_add_experiences E (Schema.experiences r) i Hex H4)
  end.

Ltac run_education E r Hed H5 :=
  rewrite (@bind_lift _ _ _ (Schema.encode_educations (Schema.education r)))
    by reflexivity;
  match goal with
  | |- context [add_education E ?i _] =>
      run_emits (@emits_add_education E (Schema.education r) i Hed H5)
  end.

Ltac run_skills E r Hsk H6 :=
  rewrite (@bind_lift _ _ _ (Schema.encode_skills (Schema.skills r)))
    by reflexivity;
  match goal with
  | |- context [add_skills E ?i _] =>
      run_emits (@emits_add_skills E (Schema.skills r) i Hsk H6)
  end.

Ltac gather_rows :=
  repeat match goal with
         | H : table_data _ = _ |- _ => rewrite H; clear H
         end.

Ltac gather_styles :=
  repeat match goal with
         | H : table_styles _ = _ |- _ => rewrite H; clear H
         end.

Ltac gather_files :=
  repeat match goal with
         | H : files _ = _ |- _ => rewrite H; clear H
         end.

(** The whole run on a typed record whose rows the constructor accepts. *)
Lemma generate_resume_valid (E : env) (loc : string)
    (r : Schema.ResumeRecord) (st : state) :
  Schema.valid r = true ->
  accepted E (document_rows E r) = true ->
  exists st',
    generate_resume E loc (Schema.encode r) st
    = (if layout_ok E (document_rows E r) (document_styles E r)
       then Ok (generate_doc_template E (VStr (Schema.name r)) loc)
       else Err RenderError, st')
    /\ table_data st' = document_rows E r
    /\ table_styles st' = document_styles E r
    /\ files st'
       = if layout_ok E (document_rows E r) (document_styles E r)
         then (generate_doc_template E (VStr (Schema.name r)) loc,
               (document_rows E r, document_styles E r)) :: files st
         else files st.
Proof.
  intros Hv Ha. unfold Schema.valid in Hv.
  apply andb_true_iff in Hv. destruct Hv as [Hv Hsk].
  apply andb_true_iff in Hv. destruct Hv as [Hex Hed].
  destruct (accepted_document _ _ Ha) as (H1 & H2 & H3 & H4 & H5 & H6).
  unfold generate_resume.
  run_header E r st H1 H2.
  run_objective r H3.
  run_experiences E r Hex H4.
  run_education E r Hed H5.
  run_skills E r Hsk H6.
  match goal with
  | |- context [bind _ _ ?s] =>
      assert (table_data s = document_rows E r) as Hrows;
      [| assert (table_styles s = document_styles E r) as Hdirs;
         [| assert (files s = files st) as Hfiles ] ]
  end.
  - gather_rows.
    unfold document_rows. cbn [table_data app].
    rewrite <- ?app_assoc. reflexivity.
  - gather_styles.
    unfold document_styles, heading_styles. cbn [table_styles app].
    rewrite <- ?app_assoc. reflexivity.
  - gather_files.
    reflexivity.
  - unfold bind, doc_build, ret. rewrite Hrows, Hdirs, Hfiles.
    destruct (layout_ok E (document_rows E r) (document_styles E r));
      eexists; cbn; repeat split; assumption.
Qed.

(** ** Row counts *)

Lemma length_highlight_rows n hs : forall i,
  List.length (highlight_rows n i hs) = List.length hs.
Proof.
  induction hs as [|h hs IH]; intros i; [reflexivity|].
  cbn. now rewrite IH.
Qed.

Lemma length_experiences_rows l :
  List.length (experiences_rows l)
  = (2 * List.length l + Schema.total_highlights l)%nat.
Proof.
  induction l as [|e l IH]; [reflexivity|].
  cbn [experiences_rows Schema.total_highlights fold_right List.length].
  rewrite length_app. fold (Schema.total_highlights l). rewrite IH.
  unfold experience_rows. cbv zeta. cbn [app List.length].
  rewrite length_highlight_rows, length_map. lia.
Qed.

Lemma length_document_rows E r :
  List.length (document_rows E r) = row_count r.
Proof.
  unfold document_rows, row_count.
  repeat (rewrite ?length_app; cbn [app List.length]).
  rewrite !length_map, length_experiences_rows. lia.
Qed.

(** C1, counterexample: a valid record with three experiences and eight
    highlights yields 23 rows, where the count of the specification is 26. *)
Lemma row_count_not_as_claimed :
  Schema.valid sample_record = true
  /\ accepted sample_env (document_rows sample_env sample_record) = true
  /\ fst (generate_resume sample_env "out" (Schema.encode sample_record)
            initial_state) = Ok "out/resume.pdf"
  /\ List.length
       (table_data (snd (generate_resume sample_env "out"
                           (Schema.encode sample_record) initial_state)))
     = 23%nat
  /\ claimed_row_count sample_record = 26%nat
  /\ List.length
       (table_data (snd (generate_resume sample_env "out"
                           (Schema.encode sample_record) initial_state)))
     <> claimed_row_count sample_record.
Proof.
  repeat apply conj; vm_compute; try reflexivity. discriminate.
Qed.

(** C1, amended: on every valid record whose texts the [Paragraph]
    constructor accepts (no malformed markup in them), the rows appended to
    [table_data] number 2 + 2 + (1 + 2 * len(experiences) + highlights in
    total) + (1 + len(education)) + (1 + len(skills)): an experience
    contributes two rows besides its highlights.  The run ends normally
    unless the layout engine fails. *)
Theorem generate_resume_row_count (E : env) (loc : string)
    (r : Schema.ResumeRecord) (st : state) :
  Schema.valid r = true ->
  accepted E (document_rows E r) = true ->
  List.length
    (table_data (snd (generate_resume E loc (Schema.encode r) st)))
  = row_count r
  /\ (fst (generate_resume E loc (Schema.encode r) st)
      = Ok (generate_doc_template E (VStr (Schema.name r)) loc)
      \/ fst (generate_resume E loc (Schema.encode r) st) = Err RenderError).
Proof.
  intros Hv Ha.
  destruct (generate_resume_valid E loc r st Hv Ha) as (st' & -> & Hd & _).
  cbn [fst snd]. rewrite Hd, length_document_rows. split; [reflexivity|].
  destruct (layout_ok E _ _); auto.
Qed.

Lemma generate_resume_row_count_witness :
  Schema.valid sample_record = true
  /\ accepted sample_env (document_rows sample_env sample_record) = true
  /\ List.length
       (table_data (snd (generate_resume sample_env "out"
                           (Schema.encode sample_record) initial_state)))
     = row_count sample_record.
Proof.
  split; [reflexivity|]. split; [vm_compute; reflexivity|].
  apply (generate_resume_row_count sample_env "out" sample_record
           initial_state).
  - reflexivity.
  - vm_compute; reflexivity.
Defined.

(** ** Empty sections *)

(** C9: on an empty list each of the three sections appends its heading
    row with the padding, span and underline directives of that row, and
    nothing else; a record whose three lists are empty and whose name,
    contact line and objective the [Paragraph] constructor accepts runs
    through all three sections and yields the four leading rows and three
    headings. *)
Theorem empty_sections_emit_headings (E : env) :
  (forall row_index,
     emits (add_experiences E row_index (VList [])) (row_index + 1)
           [heading_row "Experience"]
           (row_styles row_index (DEFAULT_PADDING E) true
            ++ underline row_index)
     /\ emits (add_education E row_index (VList [])) (row_index + 1)
              [heading_row "Education"]
              (row_styles row_index (DEFAULT_PADDING E) true
               ++ underline row_index)
     /\ emits (add_skills E row_index (VList [])) (row_index + 1)
              [heading_row "Skills"]
              (row_styles row_index (DEFAULT_PADDING E) true
               ++ underline row_index))
  /\ (forall loc r st,
        Schema.experiences r = [] ->
        Schema.education r = [] ->
        Schema.skills r = [] ->
        accepted E (document_rows E r) = true ->
        table_data (snd (generate_resume E loc (Schema.encode r) st))
        = [ [Paragraph (VStr (Schema.name r)) None (PARAGRAPH_STYLES "name")];
            [Paragraph (VStr (contact_line r)) None
               (PARAGRAPH_STYLES "contact")];
            heading_row "Objective";
            [Paragraph (VStr (Schema.objective r)) None
               (PARAGRAPH_STYLES "objective")];
            heading_row "Experience";
            heading_row "Education";
            heading_row "Skills" ]
        /\ (fst (generate_resume E loc (Schema.encode r) st)
            = Ok (generate_doc_template E (VStr (Schema.name r)) loc)
            \/ fst (generate_resume E loc (Schema.encode r) st)
               = Err RenderError)).
Proof.
  split.
  - intros row_index. repeat split.
    + eapply emits_eq;
        [apply (@emits_add_experiences E [] row_index eq_refl eq_refl)
        | cbn; lia | reflexivity | apply app_nil_r].
    + eapply emits_eq;
        [apply (@emits_add_education E [] row_index eq_refl eq_refl)
        | cbn; lia | reflexivity | apply app_nil_r].
    + eapply emits_eq;
        [apply (@emits_add_skills E [] row_index eq_refl eq_refl)
        | cbn; lia | reflexivity | apply app_nil_r].
  - intros loc r st Hex Hed Hsk Ha.
    assert (Schema.valid r = true) as Hv.
    { unfold Schema.valid. now rewrite Hex, Hed, Hsk. }
    destruct (generate_resume_valid E loc r st Hv Ha) as (st' & -> & Hd & _).
    cbn [fst snd]. rewrite Hd. unfold document_rows.
    rewrite Hex, Hed, Hsk. split; [reflexivity|].
    destruct (layout_ok E _ _); auto.
Qed.

Lemma empty_sections_emit_headings_witness :
  table_data
    (snd (generate_resume sample_env "out" (Schema.encode empty_record)
            initial_state))
  = [ [Paragraph (VStr "A. D.") None (PARAGRAPH_STYLES "name")];
      [Paragraph (VStr "a@b.c | 555 |  |  | ") None
         (PARAGRAPH_STYLES "contact")];
      heading_row "Objective";
      [Paragraph (VStr "") None (PARAGRAPH_STYLES "objective")];
      heading_row "Experience";
      heading_row "Education";
      heading_row "Skills" ].
Proof.
  destruct (empty_sections_emit_headings sample_env) as [_ H].
  apply (H "out" empty_record initial_state);
    first [reflexivity | vm_compute; reflexivity].
Defined.

(** ** Skill groups *)

Lemma bind_ext A B (m m' : M A) (f f' : A -> M B) :
  (forall st, m st = m' st) ->
  (forall a st, f a st = f' a st) ->
  forall st, bind m f st = bind m' f' st.
Proof.
  intros Hm Hf st. unfold bind. rewrite Hm.
  destruct (m' st) as [[a|e] st']; [apply Hf | reflexivity].
Qed.

Lemma for_each_ext A B (f : A -> B) (g : A -> B) (body : B -> Z -> M Z) l :
  (forall x r st, body (f x) r st = body (g x) r st) ->
  forall r st, for_each (map f l) body r st = for_each (map g l) body r st.
Proof.
  intros H. induction l as [|x l IH]; intros r st; [reflexivity|].
  cbn [map for_each]. apply bind_ext; [apply H | apply IH].
Qed.

Lemma skills_body_first_two (E : env) kv0 kv1 rest row_index st :
  skills_body E (VDict (kv0 :: kv1 :: rest)) row_index st
  = skills_body E (VDict [kv0; kv1]) row_index st.
Proof.
  destruct kv0 as [k0 v0], kv1 as [k1 v1].
  unfold skills_body, bind, lift. cbn.
  rewrite !String.eqb_refl.
  destruct (String.eqb k1 k0); reflexivity.
Qed.

(** C10: a skill group is read through its first two keys only.  Entries
    behind the second one change nothing, in a single group and in a whole
    skills section; with two different keys, a second value that joins and
    a text that the [Paragraph] constructor accepts, the group yields one
    row: the first value in bold, a colon, the joined second value; on a
    list of such groups [add_skills] appends its heading and one such row
    per group, in order, whatever further entries the groups carry. *)
Theorem skills_use_first_two_keys (E : env) :
  (forall kv0 kv1 rest row_index st,
     skills_body E (VDict (kv0 :: kv1 :: rest)) row_index st
     = skills_body E (VDict [kv0; kv1]) row_index st)
  /\ (forall (groups : list ((string * value) * (string * value)
                             * list (string * value))) row_index st,
        add_skills E row_index
          (VList (map (fun g => VDict (fst (fst g) :: snd (fst g) :: snd g))
                      groups)) st
        = add_skills E row_index
            (VList (map (fun g => VDict [fst (fst g); snd (fst g)]) groups))
            st)
  /\ (forall k0 v0 k1 v1 rest skills_str row_index,
        String.eqb k1 k0 = false ->
        py_join ", " v1 = Ok skills_str ->
        accepted_row E
          [Paragraph
             (VStr ("<font name='" ++ FONT_NAMES_bold E ++ "'>"
                    ++ py_str E v0 ++ "</font>: " ++ skills_str))
             None (PARAGRAPH_STYLES "skills")] = true ->
        emits (skills_body E (VDict ((k0, v0) :: (k1, v1) :: rest)) row_index)
              (row_index + 1)
              [[Paragraph
                  (VStr ("<font name='" ++ FONT_NAMES_bold E ++ "'>"
                         ++ py_str E v0 ++ "</font>: " ++ skills_str))
                  None (PARAGRAPH_STYLES "skills")]]
              [ Directive "BOTTOMPADDING" (0, row_index) (-1, row_index) [Num 2];
                Directive "TOPPADDING" (0, row_index) (-1, row_index) [Num 2];
                Directive "SPAN" (0, row_index) (1, row_index) [] ])
  /\ (forall (l : list Schema.SkillGroup) row_index,
        forallb Schema.two_keys l = true ->
        accepted E
          (map (fun g => skills_row E (Schema.label g) (Schema.items g)) l)
        = true ->
        emits (add_skills E row_index (Schema.encode_skills l))
              (row_index + 1 + Z.of_nat (List.length l))
              (heading_row "Skills"
                 :: map (fun g =>
                           [Paragraph
                              (VStr ("<font name='" ++ FONT_NAMES_bold E
                                     ++ "'>" ++ Schema.label g ++ "</font>: "
                                     ++ join ", " (Schema.items g)))
                              None (PARAGRAPH_STYLES "skills")]) l)
              (heading_styles E row_index ++ skills_styles (row_index + 1) l)).
Proof.
  split; [|split; [|split]].
  - intros. apply skills_body_first_two.
  - intros groups row_index st. unfold add_skills.
    apply bind_ext; [reflexivity|]. intros r1 st1.
    apply bind_ext; [reflexivity|]. intros [] st2.
    erewrite !bind_lift by reflexivity.
    apply for_each_ext. intros [[kv0 kv1] rest] r st3.
    apply skills_body_first_two.
  - intros k0 v0 k1 v1 rest skills_str row_index Hk Hj Ha.
    destruct (@first_two_keys k0 k1 v0 v1 rest Hk) as [H0 H1].
    unfold skills_body.
    eapply emits_eq.
    + eapply emits_bind; [apply emits_lift; reflexivity|].
      eapply emits_bind; [apply emits_lift, H0|].
      eapply emits_bind; [apply emits_lift, H1|].
      eapply emits_bind; [apply emits_lift, Hj|].
      apply emits_add_table_row. exact Ha.
    + reflexivity.
    + reflexivity.
    + reflexivity.
  - intros l row_index Hk Ha.
    exact (@emits_add_skills E l row_index Hk Ha).
Qed.

Lemma skills_use_first_two_keys_witness :
  String.eqb "skills" "category" = false
  /\ py_join ", " (VList [VStr "Go"; VStr "Rust"]) = Ok "Go, Rust"
  /\ accepted_row sample_env
       [Paragraph (VStr "<font name='Bold'>Languages</font>: Go, Rust")
          None (PARAGRAPH_STYLES "skills")] = true
  /\ emits (skills_body sample_env
              (VDict [("category", VStr "Languages");
                      ("skills", VList [VStr "Go"; VStr "Rust"]);
                      ("level", VStr "expert")]) 7)
           8
           [[Paragraph (VStr "<font name='Bold'>Languages</font>: Go, Rust")
               None (PARAGRAPH_STYLES "skills")]]
           [ Directive "BOTTOMPADDING" (0, 7) (-1, 7) [Num 2];
             Directive "TOPPADDING" (0, 7) (-1, 7) [Num 2];
             Directive "SPAN" (0, 7) (1, 7) [] ].
Proof.
  split; [reflexivity|]. split; [reflexivity|].
  split; [vm_compute; reflexivity|].
  destruct (skills_use_first_two_keys sample_env) as (_ & _ & H & _).
  apply (H "category" (VStr "Languages") "skills"
           (VList [VStr "Go"; VStr "Rust"]) [("level", VStr "expert")]
           "Go, Rust" 7); first [reflexivity | vm_compute; reflexivity].
Defined.

(** ** Padding of highlight rows *)

Lemma nth_highlight_rows n hs : forall i0 i h,
  nth_error hs i = Some h ->
  nth_error (highlight_rows n i0 hs) i
  = Some (bullet_row n (i0 + Z.of_nat i) h).
Proof.
  induction hs as [|x hs IH]; intros i0 i h H.
  - destruct i; discriminate.
  - destruct i as [|i].
    + cbn in H. injection H as ->. cbn. now rewrite Z.add_0_r.
    + cbn [highlight_rows nth_error]. rewrite (IH (i0 + 1) i h H).
      do 2 f_equal. lia.
Qed.

Lemma length_experience_rows e :
  List.length (experience_rows e)
  = (2 + List.length (Schema.highlights e))%nat.
Proof.
  unfold experience_rows. cbv zeta. cbn [app List.length].
  now rewrite length_highlight_rows, length_map.
Qed.

Lemma bottom_paddings_app ds1 ds2 k :
  bottom_paddings (ds1 ++ ds2) k
  = (bottom_paddings ds1 k ++ bottom_paddings ds2 k)%list.
Proof. unfold bottom_paddings. now rewrite filter_app, map_app. Qed.

Lemma bottom_paddings_row_styles row_index padding span k :
  bottom_paddings (row_styles row_index padding span) k
  = if row_index =? k then [[Num (fst padding)]] else [].
Proof.
  unfold bottom_paddings, row_styles.
  destruct span; cbn; destruct (row_index =? k); reflexivity.
Qed.

Lemma bottom_paddings_underline row_index k :
  bottom_paddings (underline row_index) k
  = if row_index =? k then [[Num 2]] else [].
Proof.
  unfold bottom_paddings, underline. cbn.
  destruct (row_index =? k); reflexivity.
Qed.

Lemma bottom_paddings_highlights_outside n hs : forall i0 r0 k,
  k < r0 \/ r0 + Z.of_nat (List.length hs) <= k ->
  bottom_paddings (highlight_styles n i0 r0 hs) k = [].
Proof.
  induction hs as [|x hs IH]; intros i0 r0 k H; [reflexivity|].
  cbn [highlight_styles]. rewrite bottom_paddings_app.
  unfold bullet_styles. rewrite bottom_paddings_row_styles.
  cbn [List.length] in H.
  destruct (Z.eqb_spec r0 k); [lia|].
  apply IH. lia.
Qed.

Lemma bottom_paddings_highlights n hs : forall i0 r0 i,
  (i < List.length hs)%nat ->
  bottom_paddings (highlight_styles n i0 r0 hs) (r0 + Z.of_nat i)
  = [[Num (if is_last n (i0 + Z.of_nat i) then 5 else 0)]].
Proof.
  induction hs as [|x hs IH]; intros i0 r0 i H; [cbn in H; lia|].
  cbn [highlight_styles]. rewrite bottom_paddings_app.
  unfold bullet_styles. rewrite bottom_paddings_row_styles.
  cbn [List.length] in H.
  destruct i as [|i].
  - rewrite !Z.add_0_r, Z.eqb_refl.
    rewrite bottom_paddings_highlights_outside by lia.
    now destruct (is_last n i0).
  - destruct (Z.eqb_spec r0 (r0 + Z.of_nat (S i))); [lia|].
    replace (r0 + Z.of_nat (S i)) with (r0 + 1 + Z.of_nat i) by lia.
    rewrite IH by lia.
    replace (i0 + 1 + Z.of_nat i) with (i0 + Z.of_nat (S i)) by lia.
    reflexivity.
Qed.

Lemma experience_height_nat e :
  experience_height e
  = Z.of_nat (2 + List.length (Schema.highlights e)).
Proof. unfold experience_height. lia. Qed.

Lemma bottom_paddings_experience_outside E e r0 k :
  k < r0 \/ r0 + experience_height e <= k ->
  bottom_paddings (experience_styles E r0 e) k = [].
Proof.
  intros H. rewrite experience_height_nat in H.
  unfold experience_styles. cbv zeta.
  rewrite !bottom_paddings_app, !bottom_paddings_row_styles.
  destruct (Z.eqb_spec r0 k); [lia|].
  destruct (Z.eqb_spec (r0 + 1) k); [lia|].
  apply bottom_paddings_highlights_outside. rewrite length_map. lia.
Qed.

Lemma experiences_height_nonneg l : 0 <= experiences_height l.
Proof.
  induction l as [|e l IH]; cbn [experiences_height]; [lia|].
  rewrite experience_height_nat. lia.
Qed.

Lemma is_last_nat (n i : nat) :
  is_last (Z.of_nat n) (Z.of_nat i) = Nat.eqb (S i) n.
Proof.
  unfold is_last.
  destruct (Z.eqb_spec (Z.of_nat i) (Z.of_nat n - 1));
    destruct (Nat.eqb_spec (S i) n); try reflexivity; lia.
Qed.

(** Jobs with 1, 2 and 5 highlights: the bottom paddings of the rows of the
    experiences section, row by row (per job two rows and the
    highlights). *)
Example bottom_paddings_1_2_5 :
  map (bottom_paddings
         (table_styles
            (snd (add_experiences sample_env 4
                    (Schema.encode_experiences
                       (Schema.experiences sample_record))
                    initial_state))))
      [5; 6; 7; 8; 9; 10; 11; 12; 13; 14; 15; 16; 17; 18]
  = [ [[Num 1]]; [[Num 1]]; [[Num 5]];
      [[Num 1]]; [[Num 1]]; [[Num 0]]; [[Num 5]];
      [[Num 1]]; [[Num 1]]; [[Num 0]]; [[Num 0]]; [[Num 0]]; [[Num 0]];
      [[Num 5]] ].
Proof. vm_compute. reflexivity. Qed.

(** ** Failing runs *)

Lemma keeps_ret A (a : A) : keeps (ret a).
Proof. intros st. reflexivity. Qed.

Lemma keeps_lift A (r : result A) : keeps (lift r).
Proof. intros st. reflexivity. Qed.

Lemma keeps_bind A B (m : M A) (f : A -> M B) :
  keeps m -> (forall a, keeps (f a)) -> keeps (bind m f).
Proof.
  intros Hm Hf st. unfold bind. specialize (Hm st).
  destruct (m st) as [[a|e] st1]; cbn [snd] in *.
  - now rewrite Hf.
  - exact Hm.
Qed.

Lemma keeps_for_each A (body : A -> Z -> M Z) l :
  (forall x r, keeps (body x r)) -> forall r, keeps (for_each l body r).
Proof.
  intros H. induction l as [|x l IH]; intros r.
  - apply keeps_ret.
  - cbn [for_each]. apply keeps_bind; [apply H | apply IH].
Qed.

Lemma keeps_table_data_append r : keeps (table_data_append r).
Proof. intros st. reflexivity. Qed.

Lemma keeps_table_styles_extend ds : keeps (table_styles_extend ds).
Proof. intros st. reflexivity. Qed.

Lemma keeps_observe f r : keeps (observe f r).
Proof. intros st. reflexivity. Qed.

Lemma keeps_allocate : keeps allocate.
Proof. intros st. reflexivity. Qed.

Ltac keeps_step :=
  match goal with
  | |- keeps (ret _) => apply keeps_ret
  | |- keeps (lift _) => apply keeps_lift
  | |- keeps (table_data_append _) => apply keeps_table_data_append
  | |- keeps (table_styles_extend _) => apply keeps_table_styles_extend
  | |- keeps (observe _ _) => apply keeps_observe
  | |- keeps allocate => apply keeps_allocate
  | |- keeps (for_each _ _ _) => apply keeps_for_each; intros
  | |- keeps (bind _ _) => apply keeps_bind; [|intros]
  | |- keeps (if ?b then _ else _) => destruct b
  | |- keeps (let (_, _) := ?p in _) => destruct p
  end.

Lemma keeps_add_table_row E row_index content_style_map span padding bullet_point :
  keeps (_add_table_row E row_index content_style_map span padding bullet_point).
Proof. unfold _add_table_row. repeat keeps_step. Qed.

Lemma keeps_append_section_table_style row_index :
  keeps (_append_section_table_style row_index).
Proof. unfold _append_section_table_style. repeat keeps_step. Qed.

Ltac keeps_tac :=
  repeat first
    [ keeps_step
    | match goal with
      | |- keeps (_add_table_row _ _ _ _ _ _) => apply keeps_add_table_row
      | |- keeps (_append_section_table_style _) =>
          apply keeps_append_section_table_style
      | |- keeps (highlight_body _ _ _ _) => unfold highlight_body
      | |- keeps (experience_body _ _ _) => unfold experience_body
      | |- keeps (education_body _ _ _) => unfold education_body
      | |- keeps (skills_body _ _ _) => unfold skills_body
      end ].

Lemma keeps_add_experiences E row_index experiences :
  keeps (add_experiences E row_index experiences).
Proof. unfold add_experiences. keeps_tac. Qed.

Lemma keeps_add_education E row_index education :
  keeps (add_education E row_index education).
Proof. unfold add_education. keeps_tac. Qed.

Lemma keeps_add_skills E row_index skills :
  keeps (add_skills E row_index skills).
Proof. unfold add_skills. keeps_tac. Qed.

Lemma quiet_bind A B (m : M A) (f : A -> M B) :
  keeps m -> (forall a, quiet (f a)) -> quiet (bind m f).
Proof.
  intros Hm Hf st. unfold bind. specialize (Hm st).
  destruct (m st) as [[a|e] st1]; cbn [fst snd] in *.
  - intros H. now rewrite (Hf a st1 H).
  - intros _. exact Hm.
Qed.

Lemma quiet_doc_build E pdf_location (a : string) :
  quiet (doc_build E pdf_location ;; ret a).
Proof.
  intros st. unfold bind, doc_build, ret.
  destruct (layout_ok E _ _); [discriminate|reflexivity].
Qed.

(** A file is written by the last statement only, and only when the
    layout engine completes. *)
Lemma quiet_generate_resume E loc data : quiet (generate_resume E loc data).
Proof.
  unfold generate_resume.
  repeat match goal with
  | |- quiet (bind (doc_build _ _) _) => apply quiet_doc_build
  | |- quiet (bind ?m _) =>
      apply quiet_bind;
      [ match goal with
        | |- keeps (add_experiences _ _ _) => apply keeps_add_experiences
        | |- keeps (add_education _ _ _) => apply keeps_add_education
        | |- keeps (add_skills _ _ _) => apply keeps_add_skills
        | |- _ => solve [keeps_tac]
        end
      | intros ]
  end.
Qed.

Lemma fails_lift A (r : result A) : is_err r = true -> fails (lift r).
Proof. intros H st. exact H. Qed.

Lemma fails_bind_l A B (m : M A) (f : A -> M B) : fails m -> fails (bind m f).
Proof.
  intros H st. unfold bind. specialize (H st).
  destruct (m st) as [[a|e] st1]; [discriminate|reflexivity].
Qed.

Lemma fails_bind_r A B (m : M A) (f : A -> M B) :
  (forall a, fails (f a)) -> fails (bind m f).
Proof.
  intros H st. unfold bind.
  destruct (m st) as [[a|e] st1]; [apply H|reflexivity].
Qed.

Lemma fails_for_each A (body : A -> Z -> M Z) l x :
  In x l -> (forall r, fails (body x r)) ->
  forall r, fails (for_each l body r).
Proof.
  intros Hin Hx. induction l as [|y l IH]; intros r; [destruct Hin|].
  cbn [for_each]. destruct Hin as [->|Hin].
  - apply fails_bind_l, Hx.
  - apply fails_bind_r. intros r'. now apply IH.
Qed.

Lemma in_enumerate_from A (l : list A) x : forall i,
  In x l -> exists k, In (k, x) (enumerate_from i l).
Proof.
  induction l as [|y l IH]; intros i H; [destruct H|].
  destruct H as [->|H].
  - exists i. now left.
  - destruct (IH (i + 1) H) as [k Hk]. exists k. now right.
Qed.

Lemma fails_outcome A (m : M A) st :
  fails m -> quiet m ->
  exists e st', m st = (Err e, st') /\ files st' = files st.
Proof.
  intros Hf Hq. specialize (Hf st). specialize (Hq st Hf).
  destruct (m st) as [[a|e] st']; [discriminate|].
  now exists e, st'.
Qed.

Lemma fails_bind_lift A B (r : result A) (f : A -> M B) :
  (forall a, r = Ok a -> fails (f a)) -> fails (bind (lift r) f).
Proof.
  intros H st. unfold bind, lift.
  destruct r as [a|e]; [now apply H | reflexivity].
Qed.

Lemma get_err path e :
  fold_left (fun r k => (v <- r ;; subscript v k)%res) path (Err e) = Err e.
Proof. induction path as [|k path IH]; [reflexivity | exact IH]. Qed.

Lemma get_cons data k path :
  get data (k :: path) = (v <- subscript data k ;; get v path)%res.
Proof.
  unfold get. cbn. destruct (subscript data k); [reflexivity|apply get_err].
Qed.

Ltac fails_tac :=
  repeat match goal with
  | |- fails (bind (lift _) _) => apply fails_bind_lift; intros ? ?
  | |- fails (bind (_add_table_row _ _ _ _ _ _) _) =>
      apply fails_bind_r; intros ?
  | |- fails (bind (_append_section_table_style _) _) =>
      apply fails_bind_r; intros ?
  | |- fails (bind allocate _) => apply fails_bind_r; intros ?
  | |- fails (bind (table_styles_extend _) _) => apply fails_bind_r; intros ?
  | |- fails (bind (if _ then _ else _) _) => apply fails_bind_r; intros ?
  end.

Lemma fails_add_experiences E row_index jobs job :
  In job jobs -> subscript job "titles" = Ok (VList []) ->
  fails (add_experiences E row_index (VList jobs)).
Proof.
  intros Hin Ht. unfold add_experiences.
  apply fails_bind_r. intros r. apply fails_bind_r. intros _.
  apply fails_bind_lift. intros l Hl. cbn in Hl. injection Hl as <-.
  destruct (in_enumerate_from jobs job 0 Hin) as [k Hk].
  apply (fails_for_each _ _ _ Hk). intros r'.
  unfold experience_body. apply fails_bind_l, fails_lift.
  now rewrite Ht.
Qed.

Lemma fails_add_education E row_index entries edu :
  In edu entries -> subscript edu "degrees" = Ok (VList []) ->
  fails (add_education E row_index (VList entries)).
Proof.
  intros Hin Hd. unfold add_education.
  apply fails_bind_r. intros r. apply fails_bind_r. intros _.
  apply fails_bind_lift. intros l Hl. cbn in Hl. injection Hl as <-.
  apply (fails_for_each _ _ _ Hin). intros r'.
  unfold education_body. apply fails_bind_l, fails_lift.
  now rewrite Hd.
Qed.

Lemma fails_add_skills E row_index groups kvs :
  In (VDict kvs) groups -> (List.length kvs < 2)%nat ->
  fails (add_skills E row_index (VList groups)).
Proof.
  intros Hin Hk. unfold add_skills.
  apply fails_bind_r. intros r. apply fails_bind_r. intros _.
  apply fails_bind_lift. intros l Hl. cbn in Hl. injection Hl as <-.
  apply (fails_for_each _ _ _ Hin). intros r' st.
  unfold skills_body, bind, lift.
  destruct kvs as [|[k v] [|kv kvs]]; cbn in *; [reflexivity| |lia].
  now rewrite String.eqb_refl.
Qed.

(** C2, counterexample: without the key [objective] the run raises after
    three rows have been appended; without [experiences] after four, and
    without [education] or [skills] later still. *)
Lemma missing_objective_after_rows :
  generate_resume sample_env "out"
    (del "objective" (Schema.encode sample_record)) initial_state
  = (Err (KeyError "objective"),
     snd (generate_resume sample_env "out"
            (del "objective" (Schema.encode sample_record)) initial_state))
  /\ List.length
       (table_data
          (snd (generate_resume sample_env "out"
                  (del "objective" (Schema.encode sample_record))
                  initial_state))) = 3%nat
  /\ List.length
       (table_data
          (snd (generate_resume sample_env "out"
                  (del "experiences" (Schema.encode sample_record))
                  initial_state))) = 4%nat
  /\ List.length
       (table_data
          (snd (generate_resume sample_env "out"
                  (del "education" (Schema.encode sample_record))
                  initial_state))) = 19%nat
  /\ List.length
       (table_data
          (snd (generate_resume sample_env "out"
                  (del "skills" (Schema.encode sample_record))
                  initial_state))) = 21%nat.
Proof. repeat apply conj; vm_compute; reflexivity. Qed.

Lemma del_encode_same (r : Schema.ResumeRecord) (k : string) :
  In k ["objective"; "experiences"; "education"; "skills"] ->
  subscript (del k (Schema.encode r)) k = Err (KeyError k).
Proof.
  intros H. unfold Schema.encode. cbn in H.
  destruct (Schema.debug r);
    destruct H as [<-|[<-|[<-|[<-|[]]]]]; reflexivity.
Qed.

Lemma del_encode_other (r : Schema.ResumeRecord) (k k' : string) :
  In k ["objective"; "experiences"; "education"; "skills"] ->
  In k' ["basic"; "objective"; "experiences"; "education"; "skills"] ->
  k <> k' ->
  subscript (del k (Schema.encode r)) k' = subscript (Schema.encode r) k'.
Proof.
  intros H H' Hne. unfold Schema.encode. cbn in H, H'.
  destruct (Schema.debug r);
    destruct H as [<-|[<-|[<-|[<-|[]]]]];
    destruct H' as [<-|[<-|[<-|[<-|[<-|[]]]]]];
    first [reflexivity | congruence].
Qed.

Lemma del_encode_debug (r : Schema.ResumeRecord) (k : string) (d : value) :
  In k ["objective"; "experiences"; "education"; "skills"] ->
  dict_get (del k (Schema.encode r)) "debug" d
  = dict_get (Schema.encode r) "debug" d.
Proof.
  intros H. unfold Schema.encode. cbn in H.
  destruct (Schema.debug r);
    destruct H as [<-|[<-|[<-|[<-|[]]]]]; reflexivity.
Qed.

(** The lookups of [generate_resume] on a typed record without the key
    [k]: all as on the record, but the one of [k]. *)
Ltac without_key r k :=
  unfold generate_resume;
  rewrite ?(@del_encode_debug r k) by (cbn; tauto);
  rewrite ?(@del_encode_other r k "basic") by (cbn; tauto || discriminate);
  rewrite ?(@del_encode_other r k "objective")
    by (cbn; tauto || discriminate);
  rewrite ?(@del_encode_other r k "experiences")
    by (cbn; tauto || discriminate);
  rewrite ?(@del_encode_other r k "education")
    by (cbn; tauto || discriminate);
  rewrite ?(@del_encode_other r k "skills") by (cbn; tauto || discriminate);
  rewrite (@del_encode_same r k) by (cbn; tauto).

Ltac stops_at k :=
  rewrite (@bind_lift_err _ _ _ (KeyError k)) by reflexivity;
  eexists; split; [reflexivity|].

Lemma document_rows_to_education (E : env) (r : Schema.ResumeRecord) :
  firstn (rows_read "education" r) (document_rows E r)
  = [Paragraph (VStr (Schema.name r)) None (PARAGRAPH_STYLES "name")]
    :: [Paragraph (VStr (contact_line r)) None (PARAGRAPH_STYLES "contact")]
    :: heading_row "Objective"
    :: [Paragraph (VStr (Schema.objective r)) None
          (PARAGRAPH_STYLES "objective")]
    :: heading_row "Experience"
    :: experiences_rows (Schema.experiences r).
Proof.
  unfold rows_read, document_rows. cbn [String.eqb Ascii.eqb Bool.eqb].
  replace (5 + List.length (experiences_rows (Schema.experiences r)))%nat
    with (5 + (List.length (experiences_rows (Schema.experiences r)) + 0))%nat
    by lia.
  cbn [app firstn Nat.add].
  rewrite firstn_app_2, firstn_O, app_nil_r. reflexivity.
Qed.

Lemma document_rows_to_skills (E : env) (r : Schema.ResumeRecord) :
  firstn (rows_read "skills" r) (document_rows E r)
  = [Paragraph (VStr (Schema.name r)) None (PARAGRAPH_STYLES "name")]
    :: [Paragraph (VStr (contact_line r)) None (PARAGRAPH_STYLES "contact")]
    :: heading_row "Objective"
    :: [Paragraph (VStr (Schema.objective r)) None
          (PARAGRAPH_STYLES "objective")]
    :: heading_row "Experience"
    :: (experiences_rows (Schema.experiences r)
        ++ heading_row "Education"
           :: map (education_row E) (Schema.education r))%list.
Proof.
  unfold rows_read, document_rows. cbn [String.eqb Ascii.eqb Bool.eqb].
  replace (6 + List.length (experiences_rows (Schema.experiences r))
           + List.length (Schema.education r))%nat
    with (5 + (List.length (experiences_rows (Schema.experiences r))
               + (1 + (List.length
                         (map (education_row E) (Schema.education r))
                       + 0))))%nat
    by (rewrite length_map; lia).
  cbn [app firstn Nat.add].
  rewrite firstn_app_2. cbn [app firstn].
  rewrite firstn_app_2, firstn_O, app_nil_r. reflexivity.
Qed.

(** A typed record without one of its four top-level keys, well formed and
    with accepted texts as far as the run gets: the run raises at the
    lookup of the key, the rows before it appended. *)
Lemma missing_section_run (E : env) (loc : string) (r : Schema.ResumeRecord)
    (st : state) (k : string) :
  In k ["objective"; "experiences"; "education"; "skills"] ->
  accepted E (firstn (rows_read k r) (document_rows E r)) = true ->
  (k = "education" \/ k = "skills" ->
   forallb Schema.has_title (Schema.experiences r) = true) ->
  (k = "skills" -> forallb Schema.has_degree (Schema.education r) = true) ->
  exists st',
    generate_resume E loc (del k (Schema.encode r)) st
    = (Err (KeyError k), st')
    /\ table_data st' = firstn (rows_read k r) (document_rows E r)
    /\ files st' = files st.
Proof.
  intros Hk Ha Hex Hed.
  cbn in Hk. destruct Hk as [<-|[<-|[<-|[<-|[]]]]].
  - unfold rows_read, document_rows in Ha.
    cbn [String.eqb Ascii.eqb Bool.eqb app firstn] in Ha.
    rewrite !accepted_cons in Ha.
    apply andb_true_iff in Ha. destruct Ha as [H1 Ha].
    apply andb_true_iff in Ha. destruct Ha as [H2 _].
    without_key r "objective".
    run_header E r st H1 H2.
    stops_at "objective".
    split; [gather_rows; reflexivity | gather_files; reflexivity].
  - unfold rows_read, document_rows in Ha.
    cbn [String.eqb Ascii.eqb Bool.eqb app firstn] in Ha.
    rewrite !accepted_cons in Ha.
    apply andb_true_iff in Ha. destruct Ha as [H1 Ha].
    apply andb_true_iff in Ha. destruct Ha as [H2 Ha].
    apply andb_true_iff in Ha. destruct Ha as [_ Ha].
    apply andb_true_iff in Ha. destruct Ha as [H3 _].
    without_key r "experiences".
    run_header E r st H1 H2.
    run_objective r H3.
    stops_at "experiences".
    split; [gather_rows; reflexivity | gather_files; reflexivity].
  - rewrite document_rows_to_education in *.
    rewrite !accepted_cons in Ha.
    apply andb_true_iff in Ha. destruct Ha as [H1 Ha].
    apply andb_true_iff in Ha. destruct Ha as [H2 Ha].
    apply andb_true_iff in Ha. destruct Ha as [_ Ha].
    apply andb_true_iff in Ha. destruct Ha as [H3 Ha].
    apply andb_true_iff in Ha. destruct Ha as [_ H4].
    specialize (Hex (or_introl eq_refl)).
    without_key r "education".
    run_header E r st H1 H2.
    run_objective r H3.
    run_experiences E r Hex H4.
    stops_at "education".
    split; [gather_rows; reflexivity | gather_files; reflexivity].
  - rewrite document_rows_to_skills in *.
    rewrite !accepted_cons, accepted_app, accepted_cons in Ha.
    apply andb_true_iff in Ha. destruct Ha as [H1 Ha].
    apply andb_true_iff in Ha. destruct Ha as [H2 Ha].
    apply andb_true_iff in Ha. destruct Ha as [_ Ha].
    apply andb_true_iff in Ha. destruct Ha as [H3 Ha].
    apply andb_true_iff in Ha. destruct Ha as [_ Ha].
    apply andb_true_iff in Ha. destruct Ha as [H4 Ha].
    apply andb_true_iff in Ha. destruct Ha as [_ H5].
    specialize (Hex (or_intror eq_refl)). specialize (Hed eq_refl).
    without_key r "skills".
    run_header E r st H1 H2.
    run_objective r H3.
    run_experiences E r Hex H4.
    run_education E r Hed H5.
    stops_at "skills".
    split; [gather_rows; reflexivity | gather_files; reflexivity].
Qed.

(** C2, amended: a record in which [basic.contact.email], [basic.name] or
    [basic.contact.phone] cannot be read makes [generate_resume] raise with
    the state untouched: no row appended, no file written.  A record in
    which [objective], [experiences], [education] or [skills] cannot be read
    makes it raise as well and no file is written; but rows have been
    appended by then: on a typed record from which one of the four keys
    has been removed, the run raises [KeyError] for that key at its lookup,
    the table holding the rows of the document that precede the lookup (3
    for [objective], 4 for [experiences], 5 and the rows of the experiences
    for [education], one more and a row per education entry for [skills]);
    this when the run gets to the lookup: the [Paragraph] constructor
    accepts the texts of these rows, and the experiences and education
    entries that are run through have their first title and degree. *)
Theorem missing_key_raises (E : env) (loc : string) (data : value)
    (st : state) :
  (forall e,
     get data ["basic"; "contact"; "email"] = Err e ->
     generate_resume E loc data st = (Err e, st))
  /\ (is_err (get data ["basic"; "name"]) = true
      \/ is_err (get data ["basic"; "contact"; "phone"]) = true ->
      exists e, generate_resume E loc data st = (Err e, st))
  /\ (forall k,
        In k ["objective"; "experiences"; "education"; "skills"] ->
        is_err (get data [k]) = true ->
        exists e st',
          generate_resume E loc data st = (Err e, st')
          /\ files st' = files st)
  /\ (forall (r : Schema.ResumeRecord) k,
        In k ["objective"; "experiences"; "education"; "skills"] ->
        accepted E (firstn (rows_read k r) (document_rows E r)) = true ->
        (k = "education" \/ k = "skills" ->
         forallb Schema.has_title (Schema.experiences r) = true) ->
        (k = "skills" ->
         forallb Schema.has_degree (Schema.education r) = true) ->
        exists st',
          generate_resume E loc (del k (Schema.encode r)) st
          = (Err (KeyError k), st')
          /\ table_data st' = firstn (rows_read k r) (document_rows E r)
          /\ List.length (table_data st') = rows_read k r
          /\ files st' = files st).
Proof.
  split; [|split; [|split]]; cycle 3.
  { intros r k Hk Ha Hex Hed.
    destruct (@missing_section_run E loc r st k Hk Ha Hex Hed)
      as (st' & Hr & Hd & Hf).
    exists st'. split; [exact Hr|]. split; [exact Hd|]. split; [|exact Hf].
    rewrite Hd. apply firstn_length_le.
    rewrite length_document_rows. unfold rows_read, row_count.
    rewrite length_experiences_rows.
    destruct (String.eqb k "objective"); [lia|].
    destruct (String.eqb k "experiences"); [lia|].
    destruct (String.eqb k "education"); lia. }
  - intros e H. rewrite !get_cons in H. unfold generate_resume.
    apply bind_lift_err.
    destruct (subscript data "basic") as [b|]; cbn in *; [|exact H].
    destruct (subscript b "contact") as [c|]; cbn in *; [|exact H].
    destruct (subscript c "email"); cbn in *; [discriminate|exact H].
  - intros H. rewrite !get_cons in H. unfold generate_resume.
    destruct (b <- subscript data "basic" ;; c <- subscript b "contact" ;;
              subscript c "email")%res as [em|e] eqn:He;
      [erewrite bind_lift by reflexivity
      | exists e; now apply bind_lift_err].
    destruct (b <- subscript data "basic" ;; subscript b "name")%res
      as [nm|e] eqn:Hn;
      [erewrite bind_lift by reflexivity
      | exists e; now apply bind_lift_err].
    destruct (b <- subscript data "basic" ;; c <- subscript b "contact" ;;
              subscript c "phone")%res as [ph|e] eqn:Hp;
      [exfalso | exists e; now apply bind_lift_err].
    destruct (subscript data "basic") as [b|]; cbn in *; [|discriminate].
    destruct (subscript b "name"); cbn in *; [|discriminate].
    destruct (subscript b "contact") as [c|]; cbn in *; [|discriminate].
    destruct (subscript c "phone"); cbn in *; [|discriminate].
    destruct H; discriminate.
  - intros k Hk H. apply fails_outcome; [|apply quiet_generate_resume].
    rewrite get_cons in H.
    assert (is_err (subscript data k) = true) as H'
      by (destruct (subscript data k); [discriminate|reflexivity]).
    clear H. unfold generate_resume.
    cbn in Hk.
    destruct Hk as [<-|[<-|[<-|[<-|[]]]]];
      repeat match goal with
      | |- fails (bind (lift (subscript data ?k)) _) =>
          first [ solve [apply fails_bind_l, fails_lift; exact H']
                | apply fails_bind_r; intros ? ]
      | |- fails (bind _ _) => apply fails_bind_r; intros ?
      end.
Qed.

Lemma missing_key_raises_witness :
  (get record_without_email ["basic"; "contact"; "email"]
   = Err (KeyError "email")
   /\ generate_resume sample_env "out" record_without_email initial_state
      = (Err (KeyError "email"), initial_state))
  /\ (In "education" ["objective"; "experiences"; "education"; "skills"]
      /\ accepted sample_env
           (firstn (rows_read "education" sample_record)
                   (document_rows sample_env sample_record)) = true
      /\ forallb Schema.has_title (Schema.experiences sample_record) = true
      /\ exists st',
           generate_resume sample_env "out"
             (del "education" (Schema.encode sample_record)) initial_state
           = (Err (KeyError "education"), st')
           /\ table_data st'
              = firstn (rows_read "education" sample_record)
                       (document_rows sample_env sample_record)
           /\ List.length (table_data st')
              = rows_read "education" sample_record
           /\ files st' = files initial_state).
Proof.
  destruct (missing_key_raises sample_env "out" record_without_email
              initial_state) as (H & _ & _ & H4).
  split.
  - split; [reflexivity|]. apply H. reflexivity.
  - assert (forallb Schema.has_title (Schema.experiences sample_record)
            = true) as Hv by reflexivity.
    assert (accepted sample_env
              (firstn (rows_read "education" sample_record)
                      (document_rows sample_env sample_record)) = true) as Ha
      by (vm_compute; reflexivity).
    assert (In "education" ["objective"; "experiences"; "education"; "skills"])
      as Hk by (right; right; left; reflexivity).
    split; [exact Hk|]. split; [exact Ha|]. split; [exact Hv|].
    apply (H4 sample_record "education" Hk Ha).
    + intros _. exact Hv.
    + discriminate.
Defined.

(** C5, counterexample: an experience with an empty [highlights] list is
    accepted; the run returns the path of the document. *)
Lemma empty_highlights_accepted :
  Schema.highlights (job "Acme" []) = []
  /\ Schema.experiences record_without_highlights = [job "Acme" []]
  /\ generate_resume sample_env "out"
       (Schema.encode record_without_highlights) initial_state
     = (Ok "out/resume.pdf",
        snd (generate_resume sample_env "out"
               (Schema.encode record_without_highlights) initial_state))
  /\ List.length
       (table_data
          (snd (generate_resume sample_env "out"
                  (Schema.encode record_without_highlights) initial_state)))
     = 11%nat.
Proof. repeat apply conj; vm_compute; reflexivity. Qed.

(** C5, amended: an experience whose [titles] list is empty, an education
    entry whose [degrees] list is empty, or a skill group with fewer than
    two keys makes [generate_resume] raise, and no file is written.  An
    experience whose [highlights] list is empty raises nothing on that
    account: with texts that the [Paragraph] constructor accepts it yields
    its two rows and no bullet. *)
Theorem malformed_entries_raise (E : env) (loc : string) (data : value)
    (st : state) :
  (forall jobs job,
     subscript data "experiences" = Ok (VList jobs) ->
     In job jobs ->
     subscript job "titles" = Ok (VList []) ->
     exists e st',
       generate_resume E loc data st = (Err e, st') /\ files st' = files st)
  /\ (forall entries edu,
        subscript data "education" = Ok (VList entries) ->
        In edu entries ->
        subscript edu "degrees" = Ok (VList []) ->
        exists e st',
          generate_resume E loc data st = (Err e, st')
          /\ files st' = files st)
  /\ (forall groups kvs,
        subscript data "skills" = Ok (VList groups) ->
        In (VDict kvs) groups ->
        (List.length kvs < 2)%nat ->
        exists e st',
          generate_resume E loc data st = (Err e, st')
          /\ files st' = files st)
  /\ (forall idx c l t ts row_index,
        accepted E
          [ [ Paragraph (VStr c) None (PARAGRAPH_STYLES "company_heading");
              Paragraph (VStr (Schema.startdate t ++ "-"
                               ++ Schema.enddate t)) None
                (PARAGRAPH_STYLES "company_duration") ];
            [ Paragraph (VStr (Schema.title_name t)) None
                (PARAGRAPH_STYLES "company_title");
              Paragraph (VStr l) None
                (PARAGRAPH_STYLES "company_location") ] ] = true ->
        emits (experience_body E
                 (idx, Schema.encode_experience
                         {| Schema.company := c; Schema.location := l;
                            Schema.titles := t :: ts;
                            Schema.highlights := [] |})
                 row_index)
              (row_index + 2)
              [ [ Paragraph (VStr c) None (PARAGRAPH_STYLES "company_heading");
                  Paragraph (VStr (Schema.startdate t ++ "-"
                                   ++ Schema.enddate t)) None
                    (PARAGRAPH_STYLES "company_duration") ];
                [ Paragraph (VStr (Schema.title_name t)) None
                    (PARAGRAPH_STYLES "company_title");
                  Paragraph (VStr l) None
                    (PARAGRAPH_STYLES "company_location") ] ]
              (row_styles row_index (DEFAULT_PADDING E) false
               ++ row_styles (row_index + 1) (DEFAULT_PADDING E) false)).
Proof.
  split; [|split; [|split]].
  - intros jobs job Hd Hin Ht.
    apply fails_outcome; [|apply quiet_generate_resume].
    unfold generate_resume. fails_tac.
    match goal with
    | H : subscript data "experiences" = Ok ?a |- _ =>
        rewrite Hd in H; injection H as <-
    end.
    eapply fails_bind_l, fails_add_experiences; eassumption.
  - intros entries edu Hd Hin Ht.
    apply fails_outcome; [|apply quiet_generate_resume].
    unfold generate_resume. fails_tac.
    apply fails_bind_r; intros ?. fails_tac.
    match goal with
    | H : subscript data "education" = Ok ?a |- _ =>
        rewrite Hd in H; injection H as <-
    end.
    eapply fails_bind_l, fails_add_education; eassumption.
  - intros groups kvs Hd Hin Hk.
    apply fails_outcome; [|apply quiet_generate_resume].
    unfold generate_resume. fails_tac.
    apply fails_bind_r; intros ?. fails_tac.
    apply fails_bind_r; intros ?. fails_tac.
    match goal with
    | H : subscript data "skills" = Ok ?a |- _ =>
        rewrite Hd in H; injection H as <-
    end.
    eapply fails_bind_l, fails_add_skills; eassumption.
  - intros idx c l t ts row_index Ha.
    eapply emits_eq.
    + apply emits_experience_body; [reflexivity|exact Ha].
    + reflexivity.
    + reflexivity.
    + reflexivity.
Qed.

Lemma malformed_entries_raise_witness :
  subscript record_with_untitled_job "experiences"
  = Ok (VList [VDict [("company", VStr "Acme");
                      ("location", VStr "Pune");
                      ("titles", VList []);
                      ("highlights", VList [VStr "one"])]])
  /\ generate_resume sample_env "out" record_with_untitled_job initial_state
     = (Err IndexError,
        snd (generate_resume sample_env "out" record_with_untitled_job
               initial_state))
  /\ exists e st',
       generate_resume sample_env "out" record_with_untitled_job initial_state
       = (Err e, st')
       /\ files st' = files initial_state.
Proof.
  split; [reflexivity|]. split; [vm_compute; reflexivity|].
  destruct (malformed_entries_raise sample_env "out" record_with_untitled_job
              initial_state) as [H _].
  eapply H.
  - reflexivity.
  - left. reflexivity.
  - reflexivity.
Defined.

(** ** Directives never run ahead of the rows *)

Lemma append_section_table_style_run row_index st :
  _append_section_table_style row_index st
  = (Ok tt,
     {| table_data := table_data st;
        table_styles := table_styles st ++ underline row_index;
        files := files st;
        calls := calls st ++
                 [{| who := append_section_table_style_call;
                     returned := None;
                     rows_then := List.length (table_data st);
                     styles_then := table_styles st ++ underline row_index |}]
     |}).
Proof. reflexivity. Qed.

Lemma refers_S n r : refers n r -> refers (S n) r.
Proof. unfold refers. lia. Qed.

Lemma pending_S n d : pending n d -> pending (S n) d.
Proof.
  unfold pending. apply Forall_impl. intros r [H|[H|H]]; auto using refers_S.
Qed.

Lemma pending_refers n d :
  (1 <= n)%nat -> pending n d -> Forall (refers n) (rows_of d).
Proof.
  intros Hn. unfold pending. apply Forall_impl.
  unfold refers. intros r [H|[H|H]]; lia.
Qed.

Lemma pending_row n row_index c0 c1 cmd0 args0 :
  refers n row_index ->
  pending n (Directive cmd0 (c0, row_index) (c1, row_index) args0).
Proof.
  intros H. unfold pending, rows_of. cbn [start stop snd].
  repeat (apply Forall_cons; [right; right; exact H|]). apply Forall_nil.
Qed.

Lemma pending_row_styles n row_index padding span :
  refers n row_index ->
  Forall (pending n) (row_styles row_index padding span).
Proof.
  intros H. unfold row_styles.
  destruct span; cbn [app];
    repeat (apply Forall_cons; [apply pending_row; exact H|]);
    apply Forall_nil.
Qed.

Lemma pending_underline n row_index :
  refers n row_index -> Forall (pending n) (underline row_index).
Proof.
  intros H. unfold underline.
  repeat (apply Forall_cons; [apply pending_row; exact H|]).
  apply Forall_nil.
Qed.

Lemma Inv_appended row_index (r : row) span padding st :
  Inv row_index st ->
  Inv (row_index + 1) (appended row_index r span padding st)
  /\ (1 <= List.length (table_data (appended row_index r span padding st)))%nat.
Proof.
  intros (Hr & Hs & Hc). unfold appended.
  cbn [table_data table_styles calls].
  assert (List.length (table_data st ++ [r]) = S (List.length (table_data st)))
    as Hlen by (rewrite length_app; cbn; lia).
  assert (Forall (pending (S (List.length (table_data st))))
            (table_styles st ++ row_styles row_index padding span)) as Hs'.
  { apply Forall_app. split.
    - revert Hs. apply Forall_impl. intros d. apply pending_S.
    - apply pending_row_styles. unfold refers. lia. }
  split; [|lia].
  unfold Inv, logged. cbn [table_data table_styles calls].
  rewrite Hlen. split; [lia|]. split; [exact Hs'|].
  apply Forall_app. split; [exact Hc|].
  constructor; [|constructor].
  unfold call_ok. cbn [styles_then rows_then who returned].
  split.
  - revert Hs'. apply Forall_impl. intros d. apply pending_refers. lia.
  - f_equal. lia.
Qed.

Lemma Inv_append_section_table_style row_index st :
  Inv row_index st -> 1 <= row_index ->
  let out := _append_section_table_style (row_index - 1) st in
  fst out = Ok tt /\ Inv row_index (snd out).
Proof.
  intros (Hr & Hs & Hc) Hpos. rewrite append_section_table_style_run.
  cbn [fst snd].
  assert (Forall (pending (List.length (table_data st)))
            (table_styles st ++ underline (row_index - 1))) as Hs'.
  { apply Forall_app. split; [exact Hs|].
    apply pending_underline. unfold refers. lia. }
  split; [reflexivity|].
  unfold Inv, logged. cbn [table_data table_styles calls].
  split; [exact Hr|]. split; [exact Hs'|].
  apply Forall_app. split; [exact Hc|].
  constructor; [|constructor].
  unfold call_ok. cbn [styles_then rows_then who returned].
  split; [|reflexivity].
  revert Hs'. apply Forall_impl. intros d. apply pending_refers. lia.
Qed.

Lemma Inv_logged row_index st : Inv row_index st -> logged st.
Proof. now intros (_ & _ & H). Qed.

Lemma inv_lift A B row_index (x : result A) (f : A -> M B) Q :
  (forall a, x = Ok a -> triple (Inv row_index) (f a) Q logged) ->
  triple (Inv row_index) (bind (lift x) f) Q logged.
Proof.
  intros H st HI. unfold bind, lift.
  destruct x as [a|e]; [now apply H | exact (Inv_logged HI)].
Qed.

Lemma inv_row E B row_index c s p b (f : Z -> M B) Q :
  triple (Inv (row_index + 1)) (f (row_index + 1)) Q logged ->
  triple (Inv row_index) (bind (_add_table_row E row_index c s p b) f) Q logged.
Proof.
  intros H st HI. unfold bind. rewrite add_table_row_run.
  destruct (cells E (if given b then b else None) c) as [r|e].
  - apply H. now apply Inv_appended.
  - exact (Inv_logged HI).
Qed.

Lemma inv_row_last E row_index c s p b :
  triple (Inv row_index) (_add_table_row E row_index c s p b) Inv logged.
Proof.
  intros st HI. rewrite add_table_row_run.
  destruct (cells E (if given b then b else None) c) as [r|e].
  - now apply Inv_appended.
  - exact (Inv_logged HI).
Qed.

Lemma inv_heading E B row_index c p b (f : Z -> M B) Q :
  triple (Inv (row_index + 1)) (f (row_index + 1)) Q logged ->
  triple (Inv row_index)
         (r <- _add_table_row E row_index c true p b ;;
          _append_section_table_style (r - 1) ;; f r)
         Q logged.
Proof.
  intros H st HI. unfold bind. rewrite add_table_row_run.
  destruct (cells E (if given b then b else None) c) as [r|e];
    [|exact (Inv_logged HI)].
  destruct (@Inv_appended row_index r true p st HI) as (H2 & H3).
  assert (1 <= row_index + 1) as Hpos by (destruct H2 as (Hr & _); lia).
  destruct (Inv_append_section_table_style H2 Hpos) as (H4 & H5).
  destruct (_append_section_table_style (row_index + 1 - 1)
              (appended row_index r true p st)) as [res st2].
  cbn [fst snd] in *. subst res. now apply H.
Qed.

Lemma inv_bind B row_index (m : M Z) (f : Z -> M B) Q :
  triple (Inv row_index) m Inv logged ->
  (forall r, triple (Inv r) (f r) Q logged) ->
  triple (Inv row_index) (bind m f) Q logged.
Proof.
  intros Hm Hf st HI. unfold bind. specialize (Hm st HI).
  destruct (m st) as [[r|e] st1]; [now apply Hf | exact Hm].
Qed.

Lemma inv_ret row_index : triple (Inv row_index) (ret row_index) Inv logged.
Proof. intros st HI. exact HI. Qed.

Lemma inv_for_each A (body : A -> Z -> M Z) l :
  (forall x r, triple (Inv r) (body x r) Inv logged) ->
  forall r, triple (Inv r) (for_each l body r) Inv logged.
Proof.
  intros H. induction l as [|x l IH]; intros r.
  - apply inv_ret.
  - cbn [for_each]. apply inv_bind; [apply H | apply IH].
Qed.

Ltac inv_step :=
  match goal with
  | |- triple (Inv _) (bind (lift _) _) _ logged =>
      apply inv_lift; intros ? ?
  | |- triple (Inv _)
         (bind (_add_table_row _ _ _ true _ _)
               (fun r => bind (_append_section_table_style (r - 1)) _))
         _ logged =>
      apply inv_heading
  | |- triple (Inv _) (bind (_add_table_row _ _ _ _ _ _) _) _ logged =>
      apply inv_row
  | |- triple (Inv _) (_add_table_row _ _ _ _ _ _) Inv logged =>
      apply inv_row_last
  | |- triple (Inv _) (for_each _ _ _) Inv logged =>
      apply inv_for_each; intros ? ?
  end.

Lemma inv_highlight_body E n ib row_index :
  triple (Inv row_index) (highlight_body E n ib row_index) Inv logged.
Proof. unfold highlight_body. destruct ib. apply inv_row_last. Qed.

Lemma inv_experience_body E ij row_index :
  triple (Inv row_index) (experience_body E ij row_index) Inv logged.
Proof.
  unfold experience_body. destruct ij. repeat inv_step.
  apply inv_highlight_body.
Qed.

Lemma inv_add_experiences E row_index experiences :
  triple (Inv row_index) (add_experiences E row_index experiences) Inv logged.
Proof.
  unfold add_experiences. repeat inv_step. apply inv_experience_body.
Qed.

Lemma inv_add_education E row_index education :
  triple (Inv row_index) (add_education E row_index education) Inv logged.
Proof.
  unfold add_education. repeat inv_step. unfold education_body.
  repeat inv_step.
Qed.

Lemma inv_add_skills E row_index skills :
  triple (Inv row_index) (add_skills E row_index skills) Inv logged.
Proof.
  unfold add_skills. repeat inv_step. unfold skills_body.
  repeat inv_step.
Qed.

Lemma whole_table_pending n d : whole_table d -> pending n d.
Proof.
  unfold whole_table, pending. apply Forall_impl. intros r [H|H]; auto.
Qed.

Lemma inv_extend B row_index ds (f : unit -> M B) Q :
  Forall whole_table ds ->
  triple (Inv row_index) (f tt) Q logged ->
  triple (Inv row_index) (bind (table_styles_extend ds) f) Q logged.
Proof.
  intros Hds H st (Hr & Hs & Hc). unfold bind, table_styles_extend.
  apply H. unfold Inv, logged. cbn [table_data table_styles calls].
  split; [exact Hr|]. split; [|exact Hc].
  apply Forall_app. split; [exact Hs|].
  revert Hds. apply Forall_impl. intros d. apply whole_table_pending.
Qed.

Lemma logged_generate_resume E loc data :
  globals_whole_table E ->
  triple logged (generate_resume E loc data) (fun _ => logged) logged.
Proof.
  intros HE. unfold globals_whole_table in HE.
  apply Forall_cons_iff in HE. destruct HE as [Hdbg Halign].
  intros st Hst. unfold generate_resume.
  repeat match goal with
  | |- context [bind (lift ?r) ?f st] =>
      destruct r as [?|?] eqn:?;
      [ erewrite bind_lift by reflexivity
      | erewrite bind_lift_err by reflexivity; exact Hst ]
  end.
  match goal with
  | |- context [bind allocate ?f st] =>
      change (bind allocate f st)
        with (f tt {| table_data := []; table_styles := [];
                      files := files st; calls := [] |})
  end.
  cbv beta.
  match goal with
  | |- match ?m ?s with _ => _ end =>
      enough (triple (Inv 0) m (fun _ => logged) logged) as Ht
  end.
  { apply Ht. unfold Inv, logged. cbn. repeat split; constructor. }
  apply inv_lift. intros debug _.
  assert (forall B (f : unit -> M B) Q,
             triple (Inv 0) (f tt) Q logged ->
             triple (Inv 0)
               (bind (if truthy debug
                      then table_styles_extend [DEBUG_STYLE E]
                      else ret tt) f) Q logged) as Hif.
  { intros B f Q H. destruct (truthy debug).
    - apply inv_extend; [|exact H]. constructor; [exact Hdbg|constructor].
    - exact H. }
  apply Hif. apply inv_extend; [exact Halign|].
  repeat inv_step.
  apply inv_bind; [apply inv_add_experiences|]. intros r1.
  repeat inv_step.
  apply inv_bind; [apply inv_add_education|]. intros r2.
  repeat inv_step.
  apply inv_bind; [apply inv_add_skills|]. intros r3.
  intros s (_ & _ & Hc). unfold bind, doc_build, ret.
  destruct (layout_ok E _ _); exact Hc.
Qed.

(** C7: in a run of [generate_resume], whatever the record and however
    the run ends, right after every call of [_add_table_row] and of
    [_append_section_table_style] each directive of [table_styles] has row
    coordinates that index a row of [table_data] as it is then (below its
    length, and not below minus its length for the coordinates counted
    from the end), and the index returned by [_add_table_row] is that
    length.  The two constants of [resume_pdf_styles] are taken to range
    over the whole table (rows 0 and -1). *)
Theorem directives_refer_to_rows (E : env) (loc : string) (data : value)
    (st : state) :
  globals_whole_table E ->
  Forall call_ok (calls st) ->
  Forall call_ok (calls (snd (generate_resume E loc data st))).
Proof.
  intros HE Hst. pose proof (logged_generate_resume loc data HE Hst) as H.
  destruct (generate_resume E loc data st) as [[a|e] st']; exact H.
Qed.

Lemma sample_env_whole_table : globals_whole_table sample_env.
Proof.
  unfold globals_whole_table, whole_table, rows_of. cbn.
  repeat (apply Forall_cons;
          [ repeat (apply Forall_cons; [first [now left | now right]|]);
            apply Forall_nil |]).
  apply Forall_nil.
Qed.

Lemma directives_refer_to_rows_witness :
  Forall call_ok
    (calls (snd (generate_resume sample_env "out"
                   (Schema.encode sample_record) initial_state))).
Proof.
  apply (@directives_refer_to_rows sample_env "out"
           (Schema.encode sample_record) initial_state
           sample_env_whole_table (Forall_nil call_ok)).
Defined.

(** The history of the sample run: one entry per row and one per heading
    underline. *)
Example sample_run_calls :
  List.length
    (calls (snd (generate_resume sample_env "out"
                   (Schema.encode sample_record) initial_state)))
  = 27%nat.
Proof. vm_compute. reflexivity. Qed.

(** ** Determinism *)

Lemma same_lists_refl s : same_lists s s.
Proof. repeat split. Qed.

Lemma obl_ret A (a : A) : oblivious (ret a).
Proof. intros s1 s2 H. split; [reflexivity|exact H]. Qed.

Lemma obl_lift A (r : result A) : oblivious (lift r).
Proof. intros s1 s2 H. split; [reflexivity|exact H]. Qed.

Lemma obl_bind A B (m : M A) (f : A -> M B) :
  oblivious m -> (forall a, oblivious (f a)) -> oblivious (bind m f).
Proof.
  intros Hm Hf s1 s2 H. unfold bind. destruct (Hm s1 s2 H) as [Hr Hs].
  destruct (m s1) as [[a1|e1] t1], (m s2) as [[a2|e2] t2];
    cbn [fst snd] in *; try discriminate.
  - injection Hr as <-. now apply Hf.
  - injection Hr as <-. split; [reflexivity|exact Hs].
Qed.

Lemma obl_for_each A (body : A -> Z -> M Z) l :
  (forall x r, oblivious (body x r)) ->
  forall r, oblivious (for_each l body r).
Proof.
  intros H. induction l as [|x l IH]; intros r.
  - apply obl_ret.
  - cbn [for_each]. apply obl_bind; [apply H | apply IH].
Qed.

Lemma obl_table_data_append r : oblivious (table_data_append r).
Proof.
  intros s1 s2 (Hd & Hs & Hc). unfold table_data_append, same_lists. cbn.
  now rewrite Hd, Hs, Hc.
Qed.

Lemma obl_table_styles_extend ds : oblivious (table_styles_extend ds).
Proof.
  intros s1 s2 (Hd & Hs & Hc). unfold table_styles_extend, same_lists. cbn.
  now rewrite Hd, Hs, Hc.
Qed.

Lemma obl_observe f r : oblivious (observe f r).
Proof.
  intros s1 s2 (Hd & Hs & Hc). unfold observe, same_lists. cbn.
  now rewrite Hd, Hs, Hc.
Qed.

Lemma obl_doc_build E pdf_location : oblivious (doc_build E pdf_location).
Proof.
  intros s1 s2 (Hd & Hs & Hc). unfold doc_build. rewrite Hd, Hs.
  destruct (layout_ok E _ _); cbn; repeat split; assumption.
Qed.

Ltac obl_tac :=
  repeat match goal with
  | |- oblivious (ret _) => apply obl_ret
  | |- oblivious (lift _) => apply obl_lift
  | |- oblivious (table_data_append _) => apply obl_table_data_append
  | |- oblivious (table_styles_extend _) => apply obl_table_styles_extend
  | |- oblivious (observe _ _) => apply obl_observe
  | |- oblivious (doc_build _ _) => apply obl_doc_build
  | |- oblivious (for_each _ _ _) => apply obl_for_each; intros
  | |- oblivious (bind _ _) => apply obl_bind; [|intros]
  | |- oblivious (if ?b then _ else _) => destruct b
  | |- oblivious (let (_, _) := ?p in _) => destruct p
  | |- oblivious (_add_table_row _ _ _ _ _ _) => unfold _add_table_row
  | |- oblivious (_append_section_table_style _) =>
      unfold _append_section_table_style
  | |- oblivious (highlight_body _ _ _ _) => unfold highlight_body
  | |- oblivious (experience_body _ _ _) => unfold experience_body
  | |- oblivious (education_body _ _ _) => unfold education_body
  | |- oblivious (skills_body _ _ _) => unfold skills_body
  | |- oblivious (add_experiences _ _ _) => unfold add_experiences
  | |- oblivious (add_education _ _ _) => unfold add_education
  | |- oblivious (add_skills _ _ _) => unfold add_skills
  end.

(** Either the run raises while it still reads the record, and the state
    is untouched, or it allocates its lists, and what it builds does not
    depend on the state it started from. *)
Lemma generate_resume_cases E loc data s1 s2 :
  fst (generate_resume E loc data s1) = fst (generate_resume E loc data s2)
  /\ (same_lists (snd (generate_resume E loc data s1))
                 (snd (generate_resume E loc data s2))
      \/ (snd (generate_resume E loc data s1) = s1
          /\ snd (generate_resume E loc data s2) = s2)).
Proof.
  unfold generate_resume.
  repeat match goal with
  | |- context [bind (lift ?r) ?f s1] =>
      destruct r as [?|?] eqn:?;
      [ rewrite !(fun g st => @bind_lift _ _ _ _ g st eq_refl)
      | rewrite !(fun g st => @bind_lift_err _ _ _ _ g st eq_refl);
        split; [reflexivity | right; split; reflexivity] ]
  end.
  match goal with
  | |- context [bind allocate ?f s1] =>
      change (bind allocate f s1)
        with (f tt {| table_data := []; table_styles := [];
                      files := files s1; calls := [] |});
      change (bind allocate f s2)
        with (f tt {| table_data := []; table_styles := [];
                      files := files s2; calls := [] |});
      assert (oblivious (f tt)) as Hobl
  end.
  { cbv beta. obl_tac. }
  match type of Hobl with
  | oblivious ?m =>
      destruct (Hobl {| table_data := []; table_styles := [];
                        files := files s1; calls := [] |}
                     {| table_data := []; table_styles := [];
                        files := files s2; calls := [] |})
        as [Hr Hs]
  end.
  { repeat split. }
  split; [exact Hr | left; exact Hs].
Qed.

(** C8: the outcome of [generate_resume] is a function of its arguments
    alone; two runs on the same record from states with the same lists
    end with the same [table_data] and [table_styles]; and running again
    after a first run gives the rows and directives of the first run. *)
Theorem generate_resume_deterministic (E : env) (loc : string) (data : value) :
  (forall s1 s2,
     fst (generate_resume E loc data s1) = fst (generate_resume E loc data s2))
  /\ (forall s1 s2,
        same_lists s1 s2 ->
        table_data (snd (generate_resume E loc data s1))
        = table_data (snd (generate_resume E loc data s2))
        /\ table_styles (snd (generate_resume E loc data s1))
           = table_styles (snd (generate_resume E loc data s2)))
  /\ (forall s0,
        let s1 := snd (generate_resume E loc data s0) in
        let s2 := snd (generate_resume E loc data s1) in
        fst (generate_resume E loc data s1) = fst (generate_resume E loc data s0)
        /\ table_data s2 = table_data s1
        /\ table_styles s2 = table_styles s1).
Proof.
  split; [|split].
  - intros s1 s2. apply generate_resume_cases.
  - intros s1 s2 H.
    destruct (generate_resume_cases E loc data s1 s2)
      as [_ [(Hd & Hs & _)|[-> ->]]].
    + now split.
    + destruct H as (Hd & Hs & _). now split.
  - intros s0 s1 s2. subst s2.
    destruct (generate_resume_cases E loc data s1 s0)
      as [Hr [(Hd & Hs & _)|[-> _]]].
    + subst s1. auto.
    + auto.
Qed.

Lemma generate_resume_deterministic_witness :
  same_lists initial_state
    {| table_data := []; table_styles := [];
       files := [("old.pdf", ([], []))]; calls := [] |}
  /\ table_data (snd (generate_resume sample_env "out"
                        (Schema.encode sample_record) initial_state))
     = table_data
         (snd (generate_resume sample_env "out" (Schema.encode sample_record)
                 {| table_data := []; table_styles := [];
                    files := [("old.pdf", ([], []))]; calls := [] |})).
Proof.
  assert (same_lists initial_state
            {| table_data := []; table_styles := [];
               files := [("old.pdf", ([], []))]; calls := [] |}) as H
    by (repeat split).
  split; [exact H|].
  destruct (generate_resume_deterministic sample_env "out"
              (Schema.encode sample_record)) as (_ & H2 & _).
  exact (proj1 (H2 _ _ H)).
Defined.

(** * Further properties of the accumulation *)

(** ** An induction principle over the calls of [_add_table_row]

    The sections call [_add_table_row] in four shapes only: a spanning text
    row, a two-column row, a bulleted row, a heading row followed by its
    underline.  A property [I] of the row index and the state that every
    shape maintains is maintained by every section and by the whole run;
    [X] is what is left of it when the run raises. *)

Section RunInvariant.

Variable E : env.
Variable I : Z -> state -> Prop.
Variable X : state -> Prop.

Hypothesis I_raise : forall r st, I r st -> X st.

Hypothesis I_text_row : forall r x k p st,
  I r st ->
  I (r + 1) (appended r [Paragraph x None (PARAGRAPH_STYLES k)] true p st).

Hypothesis I_two_columns : forall r x1 k1 x2 k2 p st,
  I r st ->
  I (r + 1)
    (appended r
       [Paragraph x1 None (PARAGRAPH_STYLES k1);
        Paragraph x2 None (PARAGRAPH_STYLES k2)]
       false p st).

Hypothesis I_bullet : forall r x (last : bool) st,
  I r st ->
  I (r + 1)
    (appended r
       [Paragraph x (Some "•")
          (PARAGRAPH_STYLES (if last then "last_bullet_point"
                             else "bullet_points"))]
       true (if last then (5, 1) else (0, 1)) st).

Hypothesis I_heading : forall r title p st,
  In title section_titles ->
  I r st ->
  I (r + 1)
    (snd (_append_section_table_style (r + 1 - 1)
            (appended r
               [Paragraph (VStr title) None (PARAGRAPH_STYLES "section")]
               true p st))).

Lemma gen_lift A B r (x : result A) (f : A -> M B) Q :
  (forall a, x = Ok a -> triple (I r) (f a) Q X) ->
  triple (I r) (bind (lift x) f) Q X.
Proof.
  intros H st HI. unfold bind, lift.
  destruct x as [a|e]; [now apply H | exact (I_raise HI)].
Qed.

Lemma gen_row B r c s p b (f : Z -> M B) Q :
  (forall st, I r st -> I (r + 1) (appended r (cells_of b c) s p st)) ->
  triple (I (r + 1)) (f (r + 1)) Q X ->
  triple (I r) (bind (_add_table_row E r c s p b) f) Q X.
Proof.
  intros Hc H st HI. unfold bind.
  destruct (add_table_row_cases E r c s p b st) as [[e ->]|[_ ->]].
  - exact (I_raise HI).
  - apply H, Hc, HI.
Qed.

Lemma gen_row_last r c s p b :
  (forall st, I r st -> I (r + 1) (appended r (cells_of b c) s p st)) ->
  triple (I r) (_add_table_row E r c s p b) I X.
Proof.
  intros Hc st HI.
  destruct (add_table_row_cases E r c s p b st) as [[e ->]|[_ ->]].
  - exact (I_raise HI).
  - apply Hc, HI.
Qed.

Lemma gen_heading B r title p (f : Z -> M B) Q :
  In title section_titles ->
  triple (I (r + 1)) (f (r + 1)) Q X ->
  triple (I r)
         (r' <- _add_table_row E r [(VStr title, PARAGRAPH_STYLES "section")]
                  true p None ;;
          _append_section_table_style (r' - 1) ;; f r')
         Q X.
Proof.
  intros Ht H st HI. unfold bind. pose proof (I_heading p Ht HI) as Hh.
  destruct (add_table_row_cases E r
              [(VStr title, PARAGRAPH_STYLES "section")] true p None st)
    as [[e ->]|[_ ->]]; [exact (I_raise HI)|].
  change (cells_of None [(VStr title, PARAGRAPH_STYLES "section")])
    with [Paragraph (VStr title) None (PARAGRAPH_STYLES "section")].
  rewrite append_section_table_style_run in *. cbn [snd] in Hh.
  now apply H.
Qed.

Lemma gen_bind B r (m : M Z) (f : Z -> M B) Q :
  triple (I r) m I X ->
  (forall r', triple (I r') (f r') Q X) ->
  triple (I r) (bind m f) Q X.
Proof.
  intros Hm Hf st HI. unfold bind. specialize (Hm st HI).
  destruct (m st) as [[r'|e] st1]; [now apply Hf | exact Hm].
Qed.

Lemma gen_ret r : triple (I r) (ret r) I X.
Proof. intros st HI. exact HI. Qed.

Lemma gen_for_each A (body : A -> Z -> M Z) l :
  (forall x r, triple (I r) (body x r) I X) ->
  forall r, triple (I r) (for_each l body r) I X.
Proof.
  intros H. induction l as [|x l IH]; intros r.
  - apply gen_ret.
  - cbn [for_each]. apply gen_bind; [apply H | apply IH].
Qed.

Ltac gen_step :=
  match goal with
  | |- triple (I _) (bind (lift _) _) _ X => apply gen_lift; intros ? ?
  | |- triple (I _)
         (bind (_add_table_row _ _ [(VStr _, PARAGRAPH_STYLES "section")]
                               true _ None)
               (fun r => bind (_append_section_table_style (r - 1)) _))
         _ X =>
      apply gen_heading; [unfold section_titles; simpl; tauto|]
  | |- triple (I _) (bind (_add_table_row _ _ [_] true _ None) _) _ X =>
      apply gen_row; [intros ?; apply I_text_row|]
  | |- triple (I _) (bind (_add_table_row _ _ [_; _] false _ None) _) _ X =>
      apply gen_row; [intros ?; apply I_two_columns|]
  | |- triple (I _) (_add_table_row _ _ [_] true _ None) I X =>
      apply gen_row_last; intros ?; apply I_text_row
  | |- triple (I _) (for_each _ _ _) I X => apply gen_for_each; intros ? ?
  end.

Lemma gen_highlight_body n ib r :
  triple (I r) (highlight_body E n ib r) I X.
Proof.
  unfold highlight_body. destruct ib as [i b].
  destruct (i =? n - 1); apply gen_row_last; intros st.
  - apply (@I_bullet r b true st).
  - apply (@I_bullet r b false st).
Qed.

Lemma gen_experience_body ij r :
  triple (I r) (experience_body E ij r) I X.
Proof.
  unfold experience_body. destruct ij. repeat gen_step.
  apply gen_highlight_body.
Qed.

Lemma gen_add_experiences r experiences :
  triple (I r) (add_experiences E r experiences) I X.
Proof.
  unfold add_experiences. repeat gen_step. apply gen_experience_body.
Qed.

Lemma gen_add_education r education :
  triple (I r) (add_education E r education) I X.
Proof.
  unfold add_education. repeat gen_step. unfold education_body.
  repeat gen_step.
Qed.

Lemma gen_add_skills r skills :
  triple (I r) (add_skills E r skills) I X.
Proof.
  unfold add_skills. repeat gen_step. unfold skills_body.
  repeat gen_step.
Qed.

Hypothesis I_start : forall grid fs, I 0 (start_state E grid fs).

(** The whole run: [I] holds of the lists handed to the layout engine,
    [X] of the state left by a run that raises. *)
Lemma gen_generate_resume loc data st :
  X st ->
  match generate_resume E loc data st with
  | (Ok _, st') => exists r s, I r s /\ same_lists s st'
  | (Err _, st') => X st'
  end.
Proof.
  intros HX. unfold generate_resume.
  destruct data as [| | | | |kvs];
    try (rewrite (@bind_lift_err _ _ _ TypeError) by reflexivity; exact HX).
  repeat match goal with
  | |- context [bind (lift ?r) ?f st] =>
      destruct r as [?|?] eqn:?;
      [ erewrite bind_lift by reflexivity
      | erewrite bind_lift_err by reflexivity; exact HX ]
  end.
  match goal with
  | |- context [bind allocate ?f st] =>
      change (bind allocate f st)
        with (f tt {| table_data := []; table_styles := [];
                      files := files st; calls := [] |})
  end.
  cbv beta.
  pose (debug := match lookup "debug" kvs with
                 | Some x => x
                 | None => VBool false
                 end).
  rewrite (@bind_lift _ _ _ debug)
    by (unfold dict_get, debug; destruct (lookup "debug" kvs); reflexivity).
  match goal with
  | |- match bind _ (fun _ => bind _ ?k) _ with _ => _ end =>
      enough (triple (I 0) (k tt)
                (fun _ st' => exists r s, I r s /\ same_lists s st') X) as Ht
  end.
  { specialize (Ht (start_state E (truthy debug) (files st))
                  (I_start (truthy debug) (files st))).
    unfold start_state in Ht.
    destruct (truthy debug); exact Ht. }
  repeat gen_step.
  apply gen_bind; [apply gen_add_experiences|]. intros r1.
  repeat gen_step.
  apply gen_bind; [apply gen_add_education|]. intros r2.
  repeat gen_step.
  apply gen_bind; [apply gen_add_skills|]. intros r3.
  intros s Hs. unfold bind, doc_build, ret.
  destruct (layout_ok E _ _).
  - exists r3, s. split; [exact Hs|]. repeat split.
  - exact (I_raise Hs).
Qed.

End RunInvariant.

(** ** Padding of highlight rows: the run up to an experience *)

Lemma for_each_app A (a b : list A) (body : A -> Z -> M Z) : forall r st,
  for_each (a ++ b) body r st
  = bind (for_each a body r) (fun r' => for_each b body r') st.
Proof.
  induction a as [|x a IH]; intros r st; [reflexivity|].
  cbn [app for_each]. unfold bind.
  destruct (body x r st) as [[r1|e] st1]; [|reflexivity].
  rewrite IH. reflexivity.
Qed.

Lemma enumerate_from_app A (a b : list A) : forall i,
  enumerate_from i (a ++ b)
  = (enumerate_from i a
     ++ enumerate_from (i + Z.of_nat (List.length a)) b)%list.
Proof.
  induction a as [|x a IH]; intros i.
  - cbn. now rewrite Z.add_0_r.
  - cbn [app enumerate_from List.length]. rewrite IH.
    do 3 f_equal. lia.
Qed.

Lemma experiences_height_length l :
  experiences_height l = Z.of_nat (List.length (experiences_rows l)).
Proof.
  induction l as [|e l IH]; [reflexivity|].
  cbn [experiences_height experiences_rows].
  rewrite length_app, length_experience_rows, experience_height_nat, IH. lia.
Qed.

Lemma later_start s r : later s r s.
Proof. exists [], []. rewrite !app_nil_r. repeat split. constructor. Qed.

Lemma later_appended s0 r0 r (new : row) s p st :
  r0 <= r -> later s0 r0 st -> later s0 r0 (appended r new s p st).
Proof.
  intros Hr (rows & dirs & Hd & Hs & HF). unfold appended.
  exists (rows ++ [new])%list, (dirs ++ row_styles r p s)%list.
  cbn [table_data table_styles]. rewrite Hd, Hs, !app_assoc.
  split; [reflexivity|]. split; [reflexivity|].
  apply Forall_app. split; [exact HF|].
  unfold row_styles. destruct s; cbn [app];
    repeat (apply Forall_cons; [exact Hr|]); apply Forall_nil.
Qed.

Lemma later_raise s0 r0 r st : r0 <= r /\ later s0 r0 st -> later s0 r0 st.
Proof. now intros [_ H]. Qed.

Lemma later_bullet s0 r0 r x (last : bool) st :
  r0 <= r /\ later s0 r0 st ->
  r0 <= r + 1
  /\ later s0 r0
       (appended r
          [Paragraph x (Some "•")
             (PARAGRAPH_STYLES (if last then "last_bullet_point"
                                else "bullet_points"))]
          true (if last then (5, 1) else (0, 1)) st).
Proof. intros [Hr H]. split; [lia|]. now apply later_appended. Qed.

Lemma later_two_columns s0 r0 r x1 k1 x2 k2 p st :
  r0 <= r /\ later s0 r0 st ->
  r0 <= r + 1
  /\ later s0 r0
       (appended r
          [Paragraph x1 None (PARAGRAPH_STYLES k1);
           Paragraph x2 None (PARAGRAPH_STYLES k2)] false p st).
Proof. intros [Hr H]. split; [lia|]. now apply later_appended. Qed.

(** From a row index on, the rest of the highlights of a job and the jobs
    behind it are given directives for the rows from that index on only,
    however the two loops end. *)
Lemma rest_later (E : env) (s0 : state) (r0 : Z) n hs jobs r :
  triple (fun st => r0 <= r /\ later s0 r0 st)
         (bind (for_each hs (highlight_body E n) r)
               (fun r' => for_each jobs (experience_body E) r'))
         (fun r' st => r0 <= r' /\ later s0 r0 st)
         (later s0 r0).
Proof.
  apply (@gen_bind (fun r st => r0 <= r /\ later s0 r0 st) (later s0 r0)).
  - apply (@gen_for_each (fun r st => r0 <= r /\ later s0 r0 st)
             (later s0 r0)).
    intros x r1.
    apply (@gen_highlight_body E (fun r st => r0 <= r /\ later s0 r0 st)
             (later s0 r0)).
    + intros r2 st. apply later_raise.
    + intros r2 x1 last st. apply later_bullet.
  - intros r1.
    apply (@gen_for_each (fun r st => r0 <= r /\ later s0 r0 st)
             (later s0 r0)).
    intros x r2.
    apply (@gen_experience_body E (fun r st => r0 <= r /\ later s0 r0 st)
             (later s0 r0)).
    + intros r3 st. apply later_raise.
    + intros r3 x1 k1 x2 k2 p st. apply later_two_columns.
    + intros r3 x1 last st. apply later_bullet.
Qed.

Lemma bottom_paddings_later dirs r0 k :
  Forall (fun d => r0 <= snd (start d)) dirs -> k < r0 ->
  bottom_paddings dirs k = [].
Proof.
  intros HF Hk. unfold bottom_paddings.
  induction HF as [|d dirs Hd HF IH]; [reflexivity|].
  cbn [filter]. destruct (Z.eqb_spec (snd (start d)) k); [lia|].
  rewrite andb_false_r, andb_false_l. exact IH.
Qed.

Lemma bottom_paddings_experiences_after E l : forall r0 k,
  r0 + experiences_height l <= k ->
  bottom_paddings (experiences_styles E r0 l) k = [].
Proof.
  induction l as [|e l IH]; intros r0 k H; [reflexivity|].
  cbn [experiences_styles experiences_height] in *.
  rewrite bottom_paddings_app.
  pose proof (experiences_height_nonneg l).
  rewrite bottom_paddings_experience_outside by lia.
  apply IH. lia.
Qed.

Lemma bind_assoc A B C (m : M A) (f : A -> M B) (g : B -> M C) st :
  bind (bind m f) g st = bind m (fun a => bind (f a) g) st.
Proof.
  unfold bind. destruct (m st) as [[a|e] st1]; reflexivity.
Qed.

Lemma bind_for_each_app A B (a b : list A) (body : A -> Z -> M Z)
    (g : Z -> M B) r st :
  bind (for_each (a ++ b) body r) g st
  = bind (for_each a body r) (fun r' => bind (for_each b body r') g) st.
Proof.
  rewrite <- bind_assoc. unfold bind at 1 3. now rewrite for_each_app.
Qed.

Lemma experiences_rows_app a b :
  experiences_rows (a ++ b) = (experiences_rows a ++ experiences_rows b)%list.
Proof.
  induction a as [|e a IH]; [reflexivity|].
  cbn [app experiences_rows]. now rewrite IH, app_assoc.
Qed.

Lemma highlight_rows_app n a b : forall i,
  highlight_rows n i (a ++ b)
  = (highlight_rows n i a
     ++ highlight_rows n (i + Z.of_nat (List.length a)) b)%list.
Proof.
  induction a as [|x a IH]; intros i.
  - cbn. now rewrite Z.add_0_r.
  - cbn [app highlight_rows List.length]. rewrite IH.
    do 3 f_equal. lia.
Qed.

Lemma rows_before_app (l1 rest : list Schema.Experience) :
  Schema.rows_before (List.length l1) (l1 ++ rest)
  = List.length (experiences_rows l1).
Proof.
  unfold Schema.rows_before.
  replace (List.length l1) with (List.length l1 + 0)%nat by lia.
  rewrite firstn_app_2, firstn_O, app_nil_r.
  induction l1 as [|e l1 IH]; [reflexivity|].
  cbn [fold_right experiences_rows]. rewrite IH, length_app.
  rewrite length_experience_rows. lia.
Qed.

(** The run of [add_experiences] on a list whose first experiences [l1]
    and the next one [e], up to its highlights [hsA], are well formed:
    their rows and directives, then whatever the rest yields, for later
    rows. *)
Lemma add_experiences_upto (E : env) (l1 l2 : list Schema.Experience)
    (e : Schema.Experience) (hsA hsB : list string) (row_index : Z)
    (st : state) :
  Schema.highlights e = (hsA ++ hsB)%list ->
  forallb Schema.has_title l1 = true ->
  Schema.has_title e = true ->
  accepted E (experiences_rows l1) = true ->
  accepted E
    (firstn 2 (experience_rows e)
     ++ highlight_rows (Z.of_nat (List.length (Schema.highlights e))) 0
          (map VStr hsA)) = true ->
  let r1 := row_index + 1 + experiences_height l1 in
  let st' := snd (add_experiences E row_index
                    (Schema.encode_experiences (l1 ++ e :: l2)) st) in
  exists rows dirs,
    table_data st'
    = (table_data st
       ++ (heading_row "Experience"
             :: experiences_rows l1
                ++ firstn 2 (experience_rows e)
                ++ highlight_rows
                     (Z.of_nat (List.length (Schema.highlights e))) 0
                     (map VStr hsA))
       ++ rows)%list
    /\ table_styles st'
       = (table_styles st
          ++ (heading_styles E row_index
              ++ experiences_styles E (row_index + 1) l1
              ++ row_styles r1 (DEFAULT_PADDING E) false
              ++ row_styles (r1 + 1) (DEFAULT_PADDING E) false
              ++ highlight_styles
                   (Z.of_nat (List.length (Schema.highlights e))) 0
                   (r1 + 2) (map VStr hsA))
          ++ dirs)%list
    /\ Forall (fun d => r1 + 2 + Z.of_nat (List.length hsA)
                        <= snd (start d)) dirs.
Proof.
  destruct e as [c lo ts hs]. cbn [Schema.highlights].
  intros -> Ht1 Hte Ha1 Hae.
  destruct ts as [|t ts]; [discriminate|].
  unfold experience_rows in *. cbv zeta in *.
  cbn [Schema.highlights Schema.company Schema.location Schema.titles
       first_title app firstn] in *.
  rewrite !accepted_cons in Hae.
  apply andb_true_iff in Hae. destruct Hae as [Hr1 Hae].
  apply andb_true_iff in Hae. destruct Hae as [Hr2 HaA].
  set (n := Z.of_nat (List.length (hsA ++ hsB))) in *.
  match goal with
  | |- exists rows dirs, table_data ?X = _ /\ _ =>
      remember X as fin eqn:Hfin; revert Hfin
  end.
  unfold add_experiences.
  run_row (@accepted_heading E "Experience" eq_refl).
  match goal with
  | |- context [_append_section_table_style ?i] =>
      run_emits (emits_append_section_table_style i)
  end.
  rewrite (@bind_lift _ _ _
             (map Schema.encode_experience l1
              ++ map Schema.encode_experience
                   ({| Schema.company := c; Schema.location := lo;
                       Schema.titles := t :: ts;
                       Schema.highlights := hsA ++ hsB |} :: l2))%list)
    by (cbn; now rewrite map_app).
  unfold enumerate. rewrite enumerate_from_app, for_each_app.
  run_emits (@emits_experiences E l1 0 (row_index + 1) Ht1 Ha1).
  cbn [map enumerate_from for_each]. unfold experience_body at 1.
  do 3 (rewrite bind_assoc; erewrite bind_lift by reflexivity).
  rewrite bind_assoc. run_row Hr1.
  do 2 (rewrite bind_assoc; erewrite bind_lift by reflexivity).
  rewrite bind_assoc. run_row Hr2.
  rewrite bind_assoc.
  rewrite (@bind_lift _ _ _ (map VStr hsA ++ map VStr hsB)%list)
    by (cbn; now rewrite map_app).
  replace (Z.of_nat (List.length (map VStr hsA ++ map VStr hsB)%list))
    with n by (subst n; now rewrite <- map_app, length_map).
  unfold enumerate. rewrite enumerate_from_app, bind_for_each_app.
  match goal with
  | |- context [for_each (enumerate_from 0 (map VStr hsA)) _ ?r] =>
      run_emits (@emits_highlights E n (map VStr hsA) 0 r HaA)
  end.
  match goal with
  | |- context [bind (for_each ?hs _ ?r)
                      (fun r' => for_each ?jobs _ r') ?s] =>
      pose proof (@rest_later E s r n hs jobs r s
                    (conj (Z.le_refl r) (later_start s r))) as T;
      destruct (bind (for_each hs (highlight_body E n) r)
                     (fun r' => for_each jobs (experience_body E) r') s)
        as [[r'|e'] s'];
      [destruct T as [_ T]|];
      destruct T as (rows & dirs & Hd' & Hs' & HF);
      cbn [snd]; intros ->; exists rows, dirs; rewrite Hd', Hs'
  end.
  - gather_rows. gather_styles. unfold heading_styles.
    replace (row_index + 1 - 1) with row_index by lia.
    rewrite <- !app_assoc. cbn [app].
    replace (row_index + 1 + experiences_height l1 + 1 + 1)
      with (row_index + 1 + experiences_height l1 + 2) in * by lia.
    rewrite length_map in HF.
    repeat split; first [reflexivity|exact HF].
  - gather_rows. gather_styles. unfold heading_styles.
    replace (row_index + 1 - 1) with row_index by lia.
    rewrite <- !app_assoc. cbn [app].
    replace (row_index + 1 + experiences_height l1 + 1 + 1)
      with (row_index + 1 + experiences_height l1 + 2) in * by lia.
    rewrite length_map in HF.
    repeat split; first [reflexivity|exact HF].
Qed.

(** What a call of [highlight_body] does, whatever the highlight is. *)
Lemma highlight_body_cases (E : env) (n i : Z) (h : value) (row_index : Z)
    (st : state) :
  (exists e, highlight_body E n (i, h) row_index st = (Err e, st))
  \/ (exists st',
         highlight_body E n (i, h) row_index st = (Ok (row_index + 1), st')
         /\ table_data st'
            = (table_data st
               ++ [[Paragraph h (Some "•")
                      (PARAGRAPH_STYLES (if i =? n - 1
                                         then "last_bullet_point"
                                         else "bullet_points"))]])%list
         /\ table_styles st'
            = (table_styles st
               ++ [ Directive "BOTTOMPADDING" (0, row_index) (-1, row_index)
                      [Num (if i =? n - 1 then 5 else 0)];
                    Directive "TOPPADDING" (0, row_index) (-1, row_index)
                      [Num 1];
                    Directive "SPAN" (0, row_index) (1, row_index) [] ])%list).
Proof.
  unfold highlight_body.
  destruct (i =? n - 1);
    match goal with
    | |- context [_add_table_row E ?r ?c ?s ?p ?b st] =>
        destruct (add_table_row_cases E r c s p b st) as [[e ->]|[_ ->]]
    end;
    first [ left; eexists; reflexivity
          | right; eexists; split; [reflexivity|]; split; reflexivity ].
Qed.

(** C6: a highlight row, whenever [highlight_body] appends one, is a
    bulleted row whose style is [last_bullet_point] and whose bottom
    padding is 5 when its index is the last of the list, and whose style is
    [bullet_points] and bottom padding 0 otherwise.  In the run of
    [add_experiences] on a list of experiences, the row of highlight [i]
    of experience [j] sits [1 + rows_before j + 2 + i] rows after the rows
    that were there before; it is such a row, last when [i] is the last
    highlight of that experience, and no other bottom padding is given to
    it.  This holds when the experiences up to and including [j] have a
    title and the rows of the experiences up to and including that row
    hold texts that the [Paragraph] constructor accepts (the run gets to
    the row), whatever comes behind and however the run ends. *)
Theorem last_highlight_padding (E : env) :
  (forall n i h row_index st,
     (exists e, highlight_body E n (i, h) row_index st = (Err e, st))
     \/ (exists st',
            highlight_body E n (i, h) row_index st = (Ok (row_index + 1), st')
            /\ table_data st'
               = (table_data st
                  ++ [[Paragraph h (Some "•")
                         (PARAGRAPH_STYLES (if i =? n - 1
                                            then "last_bullet_point"
                                            else "bullet_points"))]])%list
            /\ table_styles st'
               = (table_styles st
                  ++ [ Directive "BOTTOMPADDING" (0, row_index)
                         (-1, row_index) [Num (if i =? n - 1 then 5 else 0)];
                       Directive "TOPPADDING" (0, row_index) (-1, row_index)
                         [Num 1];
                       Directive "SPAN" (0, row_index) (1, row_index) [] ])%list))
  /\ (forall (l : list Schema.Experience) (row_index : Z) (st : state)
             (j i : nat) (e : Schema.Experience) (h : string),
        nth_error l j = Some e ->
        nth_error (Schema.highlights e) i = Some h ->
        forallb Schema.has_title (firstn (S j) l) = true ->
        accepted E (firstn (S (Schema.rows_before j l + 2 + i))
                           (experiences_rows l)) = true ->
        let st' := snd (add_experiences E row_index
                          (Schema.encode_experiences l) st) in
        let k := (1 + Schema.rows_before j l + 2 + i)%nat in
        let last := Nat.eqb (S i) (List.length (Schema.highlights e)) in
        nth_error (table_data st') (List.length (table_data st) + k)
        = Some [Paragraph (VStr h) (Some "•")
                  (PARAGRAPH_STYLES (if last then "last_bullet_point"
                                     else "bullet_points"))]
        /\ bottom_paddings
             (skipn (List.length (table_styles st)) (table_styles st'))
             (row_index + Z.of_nat k)
           = [[Num (if last then 5 else 0)]]).
Proof.
  split; [intros; apply highlight_body_cases|].
  intros l row_index st j i e h Hj Hi Ht Ha st' k last.
  destruct (nth_error_split l j Hj) as (l1 & l2 & -> & Hl1).
  destruct (nth_error_split (Schema.highlights e) i Hi)
    as (h1 & h2 & Hhs & Hh1).
  set (hsA := (h1 ++ [h])%list).
  assert (Schema.highlights e = (hsA ++ h2)%list) as HhsA
    by (subst hsA; now rewrite <- app_assoc).
  assert (List.length hsA = S i) as HlenA
    by (subst hsA; rewrite length_app; cbn; lia).
  assert (Schema.rows_before j (l1 ++ e :: l2)
          = List.length (experiences_rows l1)) as Hrb
    by (subst j; apply rows_before_app).
  (* the hypotheses, on the pieces *)
  replace (S j) with (List.length l1 + 1)%nat in Ht by lia.
  rewrite firstn_app_2 in Ht. cbn [firstn] in Ht.
  rewrite forallb_app in Ht. apply andb_true_iff in Ht.
  destruct Ht as [Ht1 Hte]. cbn [forallb] in Hte.
  rewrite andb_true_r in Hte.
  rewrite Hrb, experiences_rows_app in Ha. cbn [experiences_rows] in Ha.
  replace (S (List.length (experiences_rows l1) + 2 + i))
    with (List.length (experiences_rows l1) + (2 + S i))%nat in Ha by lia.
  rewrite firstn_app_2, accepted_app in Ha.
  apply andb_true_iff in Ha. destruct Ha as [Ha1 Hae].
  assert (firstn (2 + S i) (experience_rows e ++ experiences_rows l2)
          = (firstn 2 (experience_rows e)
             ++ highlight_rows (Z.of_nat (List.length (Schema.highlights e)))
                  0 (map VStr hsA))%list) as Hcut.
  { unfold experience_rows. cbv zeta. rewrite HhsA at 2.
    rewrite map_app, highlight_rows_app.
    change (2 + S i)%nat with (S (S (S i))).
    cbn [app]. rewrite !firstn_cons, firstn_O. cbn [app]. do 2 f_equal.
    rewrite <- app_assoc.
    replace (S i) with (List.length (highlight_rows
                                      (Z.of_nat (List.length
                                                   (map VStr (Schema.highlights e))))
                                      0 (map VStr hsA)) + 0)%nat
      by (rewrite length_highlight_rows, length_map; lia).
    rewrite firstn_app_2, firstn_O, app_nil_r.
    now rewrite length_map. }
  rewrite Hcut in Hae.
  destruct (@add_experiences_upto E l1 l2 e hsA h2 row_index st HhsA Ht1 Hte
              Ha1 Hae) as (rows & dirs & Hd & Hs & HF).
  subst st'. rewrite Hd, Hs. subst k last. rewrite Hrb.
  assert (i < List.length (Schema.highlights e))%nat as Hi'
    by (apply nth_error_Some; congruence).
  assert (nth_error (map VStr hsA) i = Some (VStr h)) as HiA.
  { subst hsA. rewrite nth_error_map, nth_error_app2 by lia.
    now rewrite Hh1, Nat.sub_diag. }
  split.
  - rewrite nth_error_app2 by lia.
    replace (List.length (table_data st)
             + (1 + List.length (experiences_rows l1) + 2 + i)
             - List.length (table_data st))%nat
      with (S (List.length (experiences_rows l1) + (2 + i))) by lia.
    cbn [app nth_error].
    rewrite nth_error_app1.
    2:{ rewrite !length_app, length_highlight_rows, length_map, HlenA.
        unfold experience_rows. cbv zeta. cbn [app firstn List.length]. lia. }
    rewrite nth_error_app2 by lia.
    replace (List.length (experiences_rows l1) + (2 + i)
             - List.length (experiences_rows l1))%nat with (2 + i)%nat by lia.
    unfold experience_rows. cbv zeta. cbn [app firstn Nat.add nth_error].
    rewrite (nth_highlight_rows _ (map VStr hsA) 0 i HiA).
    unfold bullet_row. cbn [Z.add]. now rewrite is_last_nat.
  - rewrite skipn_app, skipn_all, Nat.sub_diag. cbn [skipn app].
    unfold heading_styles.
    rewrite !bottom_paddings_app, !bottom_paddings_row_styles,
      bottom_paddings_underline.
    rewrite experiences_height_length in *.
    repeat match goal with
    | |- context [?a =? ?b] =>
        destruct (Z.eqb_spec a b); [lia|]
    end.
    cbn [app].
    rewrite bottom_paddings_experiences_after
      by (rewrite experiences_height_length; lia).
    rewrite (@bottom_paddings_later dirs
               (row_index + 1 + Z.of_nat (List.length (experiences_rows l1))
                + 2 + Z.of_nat (List.length hsA))) by (try exact HF; lia).
    rewrite app_nil_r. cbn [app].
    replace (row_index
             + Z.of_nat (1 + List.length (experiences_rows l1) + 2 + i))
      with (row_index + 1 + Z.of_nat (List.length (experiences_rows l1)) + 2
            + Z.of_nat i) by lia.
    rewrite bottom_paddings_highlights by (rewrite length_map; lia).
    cbn [Z.add]. now rewrite is_last_nat.
Qed.

Lemma last_highlight_padding_witness :
  nth_error (Schema.experiences sample_record) 2
  = Some (job "Core" ["one"; "two"; "three"; "four"; "five"])
  /\ nth_error ["one"; "two"; "three"; "four"; "five"] 4 = Some "five"
  /\ forallb Schema.has_title (firstn 3 (Schema.experiences sample_record))
     = true
  /\ accepted sample_env
       (firstn (S (Schema.rows_before 2 (Schema.experiences sample_record)
                   + 2 + 4))
               (experiences_rows (Schema.experiences sample_record))) = true
  /\ nth_error
       (table_data
          (snd (add_experiences sample_env 4
                  (Schema.encode_experiences (Schema.experiences sample_record))
                  initial_state)))
       (0 + (1 + Schema.rows_before 2 (Schema.experiences sample_record)
             + 2 + 4))
     = Some [Paragraph (VStr "five") (Some "•")
               (PARAGRAPH_STYLES "last_bullet_point")]
  /\ bottom_paddings
       (skipn 0
          (table_styles
             (snd (add_experiences sample_env 4
                     (Schema.encode_experiences
                        (Schema.experiences sample_record))
                     initial_state))))
       (4 + Z.of_nat (1 + Schema.rows_before 2
                            (Schema.experiences sample_record) + 2 + 4))
     = [[Num 5]].
Proof.
  split; [reflexivity|]. split; [reflexivity|]. split; [reflexivity|].
  split; [vm_compute; reflexivity|].
  destruct (last_highlight_padding sample_env) as [_ H].
  apply (H (Schema.experiences sample_record) 4 initial_state 2%nat 4%nat
           (job "Core" ["one"; "two"; "three"; "four"; "five"]) "five");
    first [reflexivity | vm_compute; reflexivity].
Defined.

(** ** The sections only append *)

Lemma grown_start s r : grown s r r s.
Proof.
  split; [|lia]. exists [], []. now rewrite !app_nil_r.
Qed.

Lemma grown_appended s0 r0 r (new : row) s p st :
  grown s0 r0 r st ->
  grown s0 r0 (r + 1) (appended r new s p st).
Proof.
  intros [(rows & dirs & Hd & Hs & Hf) Hr]. unfold appended.
  split.
  - exists (rows ++ [new])%list, (dirs ++ row_styles r p s)%list.
    cbn [table_data table_styles files].
    now rewrite Hd, Hs, Hf, !app_assoc.
  - cbn [table_data]. rewrite length_app. cbn [List.length]. lia.
Qed.

Lemma grown_underline s0 r0 r k st :
  grown s0 r0 r st ->
  grown s0 r0 r (snd (_append_section_table_style k st)).
Proof.
  intros [(rows & dirs & Hd & Hs & Hf) Hr].
  rewrite append_section_table_style_run. cbn [snd].
  split.
  - exists rows, (dirs ++ underline k)%list.
    cbn [table_data table_styles files].
    now rewrite Hd, Hs, Hf, !app_assoc.
  - exact Hr.
Qed.

Lemma sections_grow (E : env) (s0 : state) (r0 : Z) :
  (forall r v, triple (grown s0 r0 r) (add_experiences E r v)
                      (grown s0 r0) (extends s0))
  /\ (forall r v, triple (grown s0 r0 r) (add_education E r v)
                         (grown s0 r0) (extends s0))
  /\ (forall r v, triple (grown s0 r0 r) (add_skills E r v)
                         (grown s0 r0) (extends s0)).
Proof.
  assert (forall r st, grown s0 r0 r st -> extends s0 st) as H1
    by (intros r st [H _]; exact H).
  assert (forall r title p st, In title section_titles ->
            grown s0 r0 r st ->
            grown s0 r0 (r + 1)
              (snd (_append_section_table_style (r + 1 - 1)
                      (appended r
                         [Paragraph (VStr title) None
                            (PARAGRAPH_STYLES "section")]
                         true p st)))) as H2
    by (intros; now apply grown_underline, grown_appended).
  repeat split; intros r v;
    [ apply gen_add_experiences | apply gen_add_education
    | apply gen_add_skills ];
    first [ exact H1 | exact H2
          | intros; now apply grown_appended ].
Qed.

(** X1: whatever they are given and however they end, [add_experiences],
    [add_education] and [add_skills] only append: the rows and directives
    present before the call are still there, in place, and no file is
    written. *)
Theorem sections_only_append (E : env) (row_index : Z) (v : value)
    (st : state) :
  extends st (snd (add_experiences E row_index v st))
  /\ extends st (snd (add_education E row_index v st))
  /\ extends st (snd (add_skills E row_index v st)).
Proof.
  destruct (sections_grow E st row_index) as (H1 & H2 & H3).
  specialize (H1 row_index v st (grown_start st row_index)).
  specialize (H2 row_index v st (grown_start st row_index)).
  specialize (H3 row_index v st (grown_start st row_index)).
  repeat split.
  - destruct (add_experiences E row_index v st) as [[r|e] s];
      [exact (proj1 H1) | exact H1].
  - destruct (add_education E row_index v st) as [[r|e] s];
      [exact (proj1 H2) | exact H2].
  - destruct (add_skills E row_index v st) as [[r|e] s];
      [exact (proj1 H3) | exact H3].
Qed.

(** X2: when a section returns, the row index it returns has advanced by
    exactly the number of rows it appended, whatever index it was given. *)
Theorem sections_advance_row_index (E : env) (row_index : Z) (v : value)
    (st : state) (r' : Z) :
  (fst (add_experiences E row_index v st) = Ok r' ->
   r' = row_index
        + Z.of_nat (List.length
                      (table_data (snd (add_experiences E row_index v st))))
        - Z.of_nat (List.length (table_data st)))
  /\ (fst (add_education E row_index v st) = Ok r' ->
      r' = row_index
           + Z.of_nat (List.length
                         (table_data (snd (add_education E row_index v st))))
           - Z.of_nat (List.length (table_data st)))
  /\ (fst (add_skills E row_index v st) = Ok r' ->
      r' = row_index
           + Z.of_nat (List.length
                         (table_data (snd (add_skills E row_index v st))))
           - Z.of_nat (List.length (table_data st))).
Proof.
  destruct (sections_grow E st row_index) as (H1 & H2 & H3).
  specialize (H1 row_index v st (grown_start st row_index)).
  specialize (H2 row_index v st (grown_start st row_index)).
  specialize (H3 row_index v st (grown_start st row_index)).
  repeat split.
  - destruct (add_experiences E row_index v st) as [[r|e] s];
      cbn [fst snd]; intros H; [|discriminate].
    injection H as <-. exact (proj2 H1).
  - destruct (add_education E row_index v st) as [[r|e] s];
      cbn [fst snd]; intros H; [|discriminate].
    injection H as <-. exact (proj2 H2).
  - destruct (add_skills E row_index v st) as [[r|e] s];
      cbn [fst snd]; intros H; [|discriminate].
    injection H as <-. exact (proj2 H3).
Qed.

Lemma sections_advance_row_index_witness :
  fst (add_experiences sample_env 40
         (Schema.encode_experiences (Schema.experiences sample_record))
         initial_state) = Ok 55
  /\ 55 = 40
          + Z.of_nat
              (List.length
                 (table_data
                    (snd (add_experiences sample_env 40
                            (Schema.encode_experiences
                               (Schema.experiences sample_record))
                            initial_state))))
          - Z.of_nat (List.length (table_data initial_state)).
Proof.
  assert (fst (add_experiences sample_env 40
                 (Schema.encode_experiences (Schema.experiences sample_record))
                 initial_state) = Ok 55) as H by (vm_compute; reflexivity).
  split; [exact H|].
  exact (proj1 (sections_advance_row_index sample_env 40
                  (Schema.encode_experiences (Schema.experiences sample_record))
                  initial_state 55) H).
Defined.

(** ** Shapes of the rows *)

Lemma row_shape_appended r (new : row) s p st :
  row_shape new ->
  Forall row_shape (table_data st) ->
  Forall row_shape (table_data (appended r new s p st)).
Proof.
  intros Hrow H. unfold appended. cbn [table_data].
  apply Forall_app. split; [exact H|]. constructor; [exact Hrow|constructor].
Qed.

(** X3: every row that a run of [generate_resume] puts in [table_data],
    whatever the record, is of one of three shapes: one text cell, two text
    cells, or a single cell bulleted with the fixed glyph in the style
    [bullet_points] or [last_bullet_point].  No row is empty and none has
    more than two cells. *)
Theorem rows_have_three_shapes (E : env) (loc : string) (data : value)
    (st : state) :
  Forall row_shape (table_data st) ->
  Forall row_shape (table_data (snd (generate_resume E loc data st))).
Proof.
  intros H.
  pose proof (@gen_generate_resume E
                (fun _ s => Forall row_shape (table_data s))
                (fun s => Forall row_shape (table_data s))) as G.
  specialize (G (fun _ _ h => h)).
  assert (forall r x k p s,
             Forall row_shape (table_data s) ->
             Forall row_shape
               (table_data
                  (appended r [Paragraph x None (PARAGRAPH_STYLES k)] true p
                            s))) as H1.
  { intros r x k p s Hs. apply row_shape_appended; [|assumption].
    left. now exists x, k. }
  specialize (G H1).
  assert (forall r x1 k1 x2 k2 p s,
             Forall row_shape (table_data s) ->
             Forall row_shape
               (table_data
                  (appended r
                     [Paragraph x1 None (PARAGRAPH_STYLES k1);
                      Paragraph x2 None (PARAGRAPH_STYLES k2)] false p s)))
    as H2.
  { intros r x1 k1 x2 k2 p s Hs.
    apply row_shape_appended; [|assumption].
    right. left. now exists x1, k1, x2, k2. }
  specialize (G H2).
  assert (forall r x (last : bool) s,
             Forall row_shape (table_data s) ->
             Forall row_shape
               (table_data
                  (appended r
                     [Paragraph x (Some "•")
                        (PARAGRAPH_STYLES
                           (if last then "last_bullet_point"
                            else "bullet_points"))]
                     true (if last then (5, 1) else (0, 1)) s))) as H3.
  { intros r x last s Hs. apply row_shape_appended; [|assumption].
    right. right.
    exists x, (if last then "last_bullet_point" else "bullet_points").
    split; [destruct last; auto | reflexivity]. }
  specialize (G H3).
  assert (forall r title p s,
             In title section_titles ->
             Forall row_shape (table_data s) ->
             Forall row_shape
               (table_data
                  (snd (_append_section_table_style (r + 1 - 1)
                          (appended r
                             [Paragraph (VStr title) None
                                (PARAGRAPH_STYLES "section")]
                             true p s))))) as H4.
  { intros r title p s _ Hs. rewrite append_section_table_style_run.
    cbn [snd table_data]. now apply H1. }
  specialize (G H4 (fun _ _ => Forall_nil _) loc data st H).
  destruct (generate_resume E loc data st) as [[q|e] st']; cbn [snd].
  - destruct G as (r & s & Hs & (Hd & _)). now rewrite <- Hd.
  - exact G.
Qed.

Lemma rows_have_three_shapes_witness :
  Forall row_shape
    (table_data (snd (generate_resume sample_env "out"
                        (Schema.encode sample_record) initial_state))).
Proof.
  apply (@rows_have_three_shapes sample_env "out"
           (Schema.encode sample_record) initial_state).
  constructor.
Defined.

(** ** Spanning rows *)

Lemma spans_appended r (new : row) s p st :
  r = Z.of_nat (List.length (table_data st)) ->
  (s = true /\ List.length new = 1%nat)
  \/ (s = false /\ List.length new = 2%nat) ->
  spans_match st ->
  spans_match (appended r new s p st).
Proof.
  intros Hr Hc [H1 H2]. unfold appended.
  split; cbn [table_data table_styles].
  - intros k row Hk Hlen. apply in_or_app.
    destruct (Nat.lt_ge_cases k (List.length (table_data st))) as [Hlt|Hge].
    + left. rewrite nth_error_app1 in Hk by exact Hlt. now apply (H1 k row).
    + right. rewrite nth_error_app2 in Hk by exact Hge.
      destruct (k - List.length (table_data st))%nat as [|j] eqn:Hj;
        [|destruct j; discriminate].
      cbn in Hk. injection Hk as <-.
      destruct Hc as [[-> _]|[_ Hc]]; [|lia].
      unfold row_styles, SPAN. cbn.
      right. right. left. do 2 f_equal; f_equal; lia.
  - intros d Hd Hcmd. apply in_app_or in Hd. destruct Hd as [Hd|Hd].
    + destruct (H2 d Hd Hcmd) as (k & x & -> & Hk).
      exists k, x. split; [reflexivity|].
      rewrite nth_error_app1; [exact Hk|].
      apply nth_error_Some. congruence.
    + unfold row_styles in Hd.
      destruct Hc as [[-> Hc]|[-> _]]; cbn in Hd.
      * destruct Hd as [<-|[<-|[<-|[]]]]; try discriminate.
        destruct new as [|x [|y new']]; try discriminate Hc.
        exists (List.length (table_data st)), x.
        split; [unfold SPAN; now rewrite Hr|].
        rewrite nth_error_app2 by lia. now rewrite Nat.sub_diag.
      * destruct Hd as [<-|[<-|[]]]; discriminate.
Qed.

Lemma spans_underline k st :
  spans_match st -> spans_match (snd (_append_section_table_style k st)).
Proof.
  intros [H1 H2]. rewrite append_section_table_style_run. cbn [snd].
  split; cbn [table_data table_styles].
  - intros j row Hj Hlen. apply in_or_app. left. now apply (H1 j row).
  - intros d Hd Hcmd. apply in_app_or in Hd. destruct Hd as [Hd|Hd].
    + now apply H2.
    + unfold underline in Hd. cbn in Hd.
      destruct Hd as [<-|[<-|[<-|[]]]]; discriminate.
Qed.

Lemma length_after_appended r (new : row) s p st :
  r = Z.of_nat (List.length (table_data st)) ->
  r + 1 = Z.of_nat (List.length (table_data (appended r new s p st))).
Proof.
  intros ->. unfold appended. cbn [table_data].
  rewrite length_app. cbn [List.length]. lia.
Qed.

(** X4: in the table that a run of [generate_resume] builds, whatever the
    record, a row carries a [SPAN] directive exactly when it has a single
    cell: every one-cell row spans both columns and every [SPAN] directive
    is that of a one-cell row, so that no two-column row is merged.  The two
    constants of [resume_pdf_styles] are taken not to be [SPAN]
    directives. *)
Theorem spanning_iff_single_cell (E : env) (loc : string) (data : value)
    (st : state) :
  Forall (fun d => cmd d <> "SPAN") (DEBUG_STYLE E :: DOCUMENT_ALIGNMENT E) ->
  spans_match st ->
  spans_match (snd (generate_resume E loc data st)).
Proof.
  intros HE H.
  assert (forall r (c : row) s p t,
             (s = true /\ List.length c = 1%nat)
             \/ (s = false /\ List.length c = 2%nat) ->
             r = Z.of_nat (List.length (table_data t)) /\ spans_match t ->
             r + 1 = Z.of_nat
                       (List.length (table_data (appended r c s p t)))
             /\ spans_match (appended r c s p t)) as Hrow.
  { intros r c s p t Hc [Hr Hs]. split.
    - now apply length_after_appended.
    - now apply spans_appended. }
  unshelve epose proof
    (@gen_generate_resume E
       (fun r s => r = Z.of_nat (List.length (table_data s))
                   /\ spans_match s)
       spans_match _ _ _ _ _ _ loc data st H) as G; cbv beta.
  - intros r t h. exact (proj2 h).
  - intros r x k p t h. apply Hrow; [left|]; auto.
  - intros r x1 k1 x2 k2 p t h. apply Hrow; [right|]; auto.
  - intros r x last t h. apply Hrow; [left|]; auto.
  - intros r title p t _ h.
    destruct (Hrow r [Paragraph (VStr title) None (PARAGRAPH_STYLES "section")]
                true p t (or_introl (conj eq_refl eq_refl)) h) as [Hl Hs].
    split; [|now apply spans_underline].
    rewrite append_section_table_style_run. exact Hl.
  - intros grid fs. split; [reflexivity|].
    split; cbn [start_state table_data table_styles].
    + intros k row Hk. destruct k; discriminate.
    + intros d Hd Hcmd. exfalso.
      apply Forall_cons_iff in HE. destruct HE as [Hg Ha].
      apply in_app_or in Hd. destruct Hd as [Hd|Hd].
      * destruct grid; [|destruct Hd].
        destruct Hd as [<-|[]]. now apply Hg.
      * rewrite Forall_forall in Ha. now apply (Ha d).
  - destruct (generate_resume E loc data st) as [[q|e] st']; cbn [snd].
    + destruct G as (r & s & [_ [H1 H2]] & (Hd & Hs & _)).
      split; rewrite <- Hd, <- Hs; assumption.
    + exact G.
Qed.

Lemma spans_match_initial : spans_match initial_state.
Proof.
  split; cbn.
  - intros k r Hk. destruct k; discriminate.
  - intros d [].
Qed.

Lemma spanning_iff_single_cell_witness :
  spans_match
    (snd (generate_resume sample_env "out" (Schema.encode sample_record)
            initial_state)).
Proof.
  apply (@spanning_iff_single_cell sample_env "out"
           (Schema.encode sample_record) initial_state).
  - repeat (apply Forall_cons; [discriminate|]). apply Forall_nil.
  - exact spans_match_initial.
Defined.

(** ** Underlines *)

Lemma underlines_appended r (new : row) s p st :
  underlines_ok st -> underlines_ok (appended r new s p st).
Proof.
  intros H. unfold appended.
  intros d Hd Hcmd. cbn [table_data table_styles] in *.
  apply in_app_or in Hd. destruct Hd as [Hd|Hd].
  - destruct (H d Hd Hcmd) as (k & title & Ht & Hs & He & Hk).
    exists k, title. repeat split; try assumption.
    rewrite nth_error_app1; [exact Hk|].
    apply nth_error_Some. congruence.
  - unfold row_styles in Hd. destruct s; cbn in Hd.
    + destruct Hd as [<-|[<-|[<-|[]]]]; discriminate.
    + destruct Hd as [<-|[<-|[]]]; discriminate.
Qed.

Lemma underlines_heading r title p st :
  In title section_titles ->
  r = Z.of_nat (List.length (table_data st)) ->
  underlines_ok st ->
  underlines_ok
    (snd (_append_section_table_style (r + 1 - 1)
            (appended r
               [Paragraph (VStr title) None (PARAGRAPH_STYLES "section")]
               true p st))).
Proof.
  intros Ht Hr H.
  pose proof (@underlines_appended r
                [Paragraph (VStr title) None (PARAGRAPH_STYLES "section")]
                true p st H) as H'.
  rewrite append_section_table_style_run. cbn [snd].
  unfold appended in *.
  intros d Hd Hcmd. cbn [table_data table_styles] in *.
  apply in_app_or in Hd. destruct Hd as [Hd|Hd].
  - now apply H'.
  - unfold underline in Hd. cbn in Hd.
    destruct Hd as [<-|[<-|[<-|[]]]]; try discriminate.
    exists (List.length (table_data st)), title. cbn.
    repeat split; try lia; try assumption.
    rewrite nth_error_app2 by lia. now rewrite Nat.sub_diag.
Qed.

(** X5: in the table that a run of [generate_resume] builds, whatever the
    record, every [LINEBELOW] directive is scoped to a single row, and that
    row is one of the four section headings: a single unbulleted cell in
    the style [section] whose text is Objective, Experience, Education or
    Skills.  No rule is drawn under a row of the record's own text.  The
    two constants of [resume_pdf_styles] are taken not to be [LINEBELOW]
    directives. *)
Theorem underlines_below_headings (E : env) (loc : string) (data : value)
    (st : state) :
  Forall (fun d => cmd d <> "LINEBELOW")
         (DEBUG_STYLE E :: DOCUMENT_ALIGNMENT E) ->
  underlines_ok st ->
  underlines_ok (snd (generate_resume E loc data st)).
Proof.
  intros HE H.
  assert (forall r (c : row) s p t,
             r = Z.of_nat (List.length (table_data t)) /\ underlines_ok t ->
             r + 1 = Z.of_nat
                       (List.length (table_data (appended r c s p t)))
             /\ underlines_ok (appended r c s p t)) as Hrow.
  { intros r c s p t [Hr Hs]. split.
    - now apply length_after_appended.
    - now apply underlines_appended. }
  unshelve epose proof
    (@gen_generate_resume E
       (fun r s => r = Z.of_nat (List.length (table_data s))
                   /\ underlines_ok s)
       underlines_ok _ _ _ _ _ _ loc data st H) as G; cbv beta.
  - intros r t h. exact (proj2 h).
  - intros r x k p t h. now apply Hrow.
  - intros r x1 k1 x2 k2 p t h. now apply Hrow.
  - intros r x last t h. now apply Hrow.
  - intros r title p t Ht [Hr Hs]. split.
    + rewrite append_section_table_style_run.
      now apply length_after_appended.
    + now apply underlines_heading.
  - intros grid fs. split; [reflexivity|].
    intros d Hd Hcmd. exfalso. cbn [start_state table_styles] in Hd.
    apply Forall_cons_iff in HE. destruct HE as [Hg Ha].
    apply in_app_or in Hd. destruct Hd as [Hd|Hd].
    + destruct grid; [|destruct Hd].
      destruct Hd as [<-|[]]. now apply Hg.
    + rewrite Forall_forall in Ha. now apply (Ha d).
  - destruct (generate_resume E loc data st) as [[q|e] st']; cbn [snd].
    + destruct G as (r & s & [_ Hu] & (Hd & Hs & _)).
      unfold underlines_ok in *. rewrite <- Hd, <- Hs. exact Hu.
    + exact G.
Qed.

Lemma underlines_below_headings_witness :
  underlines_ok
    (snd (generate_resume sample_env "out" (Schema.encode sample_record)
            initial_state)).
Proof.
  apply (@underlines_below_headings sample_env "out"
           (Schema.encode sample_record) initial_state).
  - repeat (apply Forall_cons; [discriminate|]). apply Forall_nil.
  - intros d [].
Defined.

(** ** Only the first title and the first degree are read *)

Lemma lookup_entry_same k v pre post :
  lookup k pre = None -> lookup k (pre ++ (k, v) :: post) = Some v.
Proof.
  induction pre as [|[k' v'] pre IH]; cbn [app lookup]; intros H.
  - now rewrite String.eqb_refl.
  - destruct (String.eqb k k'); [discriminate|]. now apply IH.
Qed.

Lemma lookup_entry_other k k' v v' pre post :
  String.eqb k' k = false ->
  lookup k' (pre ++ (k, v) :: post) = lookup k' (pre ++ (k, v') :: post).
Proof.
  intros H. induction pre as [|[k0 v0] pre IH]; cbn [app lookup].
  - now rewrite H.
  - destruct (String.eqb k' k0); [reflexivity|exact IH].
Qed.

Lemma for_each_enumerate_ext A B (f g : A -> B) (body : Z * B -> Z -> M Z) l :
  (forall i x r st, In x l -> body (i, f x) r st = body (i, g x) r st) ->
  forall i r st,
    for_each (enumerate_from i (map f l)) body r st
    = for_each (enumerate_from i (map g l)) body r st.
Proof.
  induction l as [|x l IH]; intros H i r st; [reflexivity|].
  cbn [map enumerate_from for_each]. apply bind_ext.
  - intros st'. apply H. now left.
  - intros r' st'. apply IH. intros. apply H. now right.
Qed.

Lemma for_each_ext_in A B (f g : A -> B) (body : B -> Z -> M Z) l :
  (forall x r st, In x l -> body (f x) r st = body (g x) r st) ->
  forall r st, for_each (map f l) body r st = for_each (map g l) body r st.
Proof.
  induction l as [|x l IH]; intros H r st; [reflexivity|].
  cbn [map for_each]. apply bind_ext.
  - intros st'. apply H. now left.
  - intros r' st'. apply IH. intros. apply H. now right.
Qed.

Ltac same_lookups :=
  repeat (apply bind_ext;
          [ intros ?; unfold lift, subscript;
            rewrite ?lookup_entry_same by assumption;
            first [ reflexivity
                  | erewrite lookup_entry_other by reflexivity; reflexivity ]
          | intros ? ? ]).

Lemma experience_body_first_title E idx pre post t rest row_index st :
  lookup "titles" pre = None ->
  experience_body E
    (idx, VDict (pre ++ ("titles", VList (t :: rest)) :: post)) row_index st
  = experience_body E
      (idx, VDict (pre ++ ("titles", VList [t]) :: post)) row_index st.
Proof.
  intros H. unfold experience_body. revert st. same_lookups.
  reflexivity.
Qed.

(** X6: an experience is rendered from the first entry of its [titles]
    list alone.  Further titles, whatever they are, change nothing: the
    run of the loop body, and of a whole experiences section, is the same
    as on the record cut to its first titles. *)
Theorem only_first_title_used (E : env) :
  (forall idx pre post t rest row_index st,
     lookup "titles" pre = None ->
     experience_body E
       (idx, VDict (pre ++ ("titles", VList (t :: rest)) :: post))
       row_index st
     = experience_body E
         (idx, VDict (pre ++ ("titles", VList [t]) :: post)) row_index st)
  /\ (forall (jobs : list (list (string * value) * (value * list value)
                           * list (string * value)))
             row_index st,
        Forall (fun j => lookup "titles" (fst (fst j)) = None) jobs ->
        add_experiences E row_index
          (VList (map (fun j =>
                         VDict (fst (fst j)
                                ++ ("titles",
                                    VList (fst (snd (fst j))
                                           :: snd (snd (fst j))))
                                :: snd j)) jobs)) st
        = add_experiences E row_index
            (VList (map (fun j =>
                           VDict (fst (fst j)
                                  ++ ("titles", VList [fst (snd (fst j))])
                                  :: snd j)) jobs)) st).
Proof.
  split.
  - intros. now apply experience_body_first_title.
  - intros jobs row_index st Hj. unfold add_experiences.
    apply bind_ext; [reflexivity|]. intros r1 st1.
    apply bind_ext; [reflexivity|]. intros [] st2.
    erewrite !bind_lift by reflexivity. unfold enumerate.
    apply for_each_enumerate_ext. intros i [[pre [t rest]] post] r st3 Hin.
    rewrite Forall_forall in Hj.
    apply experience_body_first_title. exact (Hj _ Hin).
Qed.

Lemma only_first_title_used_witness :
  lookup "titles" [("company", VStr "Acme"); ("location", VStr "Pune")] = None
  /\ experience_body sample_env
       (0, VDict ([("company", VStr "Acme"); ("location", VStr "Pune")]
                  ++ ("titles",
                      VList [VDict [("name", VStr "Lead");
                                    ("startdate", VStr "2021");
                                    ("enddate", VStr "2022")];
                             VInt 3])
                  :: [("highlights", VList [VStr "one"])]))
       4 initial_state
     = experience_body sample_env
         (0, VDict ([("company", VStr "Acme"); ("location", VStr "Pune")]
                    ++ ("titles",
                        VList [VDict [("name", VStr "Lead");
                                      ("startdate", VStr "2021");
                                      ("enddate", VStr "2022")]])
                    :: [("highlights", VList [VStr "one"])]))
         4 initial_state.
Proof.
  split; [reflexivity|].
  destruct (only_first_title_used sample_env) as [H _].
  apply H. reflexivity.
Defined.

Lemma education_body_first_degree E pre post d rest row_index st :
  lookup "degrees" pre = None ->
  education_body E (VDict (pre ++ ("degrees", VList (d :: rest)) :: post))
                 row_index st
  = education_body E (VDict (pre ++ ("degrees", VList [d]) :: post))
                   row_index st.
Proof.
  intros H. unfold education_body. revert st. same_lookups.
  reflexivity.
Qed.

(** X7: an education entry is rendered from the first entry of its
    [degrees] list alone; further degrees, whatever they are, change
    nothing, in one entry and in a whole education section. *)
Theorem only_first_degree_used (E : env) :
  (forall pre post d rest row_index st,
     lookup "degrees" pre = None ->
     education_body E (VDict (pre ++ ("degrees", VList (d :: rest)) :: post))
                    row_index st
     = education_body E (VDict (pre ++ ("degrees", VList [d]) :: post))
                      row_index st)
  /\ (forall (entries : list (list (string * value) * (value * list value)
                              * list (string * value)))
             row_index st,
        Forall (fun e => lookup "degrees" (fst (fst e)) = None) entries ->
        add_education E row_index
          (VList (map (fun e =>
                         VDict (fst (fst e)
                                ++ ("degrees",
                                    VList (fst (snd (fst e))
                                           :: snd (snd (fst e))))
                                :: snd e)) entries)) st
        = add_education E row_index
            (VList (map (fun e =>
                           VDict (fst (fst e)
                                  ++ ("degrees", VList [fst (snd (fst e))])
                                  :: snd e)) entries)) st).
Proof.
  split.
  - intros. now apply education_body_first_degree.
  - intros entries row_index st He. unfold add_education.
    apply bind_ext; [reflexivity|]. intros r1 st1.
    apply bind_ext; [reflexivity|]. intros [] st2.
    erewrite !bind_lift by reflexivity.
    apply for_each_ext_in. intros [[pre [d rest]] post] r st3 Hin.
    rewrite Forall_forall in He.
    apply education_body_first_degree. exact (He _ Hin).
Qed.

Lemma only_first_degree_used_witness :
  lookup "degrees" [("school", VStr "MIT")] = None
  /\ education_body sample_env
       (VDict ([("school", VStr "MIT")]
               ++ ("degrees",
                   VList [VDict [("names", VList [VStr "BSc"])]; VNone])
               :: []))
       4 initial_state
     = education_body sample_env
         (VDict ([("school", VStr "MIT")]
                 ++ ("degrees", VList [VDict [("names", VList [VStr "BSc"])]])
                 :: []))
         4 initial_state.
Proof.
  split; [reflexivity|].
  destruct (only_first_degree_used sample_env) as [H _].
  apply H. reflexivity.
Defined.

(** ** The search for a website *)

(** X8: the search for the site of an icon stops at the first site that
    carries it: its URL is cleaned and returned, and the sites behind it
    are not looked at, so that a malformed one among them raises nothing. *)
Theorem first_site_first_match (icon : string) (before : list value)
    (site : value) (after : list value) (u : string) :
  Forall (other_icon icon) before ->
  subscript site "icon" = Ok (VStr icon) ->
  subscript site "url" = Ok (VStr u) ->
  first_site icon (before ++ site :: after) = Ok (clean_url u).
Proof.
  intros Hb Hi Hu. induction Hb as [|s before (ic & Hs & Hne) _ IH].
  - cbn [app first_site]. rewrite Hi. cbn [rbind eq_str].
    rewrite String.eqb_refl, Hu. reflexivity.
  - cbn [app first_site]. rewrite Hs. cbn [rbind]. rewrite Hne. exact IH.
Qed.

Lemma first_site_first_match_witness :
  Forall (other_icon "github")
    [VDict [("icon", VStr "linkedin"); ("url", VStr "https://x.y")]]
  /\ first_site "github"
       ([VDict [("icon", VStr "linkedin"); ("url", VStr "https://x.y")]]
        ++ VDict [("icon", VStr "github");
                  ("url", VStr "https://www.github.com/u")]
        :: [VInt 7])
     = Ok (clean_url "https://www.github.com/u").
Proof.
  assert (Forall (other_icon "github")
            [VDict [("icon", VStr "linkedin"); ("url", VStr "https://x.y")]])
    as H.
  { constructor; [|constructor]. exists (VStr "linkedin"). now split. }
  split; [exact H|].
  apply (@first_site_first_match "github" _ _ [VInt 7]
           "https://www.github.com/u" H); reflexivity.
Defined.

(** X9: when no site carries the icon the search gives the empty string
    and raises nothing; this includes the empty list of sites. *)
Theorem first_site_no_match (icon : string) (sites : list value) :
  Forall (other_icon icon) sites -> first_site icon sites = Ok "".
Proof.
  intros H. induction H as [|s sites (ic & Hs & Hne) _ IH]; [reflexivity|].
  cbn [first_site]. rewrite Hs. cbn [rbind]. rewrite Hne. exact IH.
Qed.

Lemma first_site_no_match_witness :
  Forall (other_icon "github")
    [VDict [("icon", VStr "linkedin"); ("url", VStr "https://x.y")]]
  /\ first_site "github"
       [VDict [("icon", VStr "linkedin"); ("url", VStr "https://x.y")]]
     = Ok "".
Proof.
  assert (Forall (other_icon "github")
            [VDict [("icon", VStr "linkedin"); ("url", VStr "https://x.y")]])
    as H.
  { constructor; [|constructor]. exists (VStr "linkedin"). now split. }
  split; [exact H|]. exact (first_site_no_match H).
Defined.

(** X10: a site whose icon cannot be read, met before any site that
    carries the icon, makes the search raise the error of that lookup, even
    if a later site carries the icon; so does a matching site whose URL is
    missing or is not a string. *)
Theorem first_site_malformed (icon : string) (before : list value)
    (site : value) (after : list value) :
  Forall (other_icon icon) before ->
  (forall e, subscript site "icon" = Err e ->
             first_site icon (before ++ site :: after) = Err e)
  /\ (forall e, subscript site "icon" = Ok (VStr icon) ->
                subscript site "url" = Err e ->
                first_site icon (before ++ site :: after) = Err e)
  /\ (forall v, subscript site "icon" = Ok (VStr icon) ->
                subscript site "url" = Ok v ->
                is_str v = false ->
                first_site icon (before ++ site :: after)
                = Err AttributeError).
Proof.
  intros Hb. induction Hb as [|s before (ic & Hs & Hne) _ IH].
  - cbn [app first_site]. repeat split.
    + intros e ->. reflexivity.
    + intros e -> Hu. cbn [rbind eq_str]. rewrite String.eqb_refl, Hu.
      reflexivity.
    + intros v -> Hu Hv. cbn [rbind eq_str]. rewrite String.eqb_refl, Hu.
      destruct v; try discriminate; reflexivity.
  - cbn [app first_site]. rewrite Hs. cbn [rbind]. rewrite Hne. exact IH.
Qed.

Lemma first_site_malformed_witness :
  Forall (other_icon "github") []
  /\ subscript (VStr "github.com/u") "icon" = Err TypeError
  /\ first_site "github"
       ([] ++ VStr "github.com/u"
           :: [VDict [("icon", VStr "github"); ("url", VStr "github.com/u")]])
     = Err TypeError.
Proof.
  split; [constructor|]. split; [reflexivity|].
  destruct (@first_site_malformed "github" [] (VStr "github.com/u")
              [VDict [("icon", VStr "github"); ("url", VStr "github.com/u")]]
              (Forall_nil _)) as [H _].
  apply H. reflexivity.
Defined.

(** ** The debug flag *)

Lemma trk_ret g A (a : A) : tracks g (ret a) (ret a).
Proof. intros s1 s2 H. split; [reflexivity|exact H]. Qed.

Lemma trk_lift g A (r1 r2 : result A) :
  r1 = r2 -> tracks g (lift r1) (lift r2).
Proof. intros -> s1 s2 H. split; [reflexivity|exact H]. Qed.

Lemma trk_bind g A B (m1 m2 : M A) (f1 f2 : A -> M B) :
  tracks g m1 m2 -> (forall a, tracks g (f1 a) (f2 a)) ->
  tracks g (bind m1 f1) (bind m2 f2).
Proof.
  intros Hm Hf s1 s2 H. unfold bind. destruct (Hm s1 s2 H) as [Hr Hs].
  destruct (m1 s1) as [[a1|e1] t1], (m2 s2) as [[a2|e2] t2];
    cbn [fst snd] in *; try discriminate.
  - injection Hr as <-. now apply Hf.
  - injection Hr as <-. split; [reflexivity|exact Hs].
Qed.

Lemma trk_for_each g A (body : A -> Z -> M Z) l :
  (forall x r, tracks g (body x r) (body x r)) ->
  forall r, tracks g (for_each l body r) (for_each l body r).
Proof.
  intros H. induction l as [|x l IH]; intros r.
  - apply trk_ret.
  - cbn [for_each]. apply trk_bind; [apply H | apply IH].
Qed.

Lemma trk_table_data_append g r :
  tracks g (table_data_append r) (table_data_append r).
Proof.
  intros s1 s2 (Hd & Hs). unfold table_data_append, ahead. cbn.
  now rewrite Hd, Hs.
Qed.

Lemma trk_table_styles_extend g ds :
  tracks g (table_styles_extend ds) (table_styles_extend ds).
Proof.
  intros s1 s2 (Hd & Hs). unfold table_styles_extend, ahead. cbn.
  now rewrite Hd, Hs, app_assoc.
Qed.

Lemma trk_observe g f r : tracks g (observe f r) (observe f r).
Proof. intros s1 s2 (Hd & Hs). unfold observe, ahead. cbn. auto. Qed.

Lemma fol_bind g A B (m1 m2 : M A) (f1 f2 : A -> M B) :
  tracks g m1 m2 -> (forall a, follows g (f1 a) (f2 a)) ->
  follows g (bind m1 f1) (bind m2 f2).
Proof.
  intros Hm Hf s1 s2 H. unfold bind. destruct (Hm s1 s2 H) as [Hr Hs].
  destruct (m1 s1) as [[a1|e1] t1], (m2 s2) as [[a2|e2] t2];
    cbn [fst snd] in *; try discriminate.
  - injection Hr as <-. now apply Hf.
  - exact Hs.
Qed.

Lemma fol_doc_build g E p q (a b : string) :
  follows g (doc_build E p ;; ret a) (doc_build E q ;; ret b).
Proof.
  intros s1 s2 H. unfold bind, doc_build, ret.
  destruct (layout_ok E (table_data s1) (table_styles s1)),
           (layout_ok E (table_data s2) (table_styles s2)); exact H.
Qed.

Ltac trk_tac :=
  repeat match goal with
  | |- tracks _ (ret _) (ret _) => apply trk_ret
  | |- tracks _ (lift _) (lift _) => apply trk_lift; reflexivity
  | |- tracks _ (table_data_append _) (table_data_append _) =>
      apply trk_table_data_append
  | |- tracks _ (table_styles_extend _) (table_styles_extend _) =>
      apply trk_table_styles_extend
  | |- tracks _ (observe _ _) (observe _ _) => apply trk_observe
  | |- tracks _ (for_each _ _ _) (for_each _ _ _) =>
      apply trk_for_each; intros
  | |- tracks _ (bind _ _) (bind _ _) => apply trk_bind; [|intros]
  | |- tracks _ (if ?b then _ else _) (if ?b then _ else _) => destruct b
  | |- tracks _ (let (_, _) := ?p in _) (let (_, _) := ?p in _) => destruct p
  | |- tracks _ (_add_table_row _ _ _ _ _ _) (_add_table_row _ _ _ _ _ _) =>
      unfold _add_table_row
  | |- tracks _ (_append_section_table_style _)
                (_append_section_table_style _) =>
      unfold _append_section_table_style
  | |- tracks _ (highlight_body _ _ _ _) (highlight_body _ _ _ _) =>
      unfold highlight_body
  | |- tracks _ (experience_body _ _ _) (experience_body _ _ _) =>
      unfold experience_body
  | |- tracks _ (education_body _ _ _) (education_body _ _ _) =>
      unfold education_body
  | |- tracks _ (skills_body _ _ _) (skills_body _ _ _) =>
      unfold skills_body
  | |- tracks _ (add_experiences _ _ _) (add_experiences _ _ _) =>
      unfold add_experiences
  | |- tracks _ (add_education _ _ _) (add_education _ _ _) =>
      unfold add_education
  | |- tracks _ (add_skills _ _ _) (add_skills _ _ _) =>
      unfold add_skills
  end.

(** The run on a typed record with a [debug] entry, against the run on
    the record without it: the same rows and, behind the grid, the same
    directives, wherever the two runs end. *)
Lemma debug_run_ahead (E : env) (loc : string) (r : Schema.ResumeRecord)
    (d : value) (st : state) :
  ahead (if truthy d then [DEBUG_STYLE E] else [])
    (snd (generate_resume E loc (Schema.encode (set_debug (Some d) r)) st))
    (snd (generate_resume E loc (Schema.encode (set_debug None r)) st)).
Proof.
  remember (generate_resume E loc (Schema.encode (set_debug None r)) st)
    as out0 eqn:E0.
  unfold generate_resume.
  run_prelude (set_debug (Some d) r) st.
  match goal with
  | |- context [bind ?m ?f ?s] => set (k1 := bind m f); set (sa := s)
  end.
  subst out0. unfold generate_resume.
  run_prelude (set_debug None r) st.
  fold sa.
  match goal with
  | |- context [bind ?m ?f sa] => set (k0 := bind m f)
  end.
  subst k1 k0. cbn [set_debug Schema.debug truthy].
  set (g := if truthy d then [DEBUG_STYLE E] else []).
  match goal with
  | |- ahead g (snd (bind _ ?f1 sa)) (snd (bind (ret tt) ?f0 sa)) =>
      enough (follows g (f1 tt) (f0 tt)) as Hfol
  end.
  { unfold bind at 1 3. unfold ret at 2. subst g.
    destruct (truthy d); apply Hfol; split; reflexivity. }
  cbv beta.
  repeat match goal with
  | |- follows g (bind (doc_build _ _) _) (bind (doc_build _ _) _) =>
      apply fol_doc_build
  | |- follows g (bind _ _) (bind _ _) =>
      apply fol_bind; [solve [trk_tac]|intros]
  end.
Qed.

(** X11: on a valid record the [debug] entry changes no row; when it is
    true in the sense of an [if] (a non-empty string such as "no" counts as
    true, 0 and the empty string as false) the run puts [DEBUG_STYLE] in
    front of the directives, and otherwise the directives are those of the
    record without the entry. *)
Theorem debug_only_adds_grid (E : env) (loc : string)
    (r : Schema.ResumeRecord) (d : value) (st : state) :
  Schema.valid r = true ->
  table_data
    (snd (generate_resume E loc (Schema.encode (set_debug (Some d) r)) st))
  = table_data
      (snd (generate_resume E loc (Schema.encode (set_debug None r)) st))
  /\ table_styles
       (snd (generate_resume E loc (Schema.encode (set_debug (Some d) r)) st))
     = ((if truthy d then [DEBUG_STYLE E] else [])
        ++ table_styles
             (snd (generate_resume E loc (Schema.encode (set_debug None r))
                     st)))%list.
Proof.
  intros _. destruct (debug_run_ahead E loc r d st) as [Hd Hs].
  split; assumption.
Qed.

Lemma debug_only_adds_grid_witness :
  Schema.valid sample_record = true
  /\ table_styles
       (snd (generate_resume sample_env "out"
               (Schema.encode (set_debug (Some (VStr "no")) sample_record))
               initial_state))
     = ((if truthy (VStr "no") then [DEBUG_STYLE sample_env] else [])
        ++ table_styles
             (snd (generate_resume sample_env "out"
                     (Schema.encode (set_debug None sample_record))
                     initial_state)))%list.
Proof.
  split; [reflexivity|].
  exact (proj2 (@debug_only_adds_grid sample_env "out" sample_record
                  (VStr "no") initial_state eq_refl)).
Defined.

(** ** Rows and directives of a valid record *)

(** X13: on a valid record whose texts the [Paragraph] constructor accepts
    the run leaves in [table_data] the name row,
    the contact row (email, phone, first LinkedIn and GitHub URLs cleaned,
    address joined, separated by bars), the Objective heading and text, then
    the Experience heading and per experience, in the order of the record,
    the company/duration row, the title/location row and the bullets in
    their order, then the Education heading and one row per entry, then the
    Skills heading and one row per group; [table_styles] holds the grid if
    asked for, the alignment, and then the directives of the rows in the
    same order, each under the index of its row. *)
Theorem table_is_document (E : env) (loc : string) (r : Schema.ResumeRecord)
    (st : state) :
  Schema.valid r = true ->
  accepted E (document_rows E r) = true ->
  table_data (snd (generate_resume E loc (Schema.encode r) st))
  = document_rows E r
  /\ table_styles (snd (generate_resume E loc (Schema.encode r) st))
     = document_styles E r.
Proof.
  intros Hv Ha.
  destruct (@generate_resume_valid E loc r st Hv Ha) as (s & -> & Hd & Hs & _).
  now split.
Qed.

Lemma table_is_document_witness :
  Schema.valid sample_record = true
  /\ accepted sample_env (document_rows sample_env sample_record) = true
  /\ table_data (snd (generate_resume sample_env "out"
                        (Schema.encode sample_record) initial_state))
     = document_rows sample_env sample_record.
Proof.
  assert (accepted sample_env (document_rows sample_env sample_record) = true)
    as Ha by (vm_compute; reflexivity).
  split; [reflexivity|]. split; [exact Ha|].
  exact (proj1 (@table_is_document sample_env "out" sample_record
                  initial_state eq_refl Ha)).
Defined.

(** ** The output file *)

Lemma writes_bind A (m : M A) (f : A -> M string) p :
  keeps m -> (forall a, writes p (f a)) -> writes p (bind m f).
Proof.
  intros Hm Hf st. unfold bind. specialize (Hm st).
  destruct (m st) as [[a|e] st1]; cbn [snd] in Hm.
  - specialize (Hf a st1). destruct (f a st1) as [[q|e] st2].
    + now rewrite <- Hm.
    + now rewrite <- Hm.
  - exact Hm.
Qed.

Lemma writes_doc_build E p : writes p (doc_build E p ;; ret p).
Proof.
  intros st. unfold bind, doc_build, ret.
  destruct (layout_ok E _ _); cbn; auto.
Qed.

Lemma get_two data k1 k2 :
  get data [k1; k2] = (b <- subscript data k1 ;; subscript b k2)%res.
Proof.
  rewrite get_cons. destruct (subscript data k1) as [b|e]; [|reflexivity].
  cbn [rbind]. rewrite get_cons. now destruct (subscript b k2).
Qed.

Lemma generate_resume_writes E loc data st :
  match generate_resume E loc data st with
  | (Ok q, st') =>
      (exists name, get data ["basic"; "name"] = Ok name
                    /\ q = generate_doc_template E name loc)
      /\ files st' = (q, (table_data st', table_styles st')) :: files st
  | (Err _, st') => files st' = files st
  end.
Proof.
  unfold generate_resume.
  repeat match goal with
  | |- context [bind (lift ?r) ?f st] =>
      destruct r as [?|?] eqn:?;
      [ erewrite bind_lift by reflexivity
      | erewrite bind_lift_err by reflexivity; reflexivity ]
  end.
  match goal with
  | H : (b <- subscript data "basic" ;; subscript b "name")%res = Ok ?n
    |- match ?m st with _ => _ end =>
      rewrite <- get_two in H;
      assert (writes (generate_doc_template E n loc) m) as W
  end.
  { repeat match goal with
    | |- writes _ (bind (doc_build _ _) _) => apply writes_doc_build
    | |- writes _ (bind ?m _) =>
        apply writes_bind;
        [ match goal with
          | |- keeps (add_experiences _ _ _) => apply keeps_add_experiences
          | |- keeps (add_education _ _ _) => apply keeps_add_education
          | |- keeps (add_skills _ _ _) => apply keeps_add_skills
          | |- _ => solve [keeps_tac]
          end
        | intros ]
    end. }
  specialize (W st).
  match goal with
  | |- match ?m st with _ => _ end => destruct (m st) as [[q|e] st']
  end.
  - destruct W as [-> W]. split; [|exact W]. eauto.
  - exact W.
Qed.

(** X12: [generate_resume] and [generate_pdf_from_resume_yaml] write a file
    only when they return: the path returned is the one that
    [generate_doc_template] gives for [basic.name], the file written there
    holds the final rows and directives, and the files that were there
    remain.  When they raise, by the record, by the layout engine or by the
    reading of the YAML file, no file is written, and a failure to read the
    YAML file leaves the whole state as it was. *)
Theorem file_written_on_return_only (read_yaml : string -> result value)
    (E : env) (yaml_path loc : string) (data : value) (st : state) :
  match generate_resume E loc data st with
  | (Ok q, st') =>
      (exists name, get data ["basic"; "name"] = Ok name
                    /\ q = generate_doc_template E name loc)
      /\ files st' = (q, (table_data st', table_styles st')) :: files st
  | (Err _, st') => files st' = files st
  end
  /\ match generate_pdf_from_resume_yaml read_yaml E yaml_path loc st with
     | (Ok q, st') =>
         files st' = (q, (table_data st', table_styles st')) :: files st
     | (Err e, st') =>
         files st' = files st
         /\ (forall e', read_yaml yaml_path = Err e' -> e = e' /\ st' = st)
     end.
Proof.
  split; [apply generate_resume_writes|].
  unfold generate_pdf_from_resume_yaml, bind, lift.
  destruct (read_yaml yaml_path) as [d|e0].
  - pose proof (generate_resume_writes E loc d st) as W.
    destruct (generate_resume E loc d st) as [[q|e] st'].
    + exact (proj2 W).
    + split; [exact W|]. discriminate.
  - split; [reflexivity|]. intros e' H. injection H as <-. now split.
Qed.

Lemma file_written_on_return_only_witness :
  (fun _ : string => @Err value (KeyError "resume.yaml")) "resume.yaml"
  = Err (KeyError "resume.yaml")
  /\ match generate_pdf_from_resume_yaml
             (fun _ => Err (KeyError "resume.yaml")) sample_env "resume.yaml"
             "out" initial_state with
     | (Ok q, st') =>
         files st'
         = (q, (table_data st', table_styles st')) :: files initial_state
     | (Err e, st') =>
         files st' = files initial_state
         /\ (forall e',
               (fun _ : string => @Err value (KeyError "resume.yaml"))
                 "resume.yaml" = Err e' ->
               e = e' /\ st' = initial_state)
     end.
Proof.
  split; [reflexivity|].
  exact (proj2 (@file_written_on_return_only
                  (fun _ => Err (KeyError "resume.yaml")) sample_env
                  "resume.yaml" "out" VNone initial_state)).
Defined.

(** ** Joining *)

Lemma all_str_chars s : all_str (chars s) = Ok (letters s).
Proof. unfold chars. apply all_str_strs. Qed.

Lemma all_str_keys (kvs : list (string * value)) :
  all_str (map (fun kv => VStr (fst kv)) kvs) = Ok (map fst kvs).
Proof.
  induction kvs as [|kv kvs IH]; [reflexivity|]. cbn. now rewrite IH.
Qed.

Lemma all_str_other l : forallb is_str l = false -> all_str l = Err TypeError.
Proof.
  induction l as [|v l IH]; [discriminate|]. cbn [forallb].
  destruct v; cbn; try reflexivity.
  intros H. now rewrite (IH H).
Qed.

(** X14: [sep.join(v)] never raises on a string or a mapping: a string
    is joined character by character, a character being a code point (an
    address given as the string Pune becomes P, u, n, e) and a mapping key
    by key; on a list it joins the
    items when all are strings and raises [TypeError] as soon as one item
    is not a string; on [None], a boolean or a number it raises
    [TypeError]. *)
Theorem join_by_kind (sep : string) :
  (forall s, py_join sep (VStr s) = Ok (join sep (letters s)))
  /\ (forall kvs, py_join sep (VDict kvs) = Ok (join sep (map fst kvs)))
  /\ (forall l, py_join sep (VList (map VStr l)) = Ok (join sep l))
  /\ (forall l, forallb is_str l = false ->
                py_join sep (VList l) = Err TypeError)
  /\ (forall b z, py_join sep VNone = Err TypeError
                  /\ py_join sep (VBool b) = Err TypeError
                  /\ py_join sep (VInt z) = Err TypeError).
Proof.
  unfold py_join. repeat split.
  - intros s. cbn. now rewrite all_str_chars.
  - intros kvs. cbn. now rewrite all_str_keys.
  - intros l. cbn. now rewrite all_str_strs.
  - intros l H. cbn. now rewrite (all_str_other l H).
Qed.

Lemma join_by_kind_witness :
  forallb is_str [VStr "Pune"; VInt 411001] = false
  /\ py_join ", " (VList [VStr "Pune"; VInt 411001]) = Err TypeError
  /\ py_join ", " (VStr "Pune") = Ok "P, u, n, e"
  /\ py_join ", " (VStr "Zoë") = Ok "Z, o, ë".
Proof.
  split; [reflexivity|].
  destruct (join_by_kind ", ") as (H1 & _ & _ & H4 & _).
  split; [apply H4; reflexivity|].
  split; [apply (H1 "Pune") | apply (H1 "Zoë")].
Defined.

(** X15: an [address] list with an item that is not a string (a postal
    code given as a number) makes [generate_resume] raise while it still
    reads the record: the state is untouched, no row is appended and no
    file is written. *)
Theorem non_string_address_raises_early (E : env) (loc : string)
    (data b : value) (l : list value) (st : state) :
  subscript data "basic" = Ok b ->
  subscript b "address" = Ok (VList l) ->
  forallb is_str l = false ->
  exists e, generate_resume E loc data st = (Err e, st).
Proof.
  intros Hb Ha Hl. unfold generate_resume.
  repeat match goal with
  | |- context [bind (lift ?r) ?f st] =>
      lazymatch r with
      | context [py_join] => fail
      | _ => destruct r as [?|e] eqn:?;
             [ erewrite bind_lift by reflexivity
             | exists e; now apply bind_lift_err ]
      end
  end.
  exists TypeError. apply bind_lift_err.
  rewrite Hb. cbn [rbind]. rewrite Ha. cbn [rbind].
  unfold py_join. cbn [iterate rbind]. now rewrite (all_str_other l Hl).
Qed.

Lemma non_string_address_raises_early_witness :
  generate_resume sample_env "out"
    (VDict [("basic",
             VDict [("name", VStr "A. D.");
                    ("address", VList [VStr "Pune"; VInt 411001]);
                    ("contact", VDict [("email", VStr "a@b.c");
                                       ("phone", VStr "555")]);
                    ("websites", VList [])])])
    initial_state
  = (Err TypeError, initial_state).
Proof.
  destruct (@non_string_address_raises_early sample_env "out"
              (VDict [("basic",
                       VDict [("name", VStr "A. D.");
                              ("address", VList [VStr "Pune"; VInt 411001]);
                              ("contact", VDict [("email", VStr "a@b.c");
                                                 ("phone", VStr "555")]);
                              ("websites", VList [])])])
              _ [VStr "Pune"; VInt 411001] initial_state
              eq_refl eq_refl eq_refl) as [e H].
  rewrite H. f_equal.
  assert (fst (generate_resume sample_env "out"
                 (VDict [("basic",
                          VDict [("name", VStr "A. D.");
                                 ("address", VList [VStr "Pune"; VInt 411001]);
                                 ("contact", VDict [("email", VStr "a@b.c");
                                                    ("phone", VStr "555")]);
                                 ("websites", VList [])])])
                 initial_state) = Err TypeError) as H'
    by (vm_compute; reflexivity).
  rewrite H in H'. exact H'.
Defined.

(** ** Font registration *)

Lemma register_fonts_app paths names : forall registered,
  (forall sp, In sp paths -> lookup_name (fst sp) names <> None) ->
  _register_fonts paths names registered
  = (Ok tt, (registered ++ fonts_of names paths)%list).
Proof.
  induction paths as [|[style path] paths IH]; intros registered H.
  - cbn. now rewrite app_nil_r.
  - cbn [_register_fonts fonts_of map fst snd].
    pose proof (H (style, path) (or_introl eq_refl)) as Hs. cbn in Hs.
    destruct (lookup_name style names) as [name|]; [|congruence].
    rewrite IH by (intros sp Hsp; apply H; now right).
    unfold fonts_of. now rewrite <- app_assoc.
Qed.

(** X16: [_register_fonts] registers one font per entry of [FONT_PATHS],
    in the order of the entries, under the name that [FONT_NAMES] gives for
    the style and with the path of the entry, after the fonts registered
    before.  At the first style that [FONT_NAMES] lacks it raises
    [KeyError] for that style, the fonts of the entries before it being
    registered already and none of the later ones. *)
Theorem register_fonts_in_order (FONT_NAMES : list (string * string))
    (registered : list (string * string)) :
  (forall FONT_PATHS,
     (forall sp, In sp FONT_PATHS -> lookup_name (fst sp) FONT_NAMES <> None) ->
     _register_fonts FONT_PATHS FONT_NAMES registered
     = (Ok tt, (registered ++ fonts_of FONT_NAMES FONT_PATHS)%list))
  /\ (forall before style path after,
        (forall sp, In sp before -> lookup_name (fst sp) FONT_NAMES <> None) ->
        lookup_name style FONT_NAMES = None ->
        _register_fonts (before ++ (style, path) :: after) FONT_NAMES
                        registered
        = (Err (KeyError style),
           (registered ++ fonts_of FONT_NAMES before)%list)).
Proof.
  split.
  - intros. now apply register_fonts_app.
  - intros before style path after. revert registered.
    induction before as [|[s p] before IH]; intros registered Hb Hs.
    + cbn. rewrite Hs. now rewrite app_nil_r.
    + cbn [app _register_fonts fonts_of map fst snd].
      pose proof (Hb (s, p) (or_introl eq_refl)) as H. cbn in H.
      destruct (lookup_name s FONT_NAMES) as [name|]; [|congruence].
      rewrite IH by (try (intros sp Hsp; apply Hb; now right); assumption).
      unfold fonts_of. now rewrite <- app_assoc.
Qed.

Lemma register_fonts_in_order_witness :
  lookup_name "italic" [("regular", "Fira"); ("bold", "Fira-Bold")] = None
  /\ _register_fonts
       ([("regular", "r.ttf"); ("bold", "b.ttf")]
        ++ ("italic", "i.ttf") :: [("light", "l.ttf")])
       [("regular", "Fira"); ("bold", "Fira-Bold")] []
     = (Err (KeyError "italic"), [("Fira", "r.ttf"); ("Fira-Bold", "b.ttf")]).
Proof.
  split; [reflexivity|].
  destruct (register_fonts_in_order
              [("regular", "Fira"); ("bold", "Fira-Bold")] []) as [_ H].
  apply (H [("regular", "r.ttf"); ("bold", "b.ttf")] "italic" "i.ttf"
           [("light", "l.ttf")]).
  - intros sp [<-|[<-|[]]]; discriminate.
  - reflexivity.
Defined.

(** ** The scan of [str.replace] *)

(** X17: for a non-empty pattern, [replace] is the scan from the left: on
    the empty string it gives the empty string; where the pattern starts
    it puts the replacement and goes on behind the pattern; elsewhere it
    keeps the character and goes on with the next. *)
Theorem replace_scan (old new : string) :
  old <> "" ->
  replace old new "" = ""
  /\ (forall s, replace old new (old ++ s) = new ++ replace old new s)
  /\ (forall c s,
        String.prefix old (String c s) = false ->
        replace old new (String c s) = String c (replace old new s)).
Proof.
  intros Hne. unfold replace. repeat split.
  - intros s. destruct old as [|c old]; [congruence|].
    change (String c old ++ s) with (String c (old ++ s)).
    rewrite replace_from_cons.
    change (String c (old ++ s)) with (String c old ++ s).
    rewrite prefix_app. cbn [String.length Nat.pred].
    now rewrite replace_from_skip.
  - intros c s H. now rewrite replace_from_cons, H.
Qed.

Lemma replace_scan_witness :
  "www." <> ""
  /\ replace "www." "" ("www." ++ "a.www.b") = "" ++ replace "www." "" "a.www.b".
Proof.
  assert ("www." <> "") as H by discriminate.
  split; [exact H|].
  exact (proj1 (proj2 (@replace_scan "www." "" H)) "a.www.b").
Defined.

(** X18: cleaning never makes a URL longer, and it leaves the length
    unchanged only when it leaves the URL unchanged. *)
Theorem clean_url_never_longer (url : string) :
  (String.length (clean_url url) <= String.length url)%nat
  /\ (String.length (clean_url url) = String.length url ->
      clean_url url = url).
Proof.
  unfold clean_url.
  pose proof (length_replace "https://" url) as H1.
  pose proof (length_replace "http://" (replace "https://" "" url)) as H2.
  pose proof (length_replace "www."
                (replace "http://" "" (replace "https://" "" url))) as H3.
  split; [lia|]. intros Hlen.
  destruct (contains "https://" url) eqn:C1.
  { pose proof (@replace_shrinks "https://" url ltac:(discriminate) C1). lia. }
  rewrite (replace_absent _ _ _ C1) in *.
  destruct (contains "http://" url) eqn:C2.
  { pose proof (@replace_shrinks "http://" url ltac:(discriminate) C2). lia. }
  rewrite (replace_absent _ _ _ C2) in *.
  destruct (contains "www." url) eqn:C3.
  { pose proof (@replace_shrinks "www." url ltac:(discriminate) C3). lia. }
  now apply replace_absent.
Qed.

Lemma clean_url_never_longer_witness :
  String.length (clean_url "linkedin.com/in/x") = String.length "linkedin.com/in/x"
  /\ clean_url "linkedin.com/in/x" = "linkedin.com/in/x".
Proof.
  assert (String.length (clean_url "linkedin.com/in/x")
          = String.length "linkedin.com/in/x") as H by (vm_compute; reflexivity).
  split; [exact H|].
  exact (proj2 (clean_url_never_longer "linkedin.com/in/x") H).
Defined.

(** ** Sections given something else than a list *)

(** X19: a section given [None], a boolean or a number in place of its
    list (a key of the YAML file left without a value) raises [TypeError],
    and it does so after having appended its heading row and underline;
    given an empty string or an empty mapping it behaves as on the empty
    list. *)
Theorem sections_on_non_lists (E : env) (row_index : Z) (v : value)
    (st : state) :
  (iterate v = Err TypeError ->
   (fst (add_experiences E row_index v st) = Err TypeError
    /\ table_data (snd (add_experiences E row_index v st))
       = (table_data st ++ [heading_row "Experience"])%list)
   /\ (fst (add_education E row_index v st) = Err TypeError
       /\ table_data (snd (add_education E row_index v st))
          = (table_data st ++ [heading_row "Education"])%list)
   /\ (fst (add_skills E row_index v st) = Err TypeError
       /\ table_data (snd (add_skills E row_index v st))
          = (table_data st ++ [heading_row "Skills"])%list))
  /\ (iterate v = Ok [] ->
      add_experiences E row_index v st
      = add_experiences E row_index (VList []) st
      /\ add_education E row_index v st
         = add_education E row_index (VList []) st
      /\ add_skills E row_index v st = add_skills E row_index (VList []) st).
Proof.
  split.
  - intros H. unfold add_experiences, add_education, add_skills, bind.
    rewrite !add_table_row_accepted by (apply accepted_heading; reflexivity).
    rewrite !append_section_table_style_run. unfold lift. rewrite H.
    repeat split.
  - intros H. unfold add_experiences, add_education, add_skills, bind.
    rewrite !add_table_row_accepted by (apply accepted_heading; reflexivity).
    rewrite !append_section_table_style_run. unfold lift. rewrite H.
    repeat split.
Qed.

Lemma sections_on_non_lists_witness :
  iterate VNone = Err TypeError
  /\ fst (add_skills sample_env 4 VNone initial_state) = Err TypeError
  /\ table_data (snd (add_skills sample_env 4 VNone initial_state))
     = (table_data initial_state ++ [heading_row "Skills"])%list.
Proof.
  split; [reflexivity|].
  destruct (sections_on_non_lists sample_env 4 VNone initial_state)
    as [H _].
  destruct (H eq_refl) as (_ & _ & H3). exact H3.
Defined.

Lemma length_chars s : List.length (chars s) = List.length (letters s).
Proof. unfold chars. apply length_map. Qed.

(** X20: an experience whose [highlights] is a string instead of a list
    yields, besides its two rows, one bullet row per character (code
    point) of the string, the last character in the style and padding of a
    last bullet; with texts that the [Paragraph] constructor accepts
    nothing is raised. *)
Theorem string_highlights_bullet_each_character (E : env) (idx : Z)
    (c l : string) (t : Schema.Title) (s : string) (row_index : Z) :
  accepted E
    ([ [ Paragraph (VStr c) None (PARAGRAPH_STYLES "company_heading");
         Paragraph (VStr (Schema.startdate t ++ "-" ++ Schema.enddate t))
           None (PARAGRAPH_STYLES "company_duration") ];
       [ Paragraph (VStr (Schema.title_name t)) None
           (PARAGRAPH_STYLES "company_title");
         Paragraph (VStr l) None (PARAGRAPH_STYLES "company_location") ] ]
     ++ highlight_rows (Z.of_nat (List.length (letters s))) 0
          (map VStr (letters s))) = true ->
  emits (experience_body E
           (idx, VDict [("company", VStr c); ("location", VStr l);
                        ("titles", VList [Schema.encode_title t]);
                        ("highlights", VStr s)])
           row_index)
        (row_index + 2 + Z.of_nat (List.length (letters s)))
        ([ [ Paragraph (VStr c) None (PARAGRAPH_STYLES "company_heading");
             Paragraph (VStr (Schema.startdate t ++ "-" ++ Schema.enddate t))
               None (PARAGRAPH_STYLES "company_duration") ];
           [ Paragraph (VStr (Schema.title_name t)) None
               (PARAGRAPH_STYLES "company_title");
             Paragraph (VStr l) None (PARAGRAPH_STYLES "company_location") ] ]
         ++ highlight_rows (Z.of_nat (List.length (letters s))) 0
              (map VStr (letters s)))
        (row_styles row_index (DEFAULT_PADDING E) false
         ++ row_styles (row_index + 1) (DEFAULT_PADDING E) false
         ++ highlight_styles (Z.of_nat (List.length (letters s))) 0
              (row_index + 2) (map VStr (letters s))).
Proof.
  intros H. cbn [app] in H. rewrite !accepted_cons in H.
  apply andb_true_iff in H. destruct H as [H1 H].
  apply andb_true_iff in H. destruct H as [H2 H3].
  unfold experience_body.
  eapply emits_eq.
  - eapply emits_bind; [apply emits_lift; reflexivity|].
    eapply emits_bind; [apply emits_lift; reflexivity|].
    eapply emits_bind; [apply emits_lift; reflexivity|].
    eapply emits_bind; [apply emits_add_table_row; exact H1|].
    eapply emits_bind; [apply emits_lift; reflexivity|].
    eapply emits_bind; [apply emits_lift; reflexivity|].
    eapply emits_bind; [apply emits_add_table_row; exact H2|].
    eapply emits_bind; [apply emits_lift; reflexivity|].
    apply emits_highlights.
    rewrite length_chars. exact H3.
  - rewrite length_chars. lia.
  - rewrite length_chars. reflexivity.
  - rewrite length_chars. cbn [app].
    replace (row_index + 1 + 1) with (row_index + 2) by lia. reflexivity.
Qed.

Lemma string_highlights_bullet_each_character_witness :
  emits (experience_body sample_env
           (0, VDict [("company", VStr "Acme"); ("location", VStr "Pune");
                      ("titles",
                       VList [VDict [("name", VStr "Engineer");
                                     ("startdate", VStr "2020");
                                     ("enddate", VStr "2022")]]);
                      ("highlights", VStr "añ")])
           5)
        9
        [ [ Paragraph (VStr "Acme") None (PARAGRAPH_STYLES "company_heading");
            Paragraph (VStr "2020-2022") None
              (PARAGRAPH_STYLES "company_duration") ];
          [ Paragraph (VStr "Engineer") None (PARAGRAPH_STYLES "company_title");
            Paragraph (VStr "Pune") None
              (PARAGRAPH_STYLES "company_location") ];
          [ Paragraph (VStr "a") (Some "•") (PARAGRAPH_STYLES "bullet_points") ];
          [ Paragraph (VStr "ñ") (Some "•")
              (PARAGRAPH_STYLES "last_bullet_point") ] ]
        (row_styles 5 (1, 1) false ++ row_styles 6 (1, 1) false
         ++ row_styles 7 (0, 1) true ++ row_styles 8 (5, 1) true).
Proof.
  apply (@string_highlights_bullet_each_character sample_env 0 "Acme" "Pune"
           {| Schema.title_name := "Engineer"; Schema.startdate := "2020";
              Schema.enddate := "2022" |} "añ" 5).
  vm_compute. reflexivity.
Defined.

(** ** Records that are not mappings *)

(** X21: a record that is not a mapping (an empty YAML document read as
    [None], a list, a string, a number) makes [generate_resume] raise
    [TypeError] at its first lookup, with the state untouched; through
    [generate_pdf_from_resume_yaml] likewise. *)
Theorem non_mapping_record_raises (read_yaml : string -> result value)
    (E : env) (yaml_path loc : string) (data : value) (st : state) :
  (forall kvs, data <> VDict kvs) ->
  generate_resume E loc data st = (Err TypeError, st)
  /\ (read_yaml yaml_path = Ok data ->
      generate_pdf_from_resume_yaml read_yaml E yaml_path loc st
      = (Err TypeError, st)).
Proof.
  intros H.
  assert (generate_resume E loc data st = (Err TypeError, st)) as Hrun.
  { unfold generate_resume. apply bind_lift_err.
    destruct data; try reflexivity. now destruct (H kvs). }
  split; [exact Hrun|].
  intros Hy. unfold generate_pdf_from_resume_yaml.
  now rewrite (@bind_lift _ _ _ data) by exact Hy.
Qed.

Lemma non_mapping_record_raises_witness :
  (forall kvs, VNone <> VDict kvs)
  /\ generate_resume sample_env "out" VNone initial_state
     = (Err TypeError, initial_state).
Proof.
  assert (forall kvs, VNone <> VDict kvs) as H by discriminate.
  split; [exact H|].
  exact (proj1 (@non_mapping_record_raises (fun _ => Ok VNone) sample_env
                  "resume.yaml" "out" VNone initial_state H)).
Defined.

(** ** Outcome on a valid record *)

(** X22: on a valid record whose texts the [Paragraph] constructor accepts,
    the only thing that can make [generate_resume] raise is the layout
    engine: the run returns the path of the document
    when the engine completes on the rows and directives of the record, and
    raises the engine's error otherwise, in which case the files are as
    before. *)
Theorem valid_record_outcome (E : env) (loc : string)
    (r : Schema.ResumeRecord) (st : state) :
  Schema.valid r = true ->
  accepted E (document_rows E r) = true ->
  fst (generate_resume E loc (Schema.encode r) st)
  = (if layout_ok E (document_rows E r) (document_styles E r)
     then Ok (generate_doc_template E (VStr (Schema.name r)) loc)
     else Err RenderError)
  /\ files (snd (generate_resume E loc (Schema.encode r) st))
     = (if layout_ok E (document_rows E r) (document_styles E r)
        then (generate_doc_template E (VStr (Schema.name r)) loc,
              (document_rows E r, document_styles E r)) :: files st
        else files st).
Proof.
  intros Hv Ha.
  destruct (@generate_resume_valid E loc r st Hv Ha) as (s & -> & _ & _ & Hf).
  now split.
Qed.

Lemma valid_record_outcome_witness :
  Schema.valid sample_record = true
  /\ accepted sample_env (document_rows sample_env sample_record) = true
  /\ fst (generate_resume sample_env "out" (Schema.encode sample_record)
            initial_state)
     = (if layout_ok sample_env (document_rows sample_env sample_record)
             (document_styles sample_env sample_record)
        then Ok (generate_doc_template sample_env
                   (VStr (Schema.name sample_record)) "out")
        else Err RenderError).
Proof.
  assert (accepted sample_env (document_rows sample_env sample_record) = true)
    as Ha by (vm_compute; reflexivity).
  split; [reflexivity|]. split; [exact Ha|].
  exact (proj1 (@valid_record_outcome sample_env "out" sample_record
                  initial_state eq_refl Ha)).
Defined.

(** ** Rows are built before they are appended *)

Lemma cells_app (E : env) b pre rest :
  cells E b (pre ++ rest)
  = (ps <- cells E b pre ;; qs <- cells E b rest ;; Ok (ps ++ qs)%list)%res.
Proof.
  induction pre as [|[c s] pre IH].
  - cbn. now destruct (cells E b rest).
  - cbn [app cells]. destruct (new_Paragraph E c b s); [|reflexivity].
    cbn [rbind]. rewrite IH.
    destruct (cells E b pre); [|reflexivity]. cbn [rbind].
    now destruct (cells E b rest).
Qed.

(** X23: a call of [_add_table_row] is all or nothing.  Either the
    [Paragraph] constructor raises on one of the cells, and then nothing has
    been appended to [table_data] or [table_styles]; or the call returns
    [row_index + 1] after appending exactly one row, with one cell per pair
    of [content_style_map] in order, and the padding (and span) directives
    of that row.  It raises whenever a cell is refused, and with
    [AttributeError] when the first refused cell holds something else than
    a string (a key of the YAML file left without a value). *)
Theorem add_table_row_all_or_nothing (E : env) (row_index : Z)
    (content_style_map : list (value * paragraph_style)) (span : bool)
    (padding : Z * Z) (bullet_point : option string) (st : state) :
  ((exists e,
       _add_table_row E row_index content_style_map span padding bullet_point
                      st = (Err e, st))
   \/ (exists st',
          _add_table_row E row_index content_style_map span padding
                         bullet_point st = (Ok (row_index + 1), st')
          /\ table_data st'
             = (table_data st ++ [cells_of bullet_point content_style_map])%list
          /\ table_styles st'
             = (table_styles st ++ row_styles row_index padding span)%list
          /\ files st' = files st))
  /\ (accepted_row E (cells_of bullet_point content_style_map) = false ->
      exists e,
        _add_table_row E row_index content_style_map span padding bullet_point
                       st = (Err e, st))
  /\ (forall pre x sty post,
        content_style_map = (pre ++ (x, sty) :: post)%list ->
        accepted_row E (cells_of bullet_point pre) = true ->
        is_str x = false ->
        _add_table_row E row_index content_style_map span padding bullet_point
                       st = (Err AttributeError, st)).
Proof.
  split; [|split].
  - destruct (add_table_row_cases E row_index content_style_map span padding
                bullet_point st) as [[e He]|[_ He]].
    + left. now exists e.
    + right. eexists. split; [exact He|]. repeat split.
  - intros Hn.
    destruct (add_table_row_cases E row_index content_style_map span padding
                bullet_point st) as [[e He]|[Ha _]].
    + now exists e.
    + congruence.
  - intros pre x sty post -> Hpre Hx. rewrite add_table_row_run.
    rewrite cells_app. unfold cells_of in Hpre.
    rewrite (cells_accepted _ _ _ Hpre). cbn [rbind cells].
    destruct x; try discriminate Hx; reflexivity.
Qed.

Lemma add_table_row_all_or_nothing_witness :
  accepted_row sample_env (cells_of None []) = true
  /\ is_str VNone = false
  /\ _add_table_row sample_env 3 [(VNone, PARAGRAPH_STYLES "objective")] true
                    (1, 1) None initial_state
     = (Err AttributeError, initial_state).
Proof.
  split; [reflexivity|]. split; [reflexivity|].
  destruct (add_table_row_all_or_nothing sample_env 3
              [(VNone, PARAGRAPH_STYLES "objective")] true (1, 1) None
              initial_state) as (_ & _ & H).
  apply (H [] VNone (PARAGRAPH_STYLES "objective") []); reflexivity.
Defined.

Lemma add_table_row_non_string (E : env) row_index x sty span padding
    bullet_point st :
  is_str x = false ->
  _add_table_row E row_index [(x, sty)] span padding bullet_point st
  = (Err AttributeError, st).
Proof.
  intros Hx. rewrite add_table_row_run. cbn [cells].
  destruct x; try discriminate Hx; reflexivity.
Qed.

Lemma put_objective_same (r : Schema.ResumeRecord) (v : value) :
  subscript (put "objective" v (Schema.encode r)) "objective" = Ok v.
Proof. unfold Schema.encode. destruct (Schema.debug r); reflexivity. Qed.

Lemma put_objective_basic (r : Schema.ResumeRecord) (v : value) :
  subscript (put "objective" v (Schema.encode r)) "basic"
  = subscript (Schema.encode r) "basic".
Proof. unfold Schema.encode. destruct (Schema.debug r); reflexivity. Qed.

Lemma put_objective_debug (r : Schema.ResumeRecord) (v d : value) :
  dict_get (put "objective" v (Schema.encode r)) "debug" d
  = dict_get (Schema.encode r) "debug" d.
Proof. unfold Schema.encode. destruct (Schema.debug r); reflexivity. Qed.

(** X24: a record whose [objective] is not a string (a key of the YAML
    file left without a value is read as [None]; a number, a list) makes
    [generate_resume] raise [AttributeError] when it builds the row of the
    objective: by then the name row, the contact row and the Objective
    heading have been appended, and no file is written. *)
Theorem non_string_objective_raises (E : env) (loc : string)
    (r : Schema.ResumeRecord) (v : value) (st : state) :
  is_str v = false ->
  accepted E (firstn 2 (document_rows E r)) = true ->
  exists st',
    generate_resume E loc (put "objective" v (Schema.encode r)) st
    = (Err AttributeError, st')
    /\ table_data st' = firstn 3 (document_rows E r)
    /\ files st' = files st.
Proof.
  intros Hv Ha. unfold document_rows in Ha. cbn [app firstn] in Ha.
  rewrite !accepted_cons in Ha.
  apply andb_true_iff in Ha. destruct Ha as [H1 Ha].
  apply andb_true_iff in Ha. destruct Ha as [H2 _].
  unfold generate_resume.
  rewrite put_objective_debug, !put_objective_basic, put_objective_same.
  run_header E r st H1 H2.
  rewrite (@bind_lift _ _ _ v) by reflexivity.
  unfold bind at 1. rewrite add_table_row_non_string by exact Hv.
  eexists. split; [reflexivity|].
  split; [gather_rows; reflexivity | gather_files; reflexivity].
Qed.

Lemma non_string_objective_raises_witness :
  is_str VNone = false
  /\ accepted sample_env (firstn 2 (document_rows sample_env sample_record))
     = true
  /\ exists st',
       generate_resume sample_env "out"
         (put "objective" VNone (Schema.encode sample_record)) initial_state
       = (Err AttributeError, st')
       /\ table_data st' = firstn 3 (document_rows sample_env sample_record)
       /\ files st' = files initial_state.
Proof.
  assert (accepted sample_env
            (firstn 2 (document_rows sample_env sample_record)) = true) as Ha
    by (vm_compute; reflexivity).
  split; [reflexivity|]. split; [exact Ha|].
  exact (@non_string_objective_raises sample_env "out" sample_record VNone
           initial_state eq_refl Ha).
Defined.

(** X25: a valid record whose objective holds markup that the parser
    refuses (a tag left open) makes [generate_resume] raise the parser's
    error when it builds the row of the objective: the name row, the
    contact row and the Objective heading have been appended, the sections
    are not run, and no file is written. *)
Theorem refused_objective_raises (E : env) (loc : string)
    (r : Schema.ResumeRecord) (e : exn) (st : state) :
  plain (Schema.objective r) = false ->
  markup_error E (Schema.objective r) None (PARAGRAPH_STYLES "objective")
  = Some e ->
  accepted E (firstn 2 (document_rows E r)) = true ->
  exists st',
    generate_resume E loc (Schema.encode r) st = (Err e, st')
    /\ table_data st' = firstn 3 (document_rows E r)
    /\ files st' = files st.
Proof.
  intros Hp Hm Ha. unfold document_rows in Ha. cbn [app firstn] in Ha.
  rewrite !accepted_cons in Ha.
  apply andb_true_iff in Ha. destruct Ha as [H1 Ha].
  apply andb_true_iff in Ha. destruct Ha as [H2 _].
  unfold generate_resume.
  run_header E r st H1 H2.
  rewrite (@bind_lift _ _ _ (VStr (Schema.objective r))) by reflexivity.
  unfold bind at 1. rewrite add_table_row_run.
  cbn [given cells new_Paragraph rbind]. rewrite Hp, Hm. cbn [rbind].
  eexists. split; [reflexivity|].
  split; [gather_rows; reflexivity | gather_files; reflexivity].
Qed.

Lemma refused_objective_raises_witness :
  plain (Schema.objective record_with_open_tag) = false
  /\ markup_error sample_env (Schema.objective record_with_open_tag) None
       (PARAGRAPH_STYLES "objective") = Some ValueError
  /\ accepted sample_env
       (firstn 2 (document_rows sample_env record_with_open_tag)) = true
  /\ exists st',
       generate_resume sample_env "out" (Schema.encode record_with_open_tag)
         initial_state = (Err ValueError, st')
       /\ table_data st'
          = firstn 3 (document_rows sample_env record_with_open_tag)
       /\ files st' = files initial_state.
Proof.
  assert (plain (Schema.objective record_with_open_tag) = false) as Hp
    by (vm_compute; reflexivity).
  assert (markup_error sample_env (Schema.objective record_with_open_tag) None
            (PARAGRAPH_STYLES "objective") = Some ValueError) as Hm
    by (vm_compute; reflexivity).
  assert (accepted sample_env
            (firstn 2 (document_rows sample_env record_with_open_tag)) = true)
    as Ha by (vm_compute; reflexivity).
  split; [exact Hp|]. split; [exact Hm|]. split; [exact Ha|].
  exact (@refused_objective_raises sample_env "out" record_with_open_tag
           ValueError initial_state Hp Hm Ha).
Defined.
